(** * Activity tracker: session aggregation and notification scheduling

    A shallow embedding of [src/main/tracker/database.ts] (class
    [ActivityDatabase]) and [src/main/notifications.ts] (class
    [NotificationManager]), with the properties of both that the
    specification states.

    Conventions.
    - A JavaScript number that holds a count of milliseconds, a row id or a
      row count is a [Z].  Such values stay far below 2^53, where binary64
      arithmetic on integers is exact.  Quotients that are not integers
      ([x / 3600000] before [toFixed], [productive / total * 100]) are
      computed in binary64 with [SpecFloat], as the engine does.
    - A JavaScript string is a [string] of bytes (UTF-8).
    - [null] and [undefined] results of the database are [None].  A value
      that the manager reads from parsed JSON is an [option JSON.value]:
      [None] is [undefined], [Some JSON.Null] is [null].
    - The tables are lists of rows in insertion order; the object fields of
      both classes are record fields of an explicit state. *)

From Stdlib Require Import ZArith String Ascii List Bool Lia.
From Stdlib Require Import SpecFloat DecimalString DecimalPos Sorted Permutation.
From stdpp Require Import gmap strings.

Open Scope Z_scope.

(* ===================================================================== *)
(** * JavaScript primitives used by the two classes                        *)
(* ===================================================================== *)

Module JS.

(** The double quote character, for string values that contain it. *)
Definition dq : ascii := Ascii false true false false false true false false.

(** [String(n)] for an integral number [n] (plain digits below 1e21). *)
Definition string_of_Z (n : Z) : string := NilZero.string_of_int (Z.to_int n).

(** [s.replace(/_/g, " ")]. *)
Fixpoint replace_underscores (s : string) : string :=
  match s with
  | EmptyString => EmptyString
  | String c s' =>
      String (if Ascii.eqb c "_" then " "%char else c) (replace_underscores s')
  end.

(** [s.replace(/\.0$/, "")]: a final [.0] is removed. *)
Fixpoint strip_dot_zero (s : string) : string :=
  match s with
  | EmptyString => EmptyString
  | String c s' =>
      if (Ascii.eqb c "." && String.eqb s' "0")%bool then EmptyString
      else String c (strip_dot_zero s')
  end.

(** Truthiness of a [string | null] value: [null] and the empty string are
    falsy. *)
Definition truthy_string (v : option string) : bool :=
  match v with
  | None | Some EmptyString => false
  | Some _ => true
  end.

(** ** [parseInt(s, 10)] *)

(** White space skipped by [parseInt]: the ASCII white space and line
    terminators, and the UTF-8 encodings of U+00A0, U+1680, U+2000..U+200A,
    U+2028, U+2029, U+202F, U+205F, U+3000 and U+FEFF. *)
Fixpoint skip_white (s : string) : string :=
  match s with
  | String c s1 =>
      let n := Z.of_nat (nat_of_ascii c) in
      if (n =? 32) || ((9 <=? n) && (n <=? 13)) then skip_white s1
      else
        match s1 with
        | String c2 s2 =>
            let n2 := Z.of_nat (nat_of_ascii c2) in
            if (n =? 194) && (n2 =? 160) then skip_white s2
            else
              match s2 with
              | String c3 s3 =>
                  let n3 := Z.of_nat (nat_of_ascii c3) in
                  if ((n =? 225) && (n2 =? 154) && (n3 =? 128))
                     || ((n =? 226) && (n2 =? 128)
                         && (((128 <=? n3) && (n3 <=? 138))
                             || (n3 =? 168) || (n3 =? 169) || (n3 =? 175)))
                     || ((n =? 226) && (n2 =? 129) && (n3 =? 159))
                     || ((n =? 227) && (n2 =? 128) && (n3 =? 128))
                     || ((n =? 239) && (n2 =? 187) && (n3 =? 191))
                  then skip_white s3
                  else s
              | EmptyString => s
              end
        | EmptyString => s
        end
  | EmptyString => s
  end.

Definition digit_value (c : ascii) : option Z :=
  let n := Z.of_nat (nat_of_ascii c) in
  if (48 <=? n) && (n <=? 57) then Some (n - 48) else None.

(** The longest prefix of decimal digits, as a number; [acc] is the value
    read so far, [None] before the first digit. *)
Fixpoint read_digits (s : string) (acc : option Z) : option Z :=
  match s with
  | String c s' =>
      match digit_value c with
      | Some d => read_digits s' (Some (10 * default 0 acc + d))
      | None => acc
      end
  | EmptyString => acc
  end.

(** [parseInt(s, 10)]: the integer that the digits denote; [None] is [NaN].
    (The engine returns the number nearest to that integer, which is the
    integer itself up to 2^53.) *)
Definition parseInt (s : string) : option Z :=
  match skip_white s with
  | String "-" s' => Z.opp <$> read_digits s' None
  | String "+" s' => read_digits s' None
  | s' => read_digits s' None
  end.

(** ** Rounding *)

(** [Math.round(n / d)] for integers [n] and [d > 0]: the nearest integer,
    halves going up.  (The binary64 quotient rounds to the same integer as
    the exact one while [n + d < 2^52].) *)
Definition round_div (n d : Z) : Z := (2 * n + d) / (2 * d).

(** ** binary64 *)

Definition prec : Z := 53.
Definition emax : Z := 1024.

(** The number nearest to an integer (SQLite integers and integer literals
    reach the engine as numbers). *)
Definition of_Z (z : Z) : spec_float := binary_normalize prec emax z 0 false.

Definition fdiv (x y : spec_float) : spec_float := SFdiv prec emax x y.
Definition fmul (x y : spec_float) : spec_float := SFmul prec emax x y.

(** [floor (m * 2^e + 1/2)] for [m >= 0]. *)
Definition round_half_up (m e : Z) : Z :=
  if 0 <=? e then m * 2 ^ e else (2 * m + 2 ^ (- e)) / (2 * 2 ^ (- e)).

(** [floor (- m * 2^e + 1/2)] for [m >= 0]. *)
Definition round_half_up_neg (m e : Z) : Z :=
  if 0 <=? e then - (m * 2 ^ e) else (2 ^ (- e) - 2 * m) / (2 * 2 ^ (- e)).

(** [String(Math.round(x))]. *)
Definition Math_round_string (x : spec_float) : string :=
  match x with
  | S754_nan => "NaN"
  | S754_infinity false => "Infinity"
  | S754_infinity true => "-Infinity"
  | S754_zero _ => "0"
  | S754_finite false m e => string_of_Z (round_half_up (Zpos m) e)
  | S754_finite true m e => string_of_Z (round_half_up_neg (Zpos m) e)
  end.

(** [|x| < 10^21] for a finite [x = m * 2^e]. *)
Definition below_1e21 (m e : Z) : bool :=
  if 0 <=? e then m * 2 ^ e <? 10 ^ 21 else m <? 10 ^ 21 * 2 ^ (- e).

(** [x.toFixed(1)]: for [|x| < 10^21] the integer [n] with [n / 10] nearest
    to [|x|] (the larger one on a tie), printed with one decimal.  From
    [10^21] on [toFixed] writes the exponent notation of [String(x)]; the
    embedding leaves that notation out ([None]). *)
Definition toFixed1 (x : spec_float) : option string :=
  match x with
  | S754_nan => Some "NaN"
  | S754_infinity false => Some "Infinity"
  | S754_infinity true => Some "-Infinity"
  | S754_zero _ => Some "0.0"
  | S754_finite s m e =>
      if below_1e21 (Zpos m) e then
        let n := round_half_up (10 * Zpos m) e in
        Some ((if s then "-" else EmptyString)
                +:+ string_of_Z (n / 10) +:+ "." +:+ string_of_Z (n mod 10))
      else None
  end.

(** [x >= y] on numbers: [false] when either is [NaN]. *)
Definition ge (x y : spec_float) : bool :=
  match SFcompare x y with
  | Some Gt | Some Eq => true
  | _ => false
  end.

End JS.


Import JS.

(* ===================================================================== *)
(** * The activity database ([src/main/tracker/database.ts])               *)
(* ===================================================================== *)

(** A row of the [sessions] table ([src/main/db/schema.ts]). *)
Module Session.
Record t : Type := mk {
  id : Z;
  appName : string;
  category : option string;
  startTime : Z;
  endTime : Z;
  totalDuration : Z;
  activityCount : Z;
  createdAt : option string }.
End Session.

(** A row of the [activities] table ([src/main/db/schema.ts]). *)
Module Activity.
Record t : Type := mk {
  id : Z;
  sessionId : option Z;
  appName : string;
  windowTitle : option string;
  url : option string;
  category : option string;
  projectName : option string;
  fileName : option string;
  fileType : option string;
  language : option string;
  domain : option string;
  startTime : Z;
  endTime : Z;
  duration : Z;
  contextJson : option string;
  createdAt : option string }.
End Activity.

(** The argument object of [insertActivity].  Modelled from the spec: the
    type [Category] of categorizer.ts, a label assigned by the classifier,
    is a [string]. *)
Module ActivityInput.
Record t : Type := mk {
  app_name : string;
  window_title : string;
  url : option string;
  category : string;
  project_name : option string;
  file_name : option string;
  file_type : option string;
  language : option string;
  domain : option string;
  start_time : Z;
  end_time : Z;
  duration : Z;
  context_json : option string }.
End ActivityInput.

(** [interface ActivityRecord]. *)
Module ActivityRecord.
Record t : Type := mk {
  id : Z;
  session_id : option Z;
  app_name : string;
  window_title : option string;
  url : option string;
  category : option string;
  project_name : option string;
  file_name : option string;
  file_type : option string;
  language : option string;
  domain : option string;
  start_time : Z;
  end_time : Z;
  duration : Z;
  context_json : option string;
  created_at : option string }.
End ActivityRecord.

(** [interface SessionWithActivities extends SessionRecord]. *)
Module SessionWithActivities.
Record t : Type := mk {
  id : Z;
  app_name : string;
  category : option string;
  start_time : Z;
  end_time : Z;
  total_duration : Z;
  activity_count : Z;
  created_at : option string;
  activities : list ActivityRecord.t }.
End SessionWithActivities.

(** A row of [getCategoryBreakdown]: one group of [GROUP BY category]. *)
Module CategoryRow.
Record t : Type := mk {
  category : option string;
  total_duration : Z;
  session_count : Z }.
End CategoryRow.

(** A row of [getAppUsage], [getProjectTime] or [getDomainUsage]: one group
    of [GROUP BY], with the value of its key column ([app_name],
    [project_name] or [domain]) as [name]. *)
Module UsageRow.
Record t (K : Type) : Type := mk {
  name : K;
  total_duration : Z;
  session_count : Z }.
Arguments mk {K} _ _ _.
Arguments name {K} _.
Arguments total_duration {K} _.
Arguments session_count {K} _.
End UsageRow.

Module Db.

(** The state behind an [ActivityDatabase] object: the two tables, the
    [AUTOINCREMENT] counters of SQLite (the largest id each table has used),
    the clock that fills [created_at], the settings table, and the two
    private fields that point to the open session. *)
Record t : Type := mk {
  sessions : list Session.t;
  activities : list Activity.t;
  seq_sessions : Z;
  seq_activities : Z;
  CURRENT_TIMESTAMP : string;
  settings : gmap string string;
  currentSessionId : option Z;
  currentSessionAppName : option string }.

(** A new, empty database file. *)
Definition empty (now : string) : t :=
  mk [] [] 0 0 now ∅ None None.

Definition set_sessions (rows : list Session.t) (seq : Z) (db : t) : t :=
  mk rows (activities db) seq (seq_activities db) (CURRENT_TIMESTAMP db)
     (settings db) (currentSessionId db) (currentSessionAppName db).

Definition set_activities (rows : list Activity.t) (seq : Z) (db : t) : t :=
  mk (sessions db) rows (seq_sessions db) seq (CURRENT_TIMESTAMP db)
     (settings db) (currentSessionId db) (currentSessionAppName db).

Definition set_current (sid : option Z) (app : option string) (db : t) : t :=
  mk (sessions db) (activities db) (seq_sessions db) (seq_activities db)
     (CURRENT_TIMESTAMP db) (settings db) sid app.

(** Modelled from the spec: [getSetting(key)] of the settings store, which
    this revision of database.ts does not contain
    ([PersistentKV.get(key) -> string | null]). *)
Definition getSetting (key : string) (db : t) : option string :=
  settings db !! key.

(** Modelled from the spec: [setSetting(key, value)] of the settings store
    ([PersistentKV.set(key, value)], last write wins). *)
Definition setSetting (key value : string) (db : t) : t :=
  mk (sessions db) (activities db) (seq_sessions db) (seq_activities db)
     (CURRENT_TIMESTAMP db) (<[key := value]> (settings db))
     (currentSessionId db) (currentSessionAppName db).

(** [createSession]: inserts the row and returns its id. *)
Definition createSession (appName category : string) (startTime : Z) (db : t)
  : Z * t :=
  let id := seq_sessions db + 1 in
  let row := Session.mk id appName (Some category) startTime startTime 0 0
               (Some (CURRENT_TIMESTAMP db)) in
  (id, set_sessions (sessions db ++ [row]) id db).

(** The [SET] clause of [updateSession], applied to one row. *)
Definition extend (endTime duration : Z) (s : Session.t) : Session.t :=
  Session.mk (Session.id s) (Session.appName s) (Session.category s)
    (Session.startTime s) endTime
    (Session.totalDuration s + duration) (Session.activityCount s + 1)
    (Session.createdAt s).

(** [updateSession]: [UPDATE sessions SET ... WHERE id = sessionId]. *)
Definition updateSession (sessionId endTime duration : Z) (db : t) : t :=
  set_sessions
    (map (fun s => if Session.id s =? sessionId
                   then extend endTime duration s else s)
         (sessions db))
    (seq_sessions db) db.

(** The test [this.currentSessionId && this.currentSessionAppName === appName]:
    a [null] or zero id is falsy. *)
Definition open_for (appName : string) (db : t) : option Z :=
  match currentSessionId db, currentSessionAppName db with
  | Some sid, Some app =>
      if negb (sid =? 0) && String.eqb app appName then Some sid else None
  | _, _ => None
  end.

Definition getOrCreateSession (appName category : string) (startTime : Z)
  (db : t) : Z * t :=
  match open_for appName db with
  | Some sid => (sid, db)
  | None =>
      let '(sessionId, db1) := createSession appName category startTime db in
      (sessionId, set_current (Some sessionId) (Some appName) db1)
  end.

Definition closeCurrentSession (db : t) : t := set_current None None db.

(** The values of the [insert(activities)] in [insertActivity]. *)
Definition new_row (id sessionId : Z) (activity : ActivityInput.t)
  (created : string) : Activity.t :=
  Activity.mk id (Some sessionId)
    (ActivityInput.app_name activity)
    (Some (ActivityInput.window_title activity))
    (ActivityInput.url activity)
    (Some (ActivityInput.category activity))
    (ActivityInput.project_name activity)
    (ActivityInput.file_name activity)
    (ActivityInput.file_type activity)
    (ActivityInput.language activity)
    (ActivityInput.domain activity)
    (ActivityInput.start_time activity)
    (ActivityInput.end_time activity)
    (ActivityInput.duration activity)
    (ActivityInput.context_json activity)
    (Some created).

Definition insertActivity (activity : ActivityInput.t) (db : t) : Z * t :=
  let '(sessionId, db1) :=
    getOrCreateSession (ActivityInput.app_name activity)
      (ActivityInput.category activity) (ActivityInput.start_time activity) db in
  let id := seq_activities db1 + 1 in
  let row := new_row id sessionId activity (CURRENT_TIMESTAMP db1) in
  let db2 := set_activities (activities db1 ++ [row]) id db1 in
  (id, updateSession sessionId (ActivityInput.end_time activity)
         (ActivityInput.duration activity) db2).

(** ** Queries *)

(** [gte(col, startTime) AND lte(col, endTime)]. *)
Definition in_range (startTime endTime x : Z) : bool :=
  (startTime <=? x) && (x <=? endTime).

(** [ORDER BY key DESC], as a stable insertion sort: rows with equal keys
    keep the order in which they were met. *)
Fixpoint insert_desc {A} (key : A -> Z) (x : A) (l : list A) : list A :=
  match l with
  | [] => [x]
  | y :: l' => if key y <=? key x then x :: l else y :: insert_desc key x l'
  end.

Definition sort_desc {A} (key : A -> Z) (l : list A) : list A :=
  foldr (insert_desc key) [] l.

Definition rows_in_range (startTime endTime : Z) (db : t) : list Activity.t :=
  List.filter (fun a => in_range startTime endTime (Activity.startTime a))
    (activities db).

Definition category_eqb (c1 c2 : option string) : bool :=
  match c1, c2 with
  | Some a, Some b => String.eqb a b
  | None, None => true
  | _, _ => false
  end.

(** One more row for the group of category [c]. *)
Fixpoint group_add (c : option string) (d : Z) (rows : list CategoryRow.t)
  : list CategoryRow.t :=
  match rows with
  | [] => [CategoryRow.mk c d 1]
  | r :: rows' =>
      if category_eqb c (CategoryRow.category r)
      then CategoryRow.mk c (CategoryRow.total_duration r + d)
             (CategoryRow.session_count r + 1) :: rows'
      else r :: group_add c d rows'
  end.

(** [GROUP BY category] with [sum(duration)] and [count( * )]; the [NULL]
    category is a group of its own. *)
Definition group_by_category (rows : list Activity.t) : list CategoryRow.t :=
  fold_left
    (fun acc a => group_add (Activity.category a) (Activity.duration a) acc)
    rows [].

Definition getCategoryBreakdown (startTime endTime : Z) (db : t)
  : list CategoryRow.t :=
  sort_desc CategoryRow.total_duration
    (group_by_category (rows_in_range startTime endTime db)).

(** [sum(duration)] of no row is [NULL], which [?? 0] turns into 0. *)
Definition getTotalTrackedTime (startTime endTime : Z) (db : t) : Z :=
  fold_right Z.add 0 (map Activity.duration (rows_in_range startTime endTime db)).

Definition mapToRecord (row : Activity.t) : ActivityRecord.t :=
  ActivityRecord.mk (Activity.id row) (Activity.sessionId row)
    (Activity.appName row) (Activity.windowTitle row) (Activity.url row)
    (Activity.category row) (Activity.projectName row) (Activity.fileName row)
    (Activity.fileType row) (Activity.language row) (Activity.domain row)
    (Activity.startTime row) (Activity.endTime row) (Activity.duration row)
    (Activity.contextJson row) (Activity.createdAt row).

Definition getActivitiesInRange (startTime endTime : Z) (db : t)
  : list ActivityRecord.t :=
  map mapToRecord
    (sort_desc Activity.startTime (rows_in_range startTime endTime db)).

(** The loop that fills [activitiesBySession]: each row is pushed on the
    array stored under [activity.sessionId ?? 0]. *)
Definition group_step (m : gmap Z (list ActivityRecord.t)) (activity : Activity.t)
  : gmap Z (list ActivityRecord.t) :=
  let sessionId := default 0 (Activity.sessionId activity) in
  let sessionActivities := default [] (m !! sessionId) in
  <[sessionId := sessionActivities ++ [mapToRecord activity]]> m.

Definition activitiesBySession (activityRows : list Activity.t)
  : gmap Z (list ActivityRecord.t) :=
  fold_left group_step activityRows ∅.

Definition getSessionsWithActivities (startTime endTime : Z) (db : t)
  : list SessionWithActivities.t :=
  let sessionRows :=
    sort_desc Session.startTime
      (List.filter (fun s => in_range startTime endTime (Session.startTime s))
         (sessions db)) in
  match sessionRows with
  | [] => []
  | _ =>
      let activityRows :=
        sort_desc Activity.startTime (rows_in_range startTime endTime db) in
      let bySession := activitiesBySession activityRows in
      map (fun session =>
             SessionWithActivities.mk (Session.id session)
               (Session.appName session) (Session.category session)
               (Session.startTime session) (Session.endTime session)
               (Session.totalDuration session) (Session.activityCount session)
               (Session.createdAt session)
               (default [] (bySession !! Session.id session)))
          sessionRows
  end.

(** ** Usage by app, project and domain *)

(** One more row for the group of key [k]; [eqb] compares two keys. *)
Fixpoint usage_add {K} (eqb : K -> K -> bool) (k : K) (d : Z)
  (rows : list (UsageRow.t K)) : list (UsageRow.t K) :=
  match rows with
  | [] => [UsageRow.mk k d 1]
  | r :: rows' =>
      if eqb k (UsageRow.name r)
      then UsageRow.mk k (UsageRow.total_duration r + d)
             (UsageRow.session_count r + 1) :: rows'
      else r :: usage_add eqb k d rows'
  end.

(** [GROUP BY key] with [sum(duration)] and [count( * )]. *)
Definition group_usage {K} (eqb : K -> K -> bool) (key : Activity.t -> K)
  (rows : list Activity.t) : list (UsageRow.t K) :=
  fold_left (fun acc a => usage_add eqb (key a) (Activity.duration a) acc)
    rows [].

(** [getAppUsage]: the key column [app_name] is never [NULL]. *)
Definition getAppUsage (startTime endTime : Z) (db : t)
  : list (UsageRow.t string) :=
  sort_desc UsageRow.total_duration
    (group_usage String.eqb Activity.appName (rows_in_range startTime endTime db)).

(** [isNotNull(col)]. *)
Definition isNotNull {A} (v : option A) : bool :=
  match v with
  | Some _ => true
  | None => false
  end.

(** [getProjectTime]: the key column [project_name] may be [NULL] in the
    table; [isNotNull] keeps the rows where it is not. *)
Definition getProjectTime (startTime endTime : Z) (db : t)
  : list (UsageRow.t (option string)) :=
  sort_desc UsageRow.total_duration
    (group_usage category_eqb Activity.projectName
       (List.filter
          (fun a => in_range startTime endTime (Activity.startTime a)
                    && isNotNull (Activity.projectName a))
          (activities db))).

(** [getDomainUsage]: as [getProjectTime], on the column [domain]. *)
Definition getDomainUsage (startTime endTime : Z) (db : t)
  : list (UsageRow.t (option string)) :=
  sort_desc UsageRow.total_duration
    (group_usage category_eqb Activity.domain
       (List.filter
          (fun a => in_range startTime endTime (Activity.startTime a)
                    && isNotNull (Activity.domain a))
          (activities db))).

End Db.

(* ===================================================================== *)
(** * JSON text ([JSON.parse], [JSON.stringify])                           *)
(* ===================================================================== *)

Module JSON.

#[local] Set Warnings "-register-all".

(** A parsed JSON value.  A number is kept as the decimal it was written
    as: [Num m e] is [m * 10^e]. *)
Inductive value : Type :=
| Null
| Bool (b : bool)
| Num (m e : Z)
| Str (s : string)
| Arr (items : list value)
| Obj (members : list (string * value)).

Definition code (c : ascii) : Z := Z.of_nat (nat_of_ascii c).

Definition char_of (n : Z) : ascii := ascii_of_nat (Z.to_nat n).

(** ** Reading *)

Fixpoint skip_ws (s : string) : string :=
  match s with
  | String c s' =>
      let n := code c in
      if (n =? 32) || (n =? 9) || (n =? 10) || (n =? 13) then skip_ws s' else s
  | EmptyString => s
  end.

Definition hex_value (c : ascii) : option Z :=
  let n := code c in
  if (48 <=? n) && (n <=? 57) then Some (n - 48)
  else if (65 <=? n) && (n <=? 70) then Some (n - 55)
  else if (97 <=? n) && (n <=? 102) then Some (n - 87)
  else None.

Definition hex4 (a b c d : ascii) : option Z :=
  match hex_value a, hex_value b, hex_value c, hex_value d with
  | Some x, Some y, Some z, Some w => Some (((x * 16 + y) * 16 + z) * 16 + w)
  | _, _, _, _ => None
  end.

(** The UTF-8 bytes of a code point. *)
Definition utf8 (cp : Z) (k : string) : string :=
  if cp <? 128 then String (char_of cp) k
  else if cp <? 2048 then
    String (char_of (192 + cp / 64)) (String (char_of (128 + cp mod 64)) k)
  else if cp <? 65536 then
    String (char_of (224 + cp / 4096))
      (String (char_of (128 + (cp / 64) mod 64))
         (String (char_of (128 + cp mod 64)) k))
  else
    String (char_of (240 + cp / 262144))
      (String (char_of (128 + (cp / 4096) mod 64))
         (String (char_of (128 + (cp / 64) mod 64))
            (String (char_of (128 + cp mod 64)) k))).

(** The characters of a string literal after its opening quote, up to the
    closing quote; the result is the string and the text that follows. *)
Fixpoint parse_chars (s : string) : option (string * string) :=
  match s with
  | EmptyString => None
  | String c s1 =>
      if code c =? 34 then Some (EmptyString, s1)
      else if code c =? 92 then
        match s1 with
        | EmptyString => None
        | String e s2 =>
            let simple (x : Z) :=
              match parse_chars s2 with
              | Some (str, r) => Some (String (char_of x) str, r)
              | None => None
              end in
            if code e =? 34 then simple 34
            else if code e =? 92 then simple 92
            else if code e =? 47 then simple 47
            else if code e =? 98 then simple 8
            else if code e =? 102 then simple 12
            else if code e =? 110 then simple 10
            else if code e =? 114 then simple 13
            else if code e =? 116 then simple 9
            else if code e =? 117 then
              match s2 with
              | String h1 (String h2 (String h3 (String h4 s3))) =>
                  match hex4 h1 h2 h3 h4 with
                  | None => None
                  | Some hi =>
                      let single :=
                        match parse_chars s3 with
                        | Some (str, r) => Some (utf8 hi str, r)
                        | None => None
                        end in
                      if (55296 <=? hi) && (hi <=? 56319) then
                        match s3 with
                        | String b (String u (String l1 (String l2
                            (String l3 (String l4 s4))))) =>
                            match hex4 l1 l2 l3 l4 with
                            | Some lo =>
                                if (code b =? 92) && (code u =? 117)
                                   && (56320 <=? lo) && (lo <=? 57343)
                                then
                                  match parse_chars s4 with
                                  | Some (str, r) =>
                                      Some (utf8 (65536 + (hi - 55296) * 1024
                                                  + (lo - 56320)) str, r)
                                  | None => None
                                  end
                                else single
                            | None => single
                            end
                        | _ => single
                        end
                      else single
                  end
              | _ => None
              end
            else None
        end
      else if code c <? 32 then None
      else
        match parse_chars s1 with
        | Some (str, r) => Some (String c str, r)
        | None => None
        end
  end.

(** The longest prefix of decimal digits and the text after it. *)
Fixpoint take_digits (s : string) : list Z * string :=
  match s with
  | String c s' =>
      match digit_value c with
      | Some d => let '(ds, r) := take_digits s' in (d :: ds, r)
      | None => ([], s)
      end
  | EmptyString => ([], s)
  end.

Definition digits_value (ds : list Z) (acc : Z) : Z :=
  fold_left (fun a d => 10 * a + d) ds acc.

(** The fraction of a number: a dot and at least one digit, or nothing. *)
Definition parse_fraction (s : string) : option (list Z * string) :=
  match s with
  | String "." r =>
      match take_digits r with
      | ([], _) => None
      | (ds, r') => Some (ds, r')
      end
  | _ => Some ([], s)
  end.

(** The exponent of a number: [e] or [E], a sign, at least one digit; or
    nothing. *)
Definition parse_exponent (s : string) : option (Z * string) :=
  let digits (neg : bool) (r : string) :=
    match take_digits r with
    | ([], _) => None
    | (ds, r') =>
        Some ((if neg then - digits_value ds 0 else digits_value ds 0), r')
    end in
  match s with
  | String c r =>
      if (code c =? 101) || (code c =? 69) then
        match r with
        | String "-" r' => digits true r'
        | String "+" r' => digits false r'
        | _ => digits false r
        end
      else Some (0, s)
  | EmptyString => Some (0, s)
  end.

Definition parse_number (s : string) : option (value * string) :=
  let '(neg, s1) :=
    match s with String "-" r => (true, r) | _ => (false, s) end in
  match s1 with
  | String c r =>
      match digit_value c with
      | None => None
      | Some d0 =>
          let '(ids, s2) := if d0 =? 0 then ([], r) else take_digits r in
          match parse_fraction s2 with
          | None => None
          | Some (fds, s3) =>
              match parse_exponent s3 with
              | None => None
              | Some (ex, s4) =>
                  let m := digits_value (ids ++ fds) d0 in
                  Some (Num (if neg then - m else m)
                          (ex - Z.of_nat (List.length fds)), s4)
              end
          end
      end
  | EmptyString => None
  end.

(** One value and the text after it.  [fuel] bounds the number of nested
    and successive values. *)
Fixpoint parse_value (fuel : nat) (s : string) : option (value * string) :=
  match fuel with
  | O => None
  | S fuel' =>
      match skip_ws s with
      | String "n" (String "u" (String "l" (String "l" r))) => Some (Null, r)
      | String "t" (String "r" (String "u" (String "e" r))) =>
          Some (Bool true, r)
      | String "f" (String "a" (String "l" (String "s" (String "e" r)))) =>
          Some (Bool false, r)
      | String "[" r =>
          match skip_ws r with
          | String "]" r' => Some (Arr [], r')
          | _ =>
              match parse_elements fuel' r with
              | Some (items, r') => Some (Arr items, r')
              | None => None
              end
          end
      | String "{" r =>
          match skip_ws r with
          | String "}" r' => Some (Obj [], r')
          | _ =>
              match parse_members fuel' r with
              | Some (members, r') => Some (Obj members, r')
              | None => None
              end
          end
      | String c r =>
          if code c =? 34 then
            match parse_chars r with
            | Some (str, r') => Some (Str str, r')
            | None => None
            end
          else parse_number (String c r)
      | EmptyString => None
      end
  end
with parse_elements (fuel : nat) (s : string) : option (list value * string) :=
  match fuel with
  | O => None
  | S fuel' =>
      match parse_value fuel' s with
      | None => None
      | Some (v, r) =>
          match skip_ws r with
          | String "," r' =>
              match parse_elements fuel' r' with
              | Some (items, r'') => Some (v :: items, r'')
              | None => None
              end
          | String "]" r' => Some ([v], r')
          | _ => None
          end
      end
  end
with parse_members (fuel : nat) (s : string)
  : option (list (string * value) * string) :=
  match fuel with
  | O => None
  | S fuel' =>
      match skip_ws s with
      | String q r =>
          if code q =? 34 then
            match parse_chars r with
            | None => None
            | Some (key, r1) =>
                match skip_ws r1 with
                | String ":" r2 =>
                    match parse_value fuel' r2 with
                    | None => None
                    | Some (v, r3) =>
                        match skip_ws r3 with
                        | String "," r4 =>
                            match parse_members fuel' r4 with
                            | Some (members, r5) =>
                                Some ((key, v) :: members, r5)
                            | None => None
                            end
                        | String "}" r4 => Some ([(key, v)], r4)
                        | _ => None
                        end
                    end
                | _ => None
                end
            end
          else None
      | EmptyString => None
      end
  end.

(** [JSON.parse(text)]; [None] when it throws a [SyntaxError]. *)
Definition parse (text : string) : option value :=
  match parse_value (S (String.length text)) text with
  | Some (v, r) =>
      match skip_ws r with
      | EmptyString => Some v
      | _ => None
      end
  | None => None
  end.

(** ** Writing *)

Definition hex_digit (n : Z) : ascii :=
  if n <? 10 then char_of (48 + n) else char_of (87 + n).

(** One character of a string literal, followed by [k]. *)
Definition emit_char (c : ascii) (k : string) : string :=
  let n := code c in
  if n =? 34 then String "\" (String dq k)
  else if n =? 92 then String "\" (String "\" k)
  else if n =? 8 then String "\" (String "b" k)
  else if n =? 9 then String "\" (String "t" k)
  else if n =? 10 then String "\" (String "n" k)
  else if n =? 12 then String "\" (String "f" k)
  else if n =? 13 then String "\" (String "r" k)
  else if n <? 32 then
    String "\" (String "u" (String "0" (String "0"
      (String (hex_digit (n / 16)) (String (hex_digit (n mod 16)) k)))))
  else String c k.

Fixpoint emit_chars (s : string) (k : string) : string :=
  match s with
  | EmptyString => k
  | String c s' => emit_char c (emit_chars s' k)
  end.

Definition emit_string (s : string) (k : string) : string :=
  String dq (emit_chars s (String dq k)).

(** A number: plain digits when it is an integer, else mantissa and
    exponent. *)
Definition emit_number (m e : Z) (k : string) : string :=
  if 0 <=? e then string_of_Z (m * 10 ^ e) +:+ k
  else string_of_Z m +:+ "e" +:+ string_of_Z e +:+ k.

(** The text of a value, followed by [k]. *)
Fixpoint emit (v : value) (k : string) : string :=
  match v with
  | Null => "null" +:+ k
  | Bool true => "true" +:+ k
  | Bool false => "false" +:+ k
  | Num m e => emit_number m e k
  | Str s => emit_string s k
  | Arr items =>
      String "["
        (match items with
         | [] => String "]" k
         | v0 :: items' =>
             emit v0
               ((fix rest (l : list value) : string :=
                   match l with
                   | [] => String "]" k
                   | v' :: l' => String "," (emit v' (rest l'))
                   end) items')
         end)
  | Obj members =>
      String "{"
        (match members with
         | [] => String "}" k
         | (k0, v0) :: members' =>
             emit_string k0 (String ":" (emit v0
               ((fix rest (l : list (string * value)) : string :=
                   match l with
                   | [] => String "}" k
                   | (k', v') :: l' =>
                       String "," (emit_string k' (String ":" (emit v' (rest l'))))
                   end) members')))
         end)
  end.

(** [JSON.stringify(v)]. *)
Definition stringify (v : value) : string := emit v EmptyString.

(** ** Reading a parsed value *)

(** The property [key] of a value; the last of several members of the same
    name is the one an object keeps. *)
Fixpoint lookup_member (key : string) (members : list (string * value))
  : option value :=
  match members with
  | [] => None
  | (k, v) :: members' =>
      match lookup_member key members' with
      | Some v' => Some v'
      | None => if String.eqb k key then Some v else None
      end
  end.

Definition member (key : string) (v : value) : option value :=
  match v with
  | Obj members => lookup_member key members
  | _ => None
  end.

(** The number that the numeral [m * 10^e] is read as: the binary64 value
    nearest to it, the even one on a tie.  Beyond [10^400] that is an
    infinity and below [2^-1100] a zero, whatever the digits.  (The numeral
    [-0] is read as [0]: no comparison and no text below tells them
    apart.) *)
Definition number (m e : Z) : spec_float :=
  if m =? 0 then S754_zero false
  else if 0 <=? e then
    if 400 <? e then S754_infinity (m <? 0)
    else binary_normalize prec emax (m * 10 ^ e) 0 false
  else if Z.log2 (Z.abs m) + 3 * e <? - 1100 then S754_zero (m <? 0)
  else
    SFdiv prec emax (S754_finite (m <? 0) (Z.to_pos (Z.abs m)) 0)
      (S754_finite false (Z.to_pos (10 ^ (- e))) 0).

End JSON.

(* ===================================================================== *)
(** * The notification manager ([src/main/notifications.ts])               *)
(* ===================================================================== *)

(** [interface DailyGoal]. *)
Module DailyGoal.
Record t : Type := mk {
  categoryName : string;
  targetMs : spec_float }.
End DailyGoal.

(** What a [new Notification({ title, body }).show()] hands to the system. *)
Module Notification.
Record t : Type := mk {
  title : string;
  body : string }.
End Notification.

(** What the system clock and the local calendar answer during one call:
    [Date.now()], [new Date().toDateString()], the time stamp of
    [setHours(0, 0, 0, 0)] on today's date, and the time stamps of
    [setHours(h, 0, 0, 0)] today and on the day after. *)
Module Clock.
Record t : Type := mk {
  now : Z;
  toDateString : string;
  startOfToday : Z;
  atHour : Z -> Z;
  atHourTomorrow : Z -> Z }.
End Clock.

(** [formatDuration]. *)
Definition formatDuration (ms : Z) : string :=
  let hours := ms / 3600000 in
  let minutes := Z.rem ms 3600000 / 60000 in
  if 0 <? hours then
    if 0 <? minutes
    then string_of_Z hours +:+ "h " +:+ string_of_Z minutes +:+ "m"
    else string_of_Z hours +:+ "h"
  else string_of_Z minutes +:+ "m".

Module Manager.

(** The callbacks handed to [setTimeout]. *)
Inductive callback : Type :=
| BreakReminder (intervalMs : Z)
| DailySummary.

(** A pending timeout of the event loop. *)
Record timeout : Type := mkTimeout {
  handle : Z;
  delay : Z;
  action : callback }.

(** A [NotificationManager] object and what it acts on: the database it
    holds, its private fields, the pending timeouts of the event loop and
    the notifications shown so far (oldest first). *)
Record t : Type := mk {
  db : Db.t;
  breakTimer : option Z;
  lastBreakNotification : Z;
  dailySummaryTimer : option Z;
  dailySummaryShownToday : bool;
  lastSummaryDate : option string;
  timeouts : list timeout;
  next_handle : Z;
  shown : list Notification.t }.

Definition set_db (d : Db.t) (st : t) : t :=
  mk d (breakTimer st) (lastBreakNotification st) (dailySummaryTimer st)
     (dailySummaryShownToday st) (lastSummaryDate st) (timeouts st)
     (next_handle st) (shown st).

Definition set_breakTimer (h : option Z) (st : t) : t :=
  mk (db st) h (lastBreakNotification st) (dailySummaryTimer st)
     (dailySummaryShownToday st) (lastSummaryDate st) (timeouts st)
     (next_handle st) (shown st).

Definition set_lastBreakNotification (n : Z) (st : t) : t :=
  mk (db st) (breakTimer st) n (dailySummaryTimer st)
     (dailySummaryShownToday st) (lastSummaryDate st) (timeouts st)
     (next_handle st) (shown st).

Definition set_dailySummaryTimer (h : option Z) (st : t) : t :=
  mk (db st) (breakTimer st) (lastBreakNotification st) h
     (dailySummaryShownToday st) (lastSummaryDate st) (timeouts st)
     (next_handle st) (shown st).

Definition set_summary_flags (b : bool) (d : option string) (st : t) : t :=
  mk (db st) (breakTimer st) (lastBreakNotification st) (dailySummaryTimer st)
     b d (timeouts st) (next_handle st) (shown st).

(** [new Notification({ title, body }).show()]. *)
Definition show (title body : string) (st : t) : t :=
  mk (db st) (breakTimer st) (lastBreakNotification st) (dailySummaryTimer st)
     (dailySummaryShownToday st) (lastSummaryDate st) (timeouts st)
     (next_handle st) (shown st ++ [Notification.mk title body]).

(** [setTimeout(action, delay)]: the handle and the new state. *)
Definition setTimeout (a : callback) (ms : Z) (st : t) : Z * t :=
  let h := next_handle st in
  (h, mk (db st) (breakTimer st) (lastBreakNotification st)
         (dailySummaryTimer st) (dailySummaryShownToday st)
         (lastSummaryDate st) (timeouts st ++ [mkTimeout h ms a]) (h + 1)
         (shown st)).

(** [clearTimeout(h)]. *)
Definition clearTimeout (h : Z) (st : t) : t :=
  mk (db st) (breakTimer st) (lastBreakNotification st) (dailySummaryTimer st)
     (dailySummaryShownToday st) (lastSummaryDate st)
     (List.filter (fun x => negb (handle x =? h)) (timeouts st))
     (next_handle st) (shown st).

(** ** Settings *)

(** [val !== "false"]. *)
Definition not_false (val : option string) : bool :=
  match val with
  | Some v => negb (String.eqb v "false")
  | None => true
  end.

Definition isEnabled (st : t) : bool :=
  not_false (Db.getSetting "notifications_enabled" (db st)).

Definition isBreakRemindersEnabled (st : t) : bool :=
  if negb (isEnabled st) then false
  else not_false (Db.getSetting "break_reminders_enabled" (db st)).

Definition isDailySummaryEnabled (st : t) : bool :=
  if negb (isEnabled st) then false
  else not_false (Db.getSetting "daily_summary_enabled" (db st)).

Definition getBreakIntervalMs (st : t) : Z :=
  let val := Db.getSetting "break_interval_minutes" (db st) in
  let minutes :=
    if truthy_string val then parseInt (default EmptyString val) else Some 60 in
  match minutes with
  | None => 60
  | Some m => if m <? 1 then 60 else m
  end * 60000.

Definition getDailySummaryHour (st : t) : Z :=
  let val := Db.getSetting "daily_summary_hour" (db st) in
  let hour :=
    if truthy_string val then parseInt (default EmptyString val) else Some 18 in
  match hour with
  | None => 18
  | Some h => if (h <? 0) || (23 <? h) then 18 else h
  end.

(** ** Break reminders *)

Definition clearBreakTimer (st : t) : t :=
  match breakTimer st with
  | Some h => set_breakTimer None (clearTimeout h st)
  | None => st
  end.

Definition resetBreakTimer (st : t) : t :=
  let st1 := clearBreakTimer st in
  let intervalMs := getBreakIntervalMs st1 in
  let '(h, st2) := setTimeout (BreakReminder intervalMs) intervalMs st1 in
  set_breakTimer (Some h) st2.

Definition onActivityStarted (st : t) : t :=
  if negb (isBreakRemindersEnabled st) then st else resetBreakTimer st.

Definition onIdle (st : t) : t := clearBreakTimer st.

Definition onPaused (st : t) : t := clearBreakTimer st.

Definition fireBreakReminder (intervalMs : Z) (clock : Clock.t) (st : t) : t :=
  let now := Clock.now clock in
  if now - lastBreakNotification st <? 5 * 60000 then st
  else
    let st1 := set_lastBreakNotification now st in
    let minutes := round_div intervalMs 60000 in
    show "Time for a break!"
      ("You've been working for " +:+ string_of_Z minutes +:+ " minutes.") st1.

(** ** The goal ledger *)

(** [notified.add(name)] on the list that stands for a [Set] of strings
    (each member once, in insertion order). *)
Definition set_add (name : string) (notified : list string) : list string :=
  if existsb (String.eqb name) notified then notified else notified ++ [name].

(** [new Set(parsed.goals)]: the strings of a parsed array, each once, in
    order of first occurrence (a member that is no string equals no
    category name and is left out). *)
Fixpoint string_set (items : list JSON.value) (seen : list string)
  : list string :=
  match items with
  | [] => seen
  | JSON.Str s :: items' => string_set items' (set_add s seen)
  | _ :: items' => string_set items' seen
  end.

Definition getNotifiedGoalsToday (clock : Clock.t) (st : t) : list string :=
  let stored := Db.getSetting "goals_notified_today" (db st) in
  if negb (truthy_string stored) then []
  else
    match JSON.parse (default EmptyString stored) with
    | Some parsed =>
        let today := Clock.toDateString clock in
        match JSON.member "date" parsed, JSON.member "goals" parsed with
        | Some (JSON.Str date), Some (JSON.Arr goals) =>
            if String.eqb date today then string_set goals [] else []
        | _, _ => []
        end
    | None => []
    end.

(** The object [{ date: today, goals: Array.from(notified) }]. *)
Definition ledger (today : string) (notified : list string) : JSON.value :=
  JSON.Obj [("date", JSON.Str today); ("goals", JSON.Arr (map JSON.Str notified))].

Definition markGoalNotified (categoryName : string) (clock : Clock.t) (st : t)
  : t :=
  let notified := set_add categoryName (getNotifiedGoalsToday clock st) in
  let today := Clock.toDateString clock in
  set_db
    (Db.setSetting "goals_notified_today"
       (JSON.stringify (ledger today notified)) (db st))
    st.

(** ** Goals *)

(** How a call ends: it returns, or a [TypeError] leaves it. *)
Inductive completion : Type := Returns | Throws.

(** [c.category_name] on a row of [getCategoryBreakdown].  The rows have the
    properties [category], [total_duration] and [session_count]
    (database.ts); [category_name] is not among them, so reading it gives
    [undefined]. *)
Definition category_name (c : CategoryRow.t) : option JSON.value := None.

(** [x === y] for two values that were read in different places:
    [undefined], [null], booleans, strings and numbers are compared by
    value; an array or an object is equal to nothing but itself. *)
Definition strict_equals (x y : option JSON.value) : bool :=
  match x, y with
  | None, None => true
  | Some JSON.Null, Some JSON.Null => true
  | Some (JSON.Bool a), Some (JSON.Bool b) => Bool.eqb a b
  | Some (JSON.Str a), Some (JSON.Str b) => String.eqb a b
  | Some (JSON.Num m e), Some (JSON.Num m' e') =>
      SFeqb (JSON.number m e) (JSON.number m' e')
  | _, _ => false
  end.

(** [breakdown.find((c) => c.category_name === name)?.total_duration ?? 0]. *)
Definition currentMs (breakdown : list CategoryRow.t)
  (name : option JSON.value) : Z :=
  match List.find (fun c => strict_equals (category_name c) name) breakdown with
  | Some c => CategoryRow.total_duration c
  | None => 0
  end.

(** The number that a value read from parsed JSON is converted to, where
    the code compares or divides it: [NaN] for [undefined], 0 for [null],
    0 or 1 for a boolean.  A string, an array or an object is converted
    through its text; the embedding leaves those conversions out
    ([None]). *)
Definition ToNumber (v : option JSON.value) : option spec_float :=
  match v with
  | None => Some S754_nan
  | Some JSON.Null => Some (S754_zero false)
  | Some (JSON.Bool b) => Some (of_Z (if b then 1 else 0))
  | Some (JSON.Num m e) => Some (JSON.number m e)
  | Some (JSON.Str _) | Some (JSON.Arr _) | Some (JSON.Obj _) => None
  end.

(** [notifiedToday.has(name)] on the set that [getNotifiedGoalsToday]
    returned.  A string is a member when the ledger lists it; [undefined] is
    never listed, and an array or an object of the goal list is a member of
    no set read from elsewhere.  Whether [null], a boolean or a number is a
    member depends on the members that are no strings, which the model of
    the ledger leaves out: the embedding does not cover these names
    ([None]). *)
Definition has (notifiedToday : list string) (name : option JSON.value)
  : option bool :=
  match name with
  | Some (JSON.Str s) => Some (existsb (String.eqb s) notifiedToday)
  | None | Some (JSON.Arr _) | Some (JSON.Obj _) => Some false
  | Some JSON.Null | Some (JSON.Bool _) | Some (JSON.Num _ _) => None
  end.

(** [this.markGoalNotified(goal.categoryName)].  A name that is no string
    joins the members that the model of the ledger leaves out (see
    [string_set]): the ledger is written back under today's date with the
    strings that it lists. *)
Definition markGoalNotified_value (categoryName : option JSON.value)
  (clock : Clock.t) (st : t) : t :=
  match categoryName with
  | Some (JSON.Str name) => markGoalNotified name clock st
  | _ =>
      set_db
        (Db.setSetting "goals_notified_today"
           (JSON.stringify
              (ledger (Clock.toDateString clock) (getNotifiedGoalsToday clock st)))
           (db st))
        st
  end.

(** [(targetMs / 3600000).toFixed(1).replace(/\.0$/, "")]. *)
Definition hoursText (targetMs : spec_float) : option string :=
  strip_dot_zero <$> toFixed1 (fdiv targetMs (of_Z 3600000)).

(** [`You hit your ${label} goal of ${hours}h.`]. *)
Definition goalReachedBody (label hours : string) : string :=
  "You hit your " +:+ label +:+ " goal of " +:+ hours +:+ "h.".

(** The body of the loop [for (const goal of goals)] of [checkGoals], on
    the two properties read from the entry.  [categoryName.replace] throws
    when the name is no string, after the ledger was written.  The ending
    [None] says that the turn has reached a value that the embedding does
    not cover (see [has], [ToNumber] and [toFixed1]); the state is then the
    one reached so far. *)
Definition checkGoal_body (categoryName targetMs : option JSON.value)
  (breakdown : list CategoryRow.t) (notifiedToday : list string)
  (clock : Clock.t) (st : t) : option completion * t :=
  match has notifiedToday categoryName with
  | None => (None, st)
  | Some true => (Some Returns, st)
  | Some false =>
      match ToNumber targetMs with
      | None => (None, st)
      | Some target =>
          if ge (of_Z (currentMs breakdown categoryName)) target then
            let st1 := markGoalNotified_value categoryName clock st in
            match categoryName with
            | Some (JSON.Str name) =>
                match hoursText target with
                | Some hours =>
                    (Some Returns,
                     show "Goal reached!"
                       (goalReachedBody (replace_underscores name) hours)
                       st1)
                | None => (None, st1)
                end
            | _ => (Some Throws, st1)
            end
          else (Some Returns, st)
      end
  end.

(** One turn of the loop, on an entry of the parsed array as it is: reading
    a property of [null] throws, and any other value that is no object has
    neither property. *)
Definition checkGoal (goal : JSON.value) (breakdown : list CategoryRow.t)
  (notifiedToday : list string) (clock : Clock.t) (st : t)
  : option completion * t :=
  match goal with
  | JSON.Null => (Some Throws, st)
  | _ =>
      checkGoal_body (JSON.member "categoryName" goal)
        (JSON.member "targetMs" goal) breakdown notifiedToday clock st
  end.

(** The loop, which runs outside the [try]: it goes on while the turns
    return. *)
Fixpoint checkGoals_loop (goals : list JSON.value)
  (breakdown : list CategoryRow.t) (notifiedToday : list string)
  (clock : Clock.t) (st : t) : option completion * t :=
  match goals with
  | [] => (Some Returns, st)
  | goal :: goals' =>
      match checkGoal goal breakdown notifiedToday clock st with
      | (Some Returns, st1) =>
          checkGoals_loop goals' breakdown notifiedToday clock st1
      | ending => ending
      end
  end.

Definition checkGoals (clock : Clock.t) (st : t) : option completion * t :=
  if negb (isEnabled st) then (Some Returns, st)
  else
    let goalsJson := Db.getSetting "daily_goals" (db st) in
    if negb (truthy_string goalsJson) then (Some Returns, st)
    else
      match JSON.parse (default EmptyString goalsJson) with
      | Some (JSON.Arr goals) =>
          let now := Clock.now clock in
          let startTs := Clock.startOfToday clock in
          let breakdown := Db.getCategoryBreakdown startTs now (db st) in
          let notifiedToday := getNotifiedGoalsToday clock st in
          checkGoals_loop goals breakdown notifiedToday clock st
      | _ => (Some Returns, st)
      end.

(** ** Daily summary *)

Definition clearDailySummaryTimer (st : t) : t :=
  match dailySummaryTimer st with
  | Some h => set_dailySummaryTimer None (clearTimeout h st)
  | None => st
  end.

Definition scheduleDailySummary (clock : Clock.t) (st : t) : t :=
  let st1 := clearDailySummaryTimer st in
  let now := Clock.now clock in
  let summaryHour := getDailySummaryHour st1 in
  let today := Clock.atHour clock summaryHour in
  let passed := today <=? now in
  let nextSummary := if passed then Clock.atHourTomorrow clock summaryHour else today in
  let st2 :=
    if passed
       && negb (bool_decide (Some (Clock.toDateString clock) = lastSummaryDate st1))
    then set_summary_flags false (lastSummaryDate st1) st1
    else st1 in
  let msUntilSummary := nextSummary - now in
  let '(h, st3) := setTimeout DailySummary msUntilSummary st2 in
  set_dailySummaryTimer (Some h) st3.

(** [breakdown.reduce((max, c) => c.total_duration > max.total_duration ? c
    : max, breakdown[0])], or [null] for no row. *)
Definition topCategory (breakdown : list CategoryRow.t) : option CategoryRow.t :=
  match breakdown with
  | [] => None
  | c0 :: _ =>
      Some (fold_left
              (fun max c =>
                 if CategoryRow.total_duration max <? CategoryRow.total_duration c
                 then c else max)
              breakdown c0)
  end.

(** [goals.map(g => g.categoryName)] on the parsed setting, inside the [try]
    of [fireDailySummary]: [None] when it throws (the value has no [map], or
    an entry is [null]). *)
Fixpoint goalCategoryNames (items : list JSON.value)
  : option (list (option JSON.value)) :=
  match items with
  | [] => Some []
  | JSON.Null :: _ => None
  | v :: items' => cons (JSON.member "categoryName" v) <$> goalCategoryNames items'
  end.

Definition goalCategories (st : t) : option (list (option JSON.value)) :=
  let goalsJson := Db.getSetting "daily_goals" (db st) in
  if negb (truthy_string goalsJson) then None
  else
    match JSON.parse (default EmptyString goalsJson) with
    | Some (JSON.Arr items) => goalCategoryNames items
    | _ => None
    end.

(** [goalCategories.has(c.category_name)]. *)
Definition in_names (names : list (option JSON.value)) (c : CategoryRow.t)
  : bool :=
  existsb (strict_equals (category_name c)) names.

(** [productiveTime]: the sum of the rows that [filter] keeps; 0 without
    goals and when the [try] block throws. *)
Definition productiveTime (breakdown : list CategoryRow.t) (st : t) : Z :=
  match goalCategories st with
  | Some names =>
      fold_left (fun sum c => sum + CategoryRow.total_duration c)
        (List.filter (in_names names) breakdown) 0
  | None => 0
  end.

(** [String(totalTime > 0 ? Math.round((productiveTime / totalTime) * 100) : 0)]. *)
Definition focusPercent (productive totalTime : Z) : string :=
  if 0 <? totalTime
  then Math_round_string (fmul (fdiv (of_Z productive) (of_Z totalTime)) (of_Z 100))
  else "0".

(** [fireDailySummary]; [topCategory.category_name.replace] throws unless
    the property is a string. *)
Definition fireDailySummary (clock : Clock.t) (st : t) : completion * t :=
  if negb (isDailySummaryEnabled st) then (Returns, st)
  else
    let today := Clock.toDateString clock in
    if dailySummaryShownToday st
       && bool_decide (lastSummaryDate st = Some today)
    then (Returns, st)
    else
      let st1 := set_summary_flags true (Some today) st in
      let now := Clock.now clock in
      let startTs := Clock.startOfToday clock in
      let totalTime := Db.getTotalTrackedTime startTs now (db st1) in
      let breakdown := Db.getCategoryBreakdown startTs now (db st1) in
      if totalTime <? 60000 then (Returns, st1)
      else
        let top := topCategory breakdown in
        let productive := productiveTime breakdown st1 in
        let percent := focusPercent productive totalTime in
        let body := "Total: " +:+ formatDuration totalTime in
        let focus (body : string) :=
          if 0 <? productive then body +:+ " • Focus: " +:+ percent +:+ "%"
          else body in
        match top with
        | None => (Returns, show "Daily Summary" (focus body) st1)
        | Some c =>
            match category_name c with
            | Some (JSON.Str name) =>
                (Returns,
                 show "Daily Summary"
                   (focus (body +:+ " • Top: " +:+ replace_underscores name))
                   st1)
            | _ => (Throws, st1)
            end
        end.

(** The callback of the daily timer: [fireDailySummary()] and then
    [scheduleDailySummary()]. *)
Definition dailySummaryTask (clock : Clock.t) (st : t) : completion * t :=
  match fireDailySummary clock st with
  | (Returns, st1) => (Returns, scheduleDailySummary clock st1)
  | (Throws, st1) => (Throws, st1)
  end.

(** ** Pomodoro, start and end of the manager *)

Definition isPomodoroNotificationsEnabled (st : t) : bool :=
  not_false (Db.getSetting "pomodoro_notifications_enabled" (db st)).

(** [onPomodoroComplete(type, durationMs, label)]; a missing [label] is
    [None], and [durationMs] is a whole number of milliseconds. *)
Definition onPomodoroComplete (type : string) (durationMs : Z)
  (label : option string) (st : t) : t :=
  if negb (isEnabled st) || negb (isPomodoroNotificationsEnabled st) then st
  else
    let minutes := round_div durationMs 60000 in
    if String.eqb type "work" then
      show "Pomodoro complete!"
        (if truthy_string label
         then String dq (default EmptyString label)
                +:+ String dq " finished — " +:+ string_of_Z minutes
                +:+ " min of focused work."
         else string_of_Z minutes +:+ " min of focused work complete.")
        st
    else
      show "Break's over!"
        ("Your " +:+ string_of_Z minutes +:+ " min "
           +:+ replace_underscores type +:+ " is done. Ready to focus?")
        st.

Definition shutdown (st : t) : t :=
  clearDailySummaryTimer (clearBreakTimer st).

(** [new NotificationManager(db)] in a process without pending timeouts:
    the initial values of the fields, then [scheduleDailySummary()]. *)
Definition constructor (d : Db.t) (clock : Clock.t) : t :=
  scheduleDailySummary clock (mk d None 0 None false None [] 1 []).

End Manager.

(* ===================================================================== *)
(** * Vocabulary of the properties                                         *)
(* ===================================================================== *)

(** ** The aggregator *)

(** The operations of the session aggregator. *)
Inductive operation : Type :=
| InsertActivity (activity : ActivityInput.t)
| CloseCurrentSession.

Definition perform (db : Db.t) (o : operation) : Db.t :=
  match o with
  | InsertActivity activity => (Db.insertActivity activity db).2
  | CloseCurrentSession => Db.closeCurrentSession db
  end.

Definition perform_all (ops : list operation) (db : Db.t) : Db.t :=
  fold_left perform ops db.

(** [insertActivity] for each sample of a run, in order. *)
Definition insert_all (samples : list ActivityInput.t) (db : Db.t) : Db.t :=
  perform_all (map InsertActivity samples) db.

(** A session row extended by each sample of a run, in order. *)
Definition extend_all (samples : list ActivityInput.t) (s : Session.t)
  : Session.t :=
  fold_left
    (fun s i => Db.extend (ActivityInput.end_time i) (ActivityInput.duration i) s)
    samples s.

(** The activities of the session with id [sid]. *)
Definition belongs (sid : Z) (a : Activity.t) : bool :=
  match Activity.sessionId a with
  | Some x => x =? sid
  | None => false
  end.

Definition activities_of (sid : Z) (db : Db.t) : list Activity.t :=
  List.filter (belongs sid) (Db.activities db).

Definition sum_durations (rows : list Activity.t) : Z :=
  fold_right Z.add 0 (map Activity.duration rows).

Definition totals_ok (db : Db.t) (s : Session.t) : Prop :=
  Session.totalDuration s = sum_durations (activities_of (Session.id s) db)
  /\ Session.activityCount s
     = Z.of_nat (List.length (activities_of (Session.id s) db)).

(** A database as SQLite and the aggregator keep it: ids come from the
    [AUTOINCREMENT] counter, so no stored reference exceeds it, and every
    session carries the totals of its activities.  Rows without a session
    (from before the [session_id] column) are allowed. *)
Record consistent (db : Db.t) : Prop := {
  session_ids :
    forall s, In s (Db.sessions db) -> 1 <= Session.id s <= Db.seq_sessions db;
  seq_nonneg : 0 <= Db.seq_sessions db;
  activity_refs :
    forall a sid, In a (Db.activities db) ->
      Activity.sessionId a = Some sid -> sid <= Db.seq_sessions db;
  current_ref :
    forall sid, Db.currentSessionId db = Some sid -> sid <= Db.seq_sessions db;
  session_totals : forall s, In s (Db.sessions db) -> totals_ok db s }.

(** Every record sits in the bucket of its own session id, a record without
    one in the bucket 0. *)
Definition bucket_of (r : ActivityRecord.t) : Z :=
  default 0 (ActivityRecord.session_id r).

(** ** The category breakdown *)

(** The summed duration that a list of breakdown rows gives a category: the
    total of the first row of that category, 0 without one. *)
Definition total_of (c : option string) (rows : list CategoryRow.t) : Z :=
  match List.find (fun r => Db.category_eqb (CategoryRow.category r) c) rows with
  | Some r => CategoryRow.total_duration r
  | None => 0
  end.

(** The summed duration of the activities of a category. *)
Definition category_sum (c : option string) (rows : list Activity.t) : Z :=
  sum_durations
    (List.filter (fun a => Db.category_eqb (Activity.category a) c) rows).

(** ** Goals *)

(** The category that an entry of the stored goal list names: its
    [categoryName], when that is a string. *)
Definition entry_name (v : JSON.value) : option string :=
  match JSON.member "categoryName" v with
  | Some (JSON.Str name) => Some name
  | _ => None
  end.

(** The categories that a stored goal list names, in order. *)
Fixpoint entry_names (items : list JSON.value) : list string :=
  match items with
  | [] => []
  | v :: items' =>
      match entry_name v with
      | Some name => name :: entry_names items'
      | None => entry_names items'
      end
  end.

(** A number that is finite and below [10^21] in magnitude. *)
Definition plain (x : spec_float) : Prop :=
  match x with
  | S754_zero _ => True
  | S754_finite _ m e => below_1e21 (Zpos m) e = true
  | _ => False
  end.

(** An entry of the stored goal list that is a goal of the data model: an
    object with a string [categoryName] and a number [targetMs], the hours
    of which are below [10^21] in magnitude. *)
Definition is_goal (v : JSON.value) : Prop :=
  exists name m e,
    JSON.member "categoryName" v = Some (JSON.Str name)
    /\ JSON.member "targetMs" v = Some (JSON.Num m e)
    /\ plain (fdiv (JSON.number m e) (of_Z 3600000)).

(** The notification of a goal with a name and a target. *)
Definition goalReachedNotification (goal : DailyGoal.t) : Notification.t :=
  Notification.mk "Goal reached!"
    (Manager.goalReachedBody (replace_underscores (DailyGoal.categoryName goal))
       (default EmptyString (Manager.hoursText (DailyGoal.targetMs goal)))).






(** Two states that differ at most in the stored ledger and in the
    notifications shown. *)
Record same_but_ledger (st st' : Manager.t) : Prop := {
  same_sessions : Db.sessions (Manager.db st') = Db.sessions (Manager.db st);
  same_activities : Db.activities (Manager.db st') = Db.activities (Manager.db st);
  same_settings :
    forall key, key <> "goals_notified_today" ->
      Db.getSetting key (Manager.db st') = Db.getSetting key (Manager.db st);
  same_breakTimer : Manager.breakTimer st' = Manager.breakTimer st;
  same_lastBreak :
    Manager.lastBreakNotification st' = Manager.lastBreakNotification st;
  same_summaryTimer : Manager.dailySummaryTimer st' = Manager.dailySummaryTimer st;
  same_shownToday :
    Manager.dailySummaryShownToday st' = Manager.dailySummaryShownToday st;
  same_summaryDate : Manager.lastSummaryDate st' = Manager.lastSummaryDate st;
  same_timeouts : Manager.timeouts st' = Manager.timeouts st }.

(** The notifications that [checkGoals] shows. *)
Definition goal_notes (notes : list Notification.t) : Prop :=
  List.Forall (fun n => Notification.title n = "Goal reached!") notes.

(** What a call of [checkGoals] leaves alone: everything but the ledger,
    and the notifications shown before. *)
Definition goal_frame (st st' : Manager.t) : Prop :=
  same_but_ledger st st'
  /\ Manager.next_handle st' = Manager.next_handle st
  /\ exists notes,
       Manager.shown st' = Manager.shown st ++ notes /\ goal_notes notes.

(** A turn of the loop of [checkGoals] that shows nothing and keeps what
    the ledger lists. *)
Definition quiet_turn (clock : Clock.t) (st st' : Manager.t) : Prop :=
  Manager.shown st' = Manager.shown st
  /\ forall x,
       In x (Manager.getNotifiedGoalsToday clock st) ->
       In x (Manager.getNotifiedGoalsToday clock st').

(** The text after the first element of an array of strings. *)
Fixpoint strings_rest (gs : list string) (k : string) : string :=
  match gs with
  | [] => String "]" k
  | g :: gs' => String "," (JSON.emit_string g (strings_rest gs' k))
  end.

(** ** Queries *)

(** A list in descending order of a key. *)
Definition descending {A} (key : A -> Z) (l : list A) : Prop :=
  StronglySorted (fun x y => key y <= key x) l.

(** The activities among [rows] whose key column holds [k]. *)
Definition with_key {K} (eqb : K -> K -> bool) (key : Activity.t -> K) (k : K)
  (rows : list Activity.t) : list Activity.t :=
  List.filter (fun a => eqb (key a) k) rows.

(** A row of the category breakdown as a usage row. *)
Definition to_usage (r : CategoryRow.t) : UsageRow.t (option string) :=
  UsageRow.mk (CategoryRow.category r) (CategoryRow.total_duration r)
    (CategoryRow.session_count r).

(** The sums of the two aggregate columns of a result. *)
Definition sum_totals {K} (rows : list (UsageRow.t K)) : Z :=
  fold_right Z.add 0 (map UsageRow.total_duration rows).

Definition sum_counts {K} (rows : list (UsageRow.t K)) : Z :=
  fold_right Z.add 0 (map UsageRow.session_count rows).

(** A result is the usage of [rows] by a key column: one row for each value
    that the column takes, with the summed duration and the number of the
    rows that hold the value, in descending order of the sum. *)
Definition usage_by {K} (eqb : K -> K -> bool) (key : Activity.t -> K)
  (rows : list Activity.t) (result : list (UsageRow.t K)) : Prop :=
  List.NoDup (map UsageRow.name result)
  /\ descending UsageRow.total_duration result
  /\ forall r,
       In r result <->
       In (UsageRow.name r) (map key rows)
       /\ UsageRow.total_duration r
          = sum_durations (with_key eqb key (UsageRow.name r) rows)
       /\ UsageRow.session_count r
          = Z.of_nat (List.length (with_key eqb key (UsageRow.name r) rows)).

(** The entry of a session row in the result of
    [getSessionsWithActivities]. *)
Definition entry_of (startTime endTime : Z) (db : Db.t) (session : Session.t)
  : SessionWithActivities.t :=
  SessionWithActivities.mk (Session.id session) (Session.appName session)
    (Session.category session) (Session.startTime session)
    (Session.endTime session) (Session.totalDuration session)
    (Session.activityCount session) (Session.createdAt session)
    (map Db.mapToRecord
       (List.filter (belongs (Session.id session))
          (Db.sort_desc Activity.startTime
             (Db.rows_in_range startTime endTime db)))).

(** ** Databases built by the aggregator *)

(** The ids that [AUTOINCREMENT] gives the first [n] rows of a table. *)
Definition first_ids (n : nat) : list Z := map Z.of_nat (seq 1 n).

(** The row that [insertActivity] leaves in [sessions] when it opens a
    session for a sample. *)
Definition opened_by (id : Z) (activity : ActivityInput.t) (created : string)
  : Session.t :=
  Session.mk id (ActivityInput.app_name activity)
    (Some (ActivityInput.category activity))
    (ActivityInput.start_time activity) (ActivityInput.end_time activity)
    (ActivityInput.duration activity) 1 (Some created).

(** A session row agrees with its activities, oldest first: it starts with
    the first one, whose app and category it has, and ends with the last
    one. *)
Definition spans (s : Session.t) (rows : list Activity.t) : Prop :=
  exists first rest,
    rows = first :: rest
    /\ Session.appName s = Activity.appName first
    /\ Session.category s = Activity.category first
    /\ Session.startTime s = Activity.startTime first
    /\ Session.endTime s = Activity.endTime (List.last rest first).

(** A database as the aggregator keeps it when it starts from an empty
    file. *)
Record well_formed (db : Db.t) : Prop := {
  wf_consistent : consistent db;
  wf_session_ids :
    map Session.id (Db.sessions db) = first_ids (List.length (Db.sessions db));
  wf_seq_sessions : Db.seq_sessions db = Z.of_nat (List.length (Db.sessions db));
  wf_activity_ids :
    map Activity.id (Db.activities db)
    = first_ids (List.length (Db.activities db));
  wf_seq_activities :
    Db.seq_activities db = Z.of_nat (List.length (Db.activities db));
  wf_links :
    forall a, In a (Db.activities db) ->
      exists s,
        In s (Db.sessions db)
        /\ Activity.sessionId a = Some (Session.id s)
        /\ Activity.appName a = Session.appName s;
  wf_current :
    forall appName sid, Db.open_for appName db = Some sid ->
      exists s,
        In s (Db.sessions db) /\ Session.id s = sid
        /\ Session.appName s = appName;
  wf_spans :
    forall s, In s (Db.sessions db) -> spans s (activities_of (Session.id s) db) }.

(** An operation after which the session [s] is no longer the open one: the
    tracker goes idle, or a sample of another app arrives. *)
Definition leaves (s : Session.t) (o : operation) : Prop :=
  match o with
  | CloseCurrentSession => True
  | InsertActivity activity => ActivityInput.app_name activity <> Session.appName s
  end.

(** The samples that a list of operations inserts, in order. *)
Definition samples_of (ops : list operation) : list ActivityInput.t :=
  flat_map (fun o => match o with
                     | InsertActivity activity => [activity]
                     | CloseCurrentSession => []
                     end)
    ops.

(** ** The manager under the events of the application *)

(** What reaches a [NotificationManager] while the application runs: the
    calls of its public methods, a timeout of the event loop that becomes
    due, and changes of the database that it reads. *)
Inductive event : Type :=
| ActivityStarted
| Idle
| Paused
| GoalsChecked (clock : Clock.t)
| PomodoroComplete (type : string) (durationMs : Z) (label : option string)
| Shutdown
| TimerDue (h : Z) (clock : Clock.t)
| Tracked (o : operation)
| SettingChanged (key value : string).

(** The event loop runs the pending timeout with handle [h]: the timeout
    leaves the list, then its callback runs.  A handle that is not pending
    runs nothing. *)
Definition run_timeout (h : Z) (clock : Clock.t) (st : Manager.t) : Manager.t :=
  match List.find (fun x => Manager.handle x =? h) (Manager.timeouts st) with
  | None => st
  | Some x =>
      let st1 := Manager.clearTimeout h st in
      match Manager.action x with
      | Manager.BreakReminder intervalMs =>
          Manager.fireBreakReminder intervalMs clock st1
      | Manager.DailySummary => (Manager.dailySummaryTask clock st1).2
      end
  end.

(** The state after an event.  A call that throws leaves the state that it
    has reached, and so does a goal check that leaves the embedding. *)
Definition handle_event (st : Manager.t) (e : event) : Manager.t :=
  match e with
  | ActivityStarted => Manager.onActivityStarted st
  | Idle => Manager.onIdle st
  | Paused => Manager.onPaused st
  | GoalsChecked clock => (Manager.checkGoals clock st).2
  | PomodoroComplete type durationMs label =>
      Manager.onPomodoroComplete type durationMs label st
  | Shutdown => Manager.shutdown st
  | TimerDue h clock => run_timeout h clock st
  | Tracked o => Manager.set_db (perform (Manager.db st) o) st
  | SettingChanged key value =>
      Manager.set_db (Db.setSetting key value (Manager.db st)) st
  end.

Definition run (events : list event) (st : Manager.t) : Manager.t :=
  fold_left handle_event events st.

(** The pending timeouts of each of the two kinds. *)
Definition is_break_reminder (x : Manager.timeout) : bool :=
  match Manager.action x with
  | Manager.BreakReminder _ => true
  | Manager.DailySummary => false
  end.

Definition is_daily_summary (x : Manager.timeout) : bool :=
  match Manager.action x with
  | Manager.BreakReminder _ => false
  | Manager.DailySummary => true
  end.

(** The pending timeouts are those that the manager holds a handle of: the
    handles are distinct and were handed out, a pending break reminder is the
    one of [breakTimer], a pending daily summary the one of
    [dailySummaryTimer]. *)
Record timers_ok (st : Manager.t) : Prop := {
  handles_fresh :
    forall x, In x (Manager.timeouts st) ->
      Manager.handle x < Manager.next_handle st;
  handles_NoDup : List.NoDup (map Manager.handle (Manager.timeouts st));
  break_known :
    forall x, In x (Manager.timeouts st) -> is_break_reminder x = true ->
      Manager.breakTimer st = Some (Manager.handle x);
  summary_known :
    forall x, In x (Manager.timeouts st) -> is_daily_summary x = true ->
      Manager.dailySummaryTimer st = Some (Manager.handle x) }.

(** Two states with the same timers: pending timeouts, next handle and the
    two handles that the manager holds. *)
Definition same_timers (st st' : Manager.t) : Prop :=
  Manager.timeouts st' = Manager.timeouts st
  /\ Manager.next_handle st' = Manager.next_handle st
  /\ Manager.breakTimer st' = Manager.breakTimer st
  /\ Manager.dailySummaryTimer st' = Manager.dailySummaryTimer st.


(** The daily summaries among the notifications shown. *)
Definition summaries (l : list Notification.t) : list Notification.t :=
  List.filter (fun n => String.eqb (Notification.title n) "Daily Summary") l.

(** Two states with the same daily summaries shown and the same record of
    the last one. *)
Definition same_summary (st st' : Manager.t) : Prop :=
  summaries (Manager.shown st') = summaries (Manager.shown st)
  /\ Manager.dailySummaryShownToday st' = Manager.dailySummaryShownToday st
  /\ Manager.lastSummaryDate st' = Manager.lastSummaryDate st.

(** The manager has recorded a daily summary for the local date [date]. *)
Definition summary_done (date : string) (st : Manager.t) : Prop :=
  Manager.dailySummaryShownToday st = true
  /\ Manager.lastSummaryDate st = Some date.

(** An event that reads the calendar does so on the local date [date]. *)
Definition on_date (date : string) (e : event) : Prop :=
  match e with
  | GoalsChecked clock | TimerDue _ clock => Clock.toDateString clock = date
  | _ => True
  end.

(** An event that leaves the master switch of the notifications alone. *)
Definition keeps_switch (e : event) : Prop :=
  match e with
  | SettingChanged key _ => key <> "notifications_enabled"
  | _ => True
  end.

(** A step that neither touches the master switch nor shows anything, and
    that arms no break reminder. *)
Definition silent_step (st st' : Manager.t) : Prop :=
  Manager.isEnabled st' = Manager.isEnabled st
  /\ Manager.shown st' = Manager.shown st
  /\ (List.filter is_break_reminder (Manager.timeouts st) = [] ->
      List.filter is_break_reminder (Manager.timeouts st') = []).

(** ** Decimal numerals *)

(** The number that a run of decimal digits denotes after the digits of
    [acc]. *)
Fixpoint uint_value (d : Decimal.uint) (acc : Z) : Z :=
  match d with
  | Decimal.Nil => acc
  | Decimal.D0 l => uint_value l (10 * acc + 0)
  | Decimal.D1 l => uint_value l (10 * acc + 1)
  | Decimal.D2 l => uint_value l (10 * acc + 2)
  | Decimal.D3 l => uint_value l (10 * acc + 3)
  | Decimal.D4 l => uint_value l (10 * acc + 4)
  | Decimal.D5 l => uint_value l (10 * acc + 5)
  | Decimal.D6 l => uint_value l (10 * acc + 6)
  | Decimal.D7 l => uint_value l (10 * acc + 7)
  | Decimal.D8 l => uint_value l (10 * acc + 8)
  | Decimal.D9 l => uint_value l (10 * acc + 9)
  end.

(** The state after [setSetting(key, String(n))]. *)
Definition with_number (key : string) (n : Z) (st : Manager.t) : Manager.t :=
  Manager.set_db (Db.setSetting key (string_of_Z n) (Manager.db st)) st.

(** ** The claims that the code does not meet, as the specification states them *)


(** C5 as the specification states it: a firing that is skipped for low
    activity shows nothing and leaves the shown-for-today state unmarked. *)
Definition low_activity_skip_unmarked : Prop :=
  forall clock st,
    Manager.isDailySummaryEnabled st = true ->
    Manager.dailySummaryShownToday st = false ->
    Db.getTotalTrackedTime (Clock.startOfToday clock) (Clock.now clock)
      (Manager.db st) < 60000 ->
    Manager.shown (Manager.fireDailySummary clock st).2 = Manager.shown st
    /\ Manager.dailySummaryShownToday (Manager.fireDailySummary clock st).2 = false
    /\ Manager.lastSummaryDate (Manager.fireDailySummary clock st).2
       = Manager.lastSummaryDate st.

(** C8 as the specification states it: the stored hour is clamped to
    [0, 23]. *)
Definition summary_hour_clamped : Prop :=
  forall st v h,
    Db.getSetting "daily_summary_hour" (Manager.db st) = Some v ->
    parseInt v = Some h ->
    Manager.getDailySummaryHour st = Z.max 0 (Z.min 23 h).

(** ** Data of the scenarios *)

(** An empty database file, opened on the morning of 2 November 2026. *)
Definition fresh : Db.t := Db.empty "2026-11-02 09:00:00".

(** A sample of the editor, as in the scenarios of the specification. *)
Definition editor_sample (start_time end_time : Z) : ActivityInput.t :=
  ActivityInput.mk "Editor" "main.ts" None "development" None None None None
    None start_time end_time (end_time - start_time) None.

(** A sample of some app and category. *)
Definition sample_of (app category : string) (start_time end_time : Z)
  : ActivityInput.t :=
  ActivityInput.mk app "window" None category None None None None None
    start_time end_time (end_time - start_time) None.

(** Scenario A: three samples of the editor, ten minutes each. *)
Definition three_samples : list ActivityInput.t :=
  [editor_sample 0 600000; editor_sample 600000 1200000;
   editor_sample 1200000 1800000].

(** The session that scenario A leaves. *)
Definition editor_session : Session.t :=
  Session.mk 1 "Editor" (Some "development") 0 1800000 1800000 3
    (Some "2026-11-02 09:00:00").

(** A database with one session, one of its activities, and one activity
    from before the [session_id] column. *)
Definition legacy_db : Db.t :=
  Db.mk
    [Session.mk 1 "Editor" (Some "development") 1000 2000 1000 1 None]
    [Activity.mk 1 None "Mail" None None None None None None None None
       500 900 400 None None;
     Activity.mk 2 (Some 1) "Editor" None None (Some "development") None None
       None None None 1000 2000 1000 None None]
    1 2 "2026-11-02 09:00:00" ∅ None None.

(** A database with 45 seconds of tracked time today. *)
Definition quiet_day : Db.t :=
  (Db.insertActivity (editor_sample 1000 46000)
     (Db.empty "2026-11-02 00:00:01")).2.

(** Monday 2 November 2026, 18:00 local time, with midnight at 0. *)
Definition evening : Clock.t :=
  Clock.mk 64800000 "Mon Nov 02 2026" 0
    (fun h => h * 3600000) (fun h => 86400000 + h * 3600000).

(** A fresh manager over a database. *)
Definition manager_over (db : Db.t) : Manager.t :=
  Manager.mk db None 0 None false None [] 1 [].

(** A manager over the empty database with one setting. *)
Definition manager_with (key value : string) : Manager.t :=
  Manager.mk (Db.setSetting key value (Db.empty "2026-11-02 09:00:00"))
    None 0 None false None [] 1 [].

(** A string value as JSON text writes it, for strings without quotes,
    backslashes and control characters. *)
Definition quoted (s : string) : string := String dq (s +:+ String dq EmptyString).

(** The text of one stored goal. *)
Definition goal_text (categoryName : string) (targetMs : Z) : string :=
  "{" +:+ quoted "categoryName" +:+ ":" +:+ quoted categoryName +:+ ","
    +:+ quoted "targetMs" +:+ ":" +:+ string_of_Z targetMs +:+ "}".

(** Scenario C: the goal [development] of one hour. *)
Definition development_goal : string :=
  "[" +:+ goal_text "development" 3600000 +:+ "]".

(** Two goals: [deep_work] with the target 0, and [research] of one hour;
    the text stored, and the entries that it parses to. *)
Definition two_goals : string :=
  "[" +:+ goal_text "deep_work" 0 +:+ "," +:+ goal_text "research" 3600000
    +:+ "]".

Definition deep_work_entry : JSON.value :=
  JSON.Obj [("categoryName", JSON.Str "deep_work"); ("targetMs", JSON.Num 0 0)].

Definition two_goals_items : list JSON.value :=
  [deep_work_entry;
   JSON.Obj [("categoryName", JSON.Str "research");
             ("targetMs", JSON.Num 3600000 0)]].

(** A goal that is met, and an entry [null] after it. *)
Definition goal_then_null : string :=
  "[" +:+ goal_text "deep_work" 0 +:+ ",null]".

(** A day with 3,700,000 ms of one category, and the stored goal list. *)
Definition goal_day (category goals : string) : Manager.t :=
  manager_over
    (Db.setSetting "daily_goals" goals
       (Db.insertActivity (sample_of "Editor" category 1000 3701000)
          (Db.empty "2026-11-02 00:00:01")).2).

(** Tuesday 3 November 2026, 09:00 local time, with midnight of Monday
    at 0. *)
Definition next_morning : Clock.t :=
  Clock.mk 118800000 "Tue Nov 03 2026" 86400000
    (fun h => 86400000 + h * 3600000) (fun h => 172800000 + h * 3600000).

(** The database after an hour of the editor. *)
Definition first_hour : Db.t :=
  perform_all [InsertActivity (sample_of "Editor" "development" 0 3600000)] fresh.

(** The session of that hour. *)
Definition first_editor_session : Session.t :=
  Session.mk 1 "Editor" (Some "development") 0 3600000 3600000 1
    (Some "2026-11-02 09:00:00").

(** The browser comes to the front for five minutes. *)
Definition to_browser : operation :=
  InsertActivity (sample_of "Browser" "research" 3600000 3900000).

(** Then the editor again. *)
Definition back_to_editor : list operation :=
  [InsertActivity (sample_of "Editor" "development" 3900000 4500000)].

(** A manager that starts on the day of [goal_day] at midnight, and the daily
    timer that becomes due twice in the evening. *)
Definition summary_day : Manager.t :=
  Manager.constructor (Manager.db (goal_day "development" development_goal))
    (Clock.mk 0 "Mon Nov 02 2026" 0
       (fun h => h * 3600000) (fun h => 86400000 + h * 3600000)).

Definition evening_events : list event :=
  [TimerDue 1 evening; GoalsChecked evening; TimerDue 2 evening].

(** A day with the notifications switched off. *)
Definition switched_off : Manager.t := manager_with "notifications_enabled" "false".

Definition busy_events : list event :=
  [ActivityStarted;
   Tracked (InsertActivity (sample_of "Editor" "development" 1000 3701000));
   SettingChanged "daily_goals" development_goal;
   GoalsChecked evening;
   PomodoroComplete "work" 1500000 None;
   TimerDue 1 evening;
   Idle].

(* ===================================================================== *)
(** * The session aggregator                                               *)
(* ===================================================================== *)

(** Case analysis on the condition of an [if] of the goal. *)
Ltac case_if :=
  match goal with
  | |- context [if ?b then _ else _] => destruct b
  end.

Create HintDb tracker.

Section Aggregator.

Implicit Types (db : Db.t) (s : Session.t) (a : Activity.t).

Lemma sum_durations_app (l1 l2 : list Activity.t) :
  sum_durations (l1 ++ l2) = sum_durations l1 + sum_durations l2.
Proof.
  unfold sum_durations. induction l1 as [|a l1 IH]; simpl; [lia|].
  rewrite IH. lia.
Qed.

Lemma filter_none {A} (f : A -> bool) (l : list A) :
  (forall x, In x l -> f x = false) -> List.filter f l = [].
Proof.
  induction l as [|x l IH]; simpl; intros H; [reflexivity|].
  rewrite (H x) by auto. apply IH. intros y Hy. apply H. auto.
Qed.

Lemma empty_consistent (now : string) : consistent (Db.empty now).
Proof.
  split; simpl; try lia; try contradiction; try discriminate.
Qed.

Lemma closeCurrentSession_consistent db :
  consistent db -> consistent (Db.closeCurrentSession db).
Proof.
  intros [H1 H2 H3 H4 H5]. split; simpl; auto; discriminate.
Qed.

(** What [getOrCreateSession] returns and leaves behind. *)
Lemma getOrCreateSession_reuse appName category startTime db sid :
  Db.open_for appName db = Some sid ->
  Db.getOrCreateSession appName category startTime db = (sid, db).
Proof. intros H. unfold Db.getOrCreateSession. now rewrite H. Qed.

Lemma getOrCreateSession_create appName category startTime db :
  Db.open_for appName db = None ->
  Db.getOrCreateSession appName category startTime db
  = (Db.seq_sessions db + 1,
     Db.set_current (Some (Db.seq_sessions db + 1)) (Some appName)
       (Db.createSession appName category startTime db).2).
Proof. intros H. unfold Db.getOrCreateSession. now rewrite H. Qed.

Lemma open_for_current appName db sid :
  Db.open_for appName db = Some sid ->
  Db.currentSessionId db = Some sid /\ sid <> 0
  /\ Db.currentSessionAppName db = Some appName.
Proof.
  unfold Db.open_for.
  destruct (Db.currentSessionId db) as [x|]; [|discriminate].
  destruct (Db.currentSessionAppName db) as [app|]; [|discriminate].
  destruct (x =? 0) eqn:Hx; simpl; [discriminate|].
  destruct (String.eqb app appName) eqn:Happ; [|discriminate].
  intros [= <-]. apply String.eqb_eq in Happ. apply Z.eqb_neq in Hx.
  subst. auto.
Qed.

Lemma open_for_set_current appName db sid :
  sid <> 0 ->
  Db.open_for appName (Db.set_current (Some sid) (Some appName) db) = Some sid.
Proof.
  intros Hsid. unfold Db.open_for; simpl.
  apply Z.eqb_neq in Hsid. now rewrite Hsid, String.eqb_refl.
Qed.

Lemma createSession_consistent appName category startTime db :
  consistent db ->
  consistent
    (Db.set_current (Some (Db.seq_sessions db + 1)) (Some appName)
       (Db.createSession appName category startTime db).2).
Proof.
  intros [H1 H2 H3 H4 H5]. split; simpl.
  - intros s Hs. apply in_app_or in Hs as [Hs|[<-|[]]]; simpl.
    + specialize (H1 s Hs). lia.
    + lia.
  - lia.
  - intros a sid Ha Hsid. specialize (H3 a sid Ha Hsid). lia.
  - intros sid [= <-]. lia.
  - intros s Hs. apply in_app_or in Hs as [Hs|[<-|[]]].
    + apply (H5 s Hs).
    + unfold totals_ok, activities_of; simpl.
      rewrite filter_none; [split; reflexivity|].
      intros a Ha. unfold belongs.
      destruct (Activity.sessionId a) as [x|] eqn:Hx; [|reflexivity].
      specialize (H3 a x Ha Hx). apply Z.eqb_neq. lia.
Qed.

(** Adding a row to a session and extending that session keeps the totals. *)
Lemma add_row_consistent db sid row activity_id endTime :
  consistent db ->
  sid <= Db.seq_sessions db ->
  Activity.sessionId row = Some sid ->
  consistent
    (Db.updateSession sid endTime (Activity.duration row)
       (Db.set_activities (Db.activities db ++ [row]) activity_id db)).
Proof.
  intros [H1 H2 H3 H4 H5] Hsid Hrow. split; simpl.
  - intros s Hs. apply in_map_iff in Hs as (s0 & <- & Hs0).
    specialize (H1 s0 Hs0). destruct (Session.id s0 =? sid); simpl; lia.
  - lia.
  - intros a x Ha Hx. apply in_app_or in Ha as [Ha|[<-|[]]].
    + eauto.
    + congruence.
  - auto.
  - intros s Hs. apply in_map_iff in Hs as (s0 & <- & Hs0).
    destruct (H5 s0 Hs0) as [Ht Hc].
    unfold totals_ok, activities_of in *; simpl.
    destruct (Session.id s0 =? sid) eqn:Hid; simpl;
      rewrite List.filter_app; simpl; unfold belongs at 2 4; rewrite Hrow.
    + apply Z.eqb_eq in Hid. subst sid. rewrite Z.eqb_refl.
      rewrite sum_durations_app, length_app, Nat2Z.inj_add.
      unfold sum_durations at 2; simpl. split; lia.
    + rewrite Z.eqb_sym, Hid, !app_nil_r. auto.
Qed.

Lemma insertActivity_consistent activity db :
  consistent db -> consistent (Db.insertActivity activity db).2.
Proof.
  intros Hdb. unfold Db.insertActivity.
  destruct (Db.open_for (ActivityInput.app_name activity) db) as [sid|] eqn:Hopen.
  - rewrite (getOrCreateSession_reuse _ _ _ _ _ Hopen). simpl.
    apply open_for_current in Hopen as (Hcur & _ & _).
    apply (add_row_consistent db sid (Db.new_row _ sid activity _)); auto.
    now apply (current_ref db Hdb).
  - rewrite (getOrCreateSession_create _ _ _ _ Hopen). cbv zeta. cbn [snd].
    match goal with
    | |- consistent (Db.updateSession ?sid _ _ (Db.set_activities (_ ++ [?row]) _ ?d)) =>
        apply (add_row_consistent d sid row)
    end.
    + now apply createSession_consistent.
    + simpl. lia.
    + reflexivity.
Qed.

#[local] Hint Resolve empty_consistent closeCurrentSession_consistent
  insertActivity_consistent : tracker.

Lemma perform_consistent db o : consistent db -> consistent (perform db o).
Proof. destruct o; simpl; auto with tracker. Qed.

(** Every activity that [insertActivity] writes has a session and a
    category. *)
Lemma insertActivity_row (activity : ActivityInput.t) db :
  exists row,
    Db.activities (Db.insertActivity activity db).2 = Db.activities db ++ [row]
    /\ Activity.id row = (Db.insertActivity activity db).1
    /\ Activity.sessionId row <> None
    /\ Activity.category row = Some (ActivityInput.category activity)
    /\ Activity.duration row = ActivityInput.duration activity.
Proof.
  unfold Db.insertActivity.
  destruct (Db.getOrCreateSession _ _ _ db) as [sid db1] eqn:Hget.
  assert (Hacts : Db.activities db1 = Db.activities db).
  { unfold Db.getOrCreateSession in Hget.
    destruct (Db.open_for _ db); injection Hget as <- <-; reflexivity. }
  eexists. simpl. rewrite Hacts. repeat split; discriminate || reflexivity.
Qed.

(** The aggregator never stores an activity without a category. *)
Lemma perform_all_categories ops :
  forall db,
  (forall a, In a (Db.activities db) -> Activity.category a <> None) ->
  forall a, In a (Db.activities (perform_all ops db)) ->
    Activity.category a <> None.
Proof.
  unfold perform_all.
  induction ops as [|o ops IH]; intros db Hdb; simpl; [exact Hdb|].
  apply IH. destruct o as [activity|]; simpl; [|exact Hdb].
  destruct (insertActivity_row activity db) as (row & -> & _ & _ & Hcat & _).
  intros a Ha. apply in_app_or in Ha as [Ha|[<-|[]]]; [now apply Hdb|].
  rewrite Hcat. discriminate.
Qed.

(** A consistent database has no session with the id 0. *)
Lemma consistent_session_ids db :
  consistent db -> forall s, In s (Db.sessions db) -> Session.id s <> 0.
Proof. intros Hdb s Hs. pose proof (session_ids db Hdb s Hs). lia. Qed.

Lemma perform_all_consistent ops db :
  consistent db -> consistent (perform_all ops db).
Proof.
  unfold perform_all. revert db.
  induction ops as [|o ops IH]; simpl; intros db H; [assumption|].
  apply IH. now apply perform_consistent.
Qed.

(** C1.  Session totals invariant: in a database that the aggregator keeps
    (the empty one, or any consistent one), after every sequence of
    completed operations ([insertActivity], [closeCurrentSession]), each
    session row has [totalDuration] equal to the sum of the durations of its
    activities and [activityCount] equal to their number. *)
Theorem session_totals_invariant (db : Db.t) (ops : list operation) (s : Session.t) :
  consistent db ->
  In s (Db.sessions (perform_all ops db)) ->
  Session.totalDuration s
    = sum_durations (activities_of (Session.id s) (perform_all ops db))
  /\ Session.activityCount s
     = Z.of_nat (List.length (activities_of (Session.id s) (perform_all ops db))).
Proof.
  intros Hdb Hs.
  exact (session_totals _ (perform_all_consistent ops db Hdb) s Hs).
Qed.

(** The session row after the samples of a run have extended it. *)
Lemma extend_all_spec (samples : list ActivityInput.t) s :
  Session.id (extend_all samples s) = Session.id s
  /\ Session.startTime (extend_all samples s) = Session.startTime s
  /\ Session.activityCount (extend_all samples s)
     = Session.activityCount s + Z.of_nat (List.length samples)
  /\ Session.totalDuration (extend_all samples s)
     = Session.totalDuration s
       + fold_right Z.add 0 (map ActivityInput.duration samples).
Proof.
  unfold extend_all. revert s.
  induction samples as [|i samples IH]; intros s; simpl.
  - repeat split; lia.
  - destruct (IH (Db.extend (ActivityInput.end_time i) (ActivityInput.duration i) s))
      as (H1 & H2 & H3 & H4).
    simpl in *. rewrite H1, H2, H3, H4. repeat split; lia.
Qed.

Lemma insert_reuse_step (a : string) (i : ActivityInput.t) db sid :
  Db.open_for a db = Some sid ->
  ActivityInput.app_name i = a ->
  (Db.insertActivity i db).2
  = Db.updateSession sid (ActivityInput.end_time i) (ActivityInput.duration i)
      (Db.set_activities
         (Db.activities db
          ++ [Db.new_row (Db.seq_activities db + 1) sid i (Db.CURRENT_TIMESTAMP db)])
         (Db.seq_activities db + 1) db).
Proof.
  intros Hopen <-. unfold Db.insertActivity.
  now rewrite (getOrCreateSession_reuse _ _ _ _ _ Hopen).
Qed.

(** While the session [sid] is open for [a], every sample of [a] joins it:
    no session is created, and the rows with the id [sid] are extended. *)
Lemma reuse_run (a : string) (samples : list ActivityInput.t) :
  forall db sid,
  Db.open_for a db = Some sid ->
  Forall (fun i => ActivityInput.app_name i = a) samples ->
  Db.open_for a (insert_all samples db) = Some sid
  /\ Db.seq_sessions (insert_all samples db) = Db.seq_sessions db
  /\ (exists rows,
        Db.activities (insert_all samples db) = Db.activities db ++ rows
        /\ map Activity.sessionId rows
           = repeat (Some sid) (List.length samples)
        /\ map Activity.duration rows = map ActivityInput.duration samples)
  /\ Db.sessions (insert_all samples db)
     = map (fun s => if Session.id s =? sid then extend_all samples s else s)
         (Db.sessions db).
Proof.
  induction samples as [|i samples IH]; intros db sid Hopen Hall.
  - unfold insert_all, perform_all, extend_all; simpl. repeat split; auto.
    + exists []. now rewrite app_nil_r.
    + rewrite <- (map_id (Db.sessions db)) at 1. apply map_ext.
      intros s. now destruct (Session.id s =? sid).
  - inversion Hall as [|? ? Hi Hrest]; subst.
    change (insert_all (i :: samples) db)
      with (insert_all samples (Db.insertActivity i db).2).
    rewrite (insert_reuse_step _ i db sid Hopen eq_refl).
    match goal with |- context [insert_all samples ?d] => set (db1 := d) end.
    assert (Hopen1 : Db.open_for (ActivityInput.app_name i) db1 = Some sid)
      by exact Hopen.
    destruct (IH db1 sid Hopen1 Hrest) as (H1 & H2 & (rows & H3 & H4 & H5) & H6).
    repeat split.
    + exact H1.
    + rewrite H2. reflexivity.
    + exists (Db.new_row (Db.seq_activities db + 1) sid i (Db.CURRENT_TIMESTAMP db)
              :: rows).
      rewrite H3. subst db1; simpl. rewrite <- app_assoc. simpl.
      rewrite H4, H5. auto.
    + rewrite H6. subst db1; simpl. rewrite map_map. apply map_ext.
      intros s. unfold extend_all.
      destruct (Session.id s =? sid) eqn:Hid; simpl; rewrite Hid;
        reflexivity.
Qed.

(** C2.  Same-app grouping: in a run of consecutive [insertActivity] calls
    for one app [a], not interrupted by [closeCurrentSession] or by another
    app, all [n] activities receive the same session id and that session
    stays open.  When no session is open for [a] at the start, the first
    call creates the session, no other call creates one, and afterwards the
    session has [activityCount = n] and [totalDuration] the sum of the
    durations.  When a session is open for [a] at the start, it is the one
    reused: no session is created and its totals grow by [n] and by the
    sum. *)
Theorem same_app_grouping (db : Db.t) (a : string)
  (samples : list ActivityInput.t) :
  consistent db ->
  samples <> [] ->
  Forall (fun i => ActivityInput.app_name i = a) samples ->
  exists sid rows,
    Db.activities (insert_all samples db) = Db.activities db ++ rows
    /\ map Activity.sessionId rows = repeat (Some sid) (List.length samples)
    /\ map Activity.duration rows = map ActivityInput.duration samples
    /\ Db.open_for a (insert_all samples db) = Some sid
    /\ match Db.open_for a db with
       | None =>
           exists s,
             Db.sessions (insert_all samples db) = Db.sessions db ++ [s]
             /\ Session.id s = sid
             /\ sid = Db.seq_sessions db + 1
             /\ Session.activityCount s = Z.of_nat (List.length samples)
             /\ Session.totalDuration s
                = fold_right Z.add 0 (map ActivityInput.duration samples)
       | Some open =>
           sid = open
           /\ Db.sessions (insert_all samples db)
              = map (fun s =>
                       if Session.id s =? sid then extend_all samples s else s)
                  (Db.sessions db)
       end.
Proof.
  intros Hdb Hne Hall.
  destruct (Db.open_for a db) as [open|] eqn:Hopen.
  { destruct (reuse_run a samples db open Hopen Hall)
      as (H1 & _ & (rows & H3 & H4 & H5) & H6).
    exists open, rows. repeat split; assumption. }
  destruct samples as [|i samples]; [contradiction|].
  inversion Hall as [|? ? Hi Hrest]; subst.
  set (a := ActivityInput.app_name i) in *.
  set (sid := Db.seq_sessions db + 1).
  set (db0 := Db.set_current (Some sid) (Some a)
                (Db.createSession a (ActivityInput.category i)
                   (ActivityInput.start_time i) db).2).
  assert (Hsid : sid <> 0)
    by (pose proof (seq_nonneg db Hdb); unfold sid; lia).
  assert (Hopen0 : Db.open_for a db0 = Some sid)
    by now apply open_for_set_current.
  assert (Hsame : insert_all (i :: samples) db = insert_all (i :: samples) db0).
  { change (insert_all samples (Db.insertActivity i db).2
            = insert_all samples (Db.insertActivity i db0).2).
    f_equal. unfold Db.insertActivity at 1.
    fold a. rewrite (getOrCreateSession_create _ _ _ _ Hopen).
    symmetry. now apply (insert_reuse_step a). }
  destruct (reuse_run a (i :: samples) db0 sid Hopen0 Hall)
    as (H1 & H2 & (rows & H3 & H4 & H5) & H6).
  rewrite Hsame.
  set (new := Session.mk sid a (Some (ActivityInput.category i))
                (ActivityInput.start_time i) (ActivityInput.start_time i) 0 0
                (Some (Db.CURRENT_TIMESTAMP db))).
  destruct (extend_all_spec (i :: samples) new) as (E1 & _ & E3 & E4).
  assert (Hsess : Db.sessions (insert_all (i :: samples) db0)
                  = Db.sessions db ++ [extend_all (i :: samples) new]).
  { rewrite H6. unfold db0; simpl Db.sessions. rewrite map_app. f_equal.
    - rewrite <- (map_id (Db.sessions db)) at 2. apply map_ext_in.
      intros s0 Hs0. pose proof (session_ids db Hdb s0 Hs0).
      replace (Session.id s0 =? sid) with false; [reflexivity|].
      symmetry. apply Z.eqb_neq. unfold sid. lia.
    - cbn [map]. fold new. change (Session.id new) with sid.
      now rewrite Z.eqb_refl. }
  exists sid, rows. repeat split; try assumption.
  exists (extend_all (i :: samples) new).
  rewrite E1, E3, E4. simpl Session.activityCount. simpl Session.totalDuration.
  repeat split; try assumption; try reflexivity; lia.
Qed.

(** C10.  A session row is created with [endTime = startTime],
    [totalDuration = 0] and [activityCount = 0], so [startTime <= endTime]
    holds from its creation; [updateSession] keeps it for every row when the
    sample's end time is not before the start of the session it extends, and
    so does a whole [insertActivity]. *)
Theorem session_interval_ordered :
  (forall appName category startTime db,
     exists row,
       Db.sessions (Db.createSession appName category startTime db).2
       = Db.sessions db ++ [row]
       /\ Session.id row = (Db.createSession appName category startTime db).1
       /\ Session.startTime row = startTime
       /\ Session.endTime row = startTime
       /\ Session.totalDuration row = 0
       /\ Session.activityCount row = 0)
  /\ (forall sessionId endTime duration db,
        (forall s, In s (Db.sessions db) ->
           Session.startTime s <= Session.endTime s) ->
        (forall s, In s (Db.sessions db) -> Session.id s = sessionId ->
           Session.startTime s <= endTime) ->
        forall s', In s' (Db.sessions (Db.updateSession sessionId endTime duration db)) ->
          Session.startTime s' <= Session.endTime s')
  /\ (forall activity db,
        (forall s, In s (Db.sessions db) ->
           Session.startTime s <= Session.endTime s) ->
        (forall s, In s (Db.sessions db) ->
           Session.startTime s <= ActivityInput.end_time activity) ->
        ActivityInput.start_time activity <= ActivityInput.end_time activity ->
        forall s', In s' (Db.sessions (Db.insertActivity activity db).2) ->
          Session.startTime s' <= Session.endTime s').
Proof.
  assert (Hupd : forall sessionId endTime duration db,
            (forall s, In s (Db.sessions db) ->
               Session.startTime s <= Session.endTime s) ->
            (forall s, In s (Db.sessions db) -> Session.id s = sessionId ->
               Session.startTime s <= endTime) ->
            forall s', In s' (Db.sessions (Db.updateSession sessionId endTime duration db)) ->
              Session.startTime s' <= Session.endTime s').
  { intros sid e d db Hord Hnew s' Hs'. simpl in Hs'.
    apply in_map_iff in Hs' as (s & <- & Hs).
    destruct (Session.id s =? sid) eqn:Hid; simpl.
    - apply Hnew; [assumption|]. now apply Z.eqb_eq.
    - now apply Hord. }
  split; [|split].
  - intros appName category startTime db. eexists. simpl.
    repeat split; reflexivity.
  - exact Hupd.
  - intros activity db Hord Hend Hle s'. unfold Db.insertActivity.
    destruct (Db.open_for (ActivityInput.app_name activity) db) as [sid|] eqn:Hopen.
    + rewrite (getOrCreateSession_reuse _ _ _ _ _ Hopen). cbn [snd].
      apply Hupd; simpl; auto.
    + rewrite (getOrCreateSession_create _ _ _ _ Hopen). cbn [snd].
      apply Hupd; simpl.
      * intros s Hs. apply in_app_or in Hs as [Hs|[<-|[]]]; simpl; auto; lia.
      * intros s Hs _. apply in_app_or in Hs as [Hs|[<-|[]]]; simpl; auto.
Qed.

(** ** Sessions with their activities *)

Lemma insert_desc_In {A} (key : A -> Z) (x y : A) (l : list A) :
  In y (Db.insert_desc key x l) <-> y = x \/ In y l.
Proof.
  induction l as [|z l IH]; simpl.
  - intuition.
  - destruct (key z <=? key x); simpl; [intuition|].
    rewrite IH. intuition.
Qed.

Lemma sort_desc_In {A} (key : A -> Z) (y : A) (l : list A) :
  In y (Db.sort_desc key l) <-> In y l.
Proof.
  unfold Db.sort_desc. induction l as [|x l IH]; simpl; [reflexivity|].
  rewrite insert_desc_In, IH. intuition.
Qed.

Lemma activitiesBySession_keys (rows : list Activity.t) :
  forall m : gmap Z (list ActivityRecord.t),
  (forall k recs r, m !! k = Some recs -> In r recs -> bucket_of r = k) ->
  forall k recs r,
    fold_left Db.group_step rows m !! k = Some recs -> In r recs ->
    bucket_of r = k.
Proof.
  induction rows as [|a rows IH]; intros m Hm; simpl; [exact Hm|].
  apply IH. intros k recs r. unfold Db.group_step.
  set (sid := default 0 (Activity.sessionId a)).
  destruct (decide (sid = k)) as [<-|Hne].
  - rewrite lookup_insert_eq. intros [= <-] Hr.
    apply in_app_or in Hr as [Hr|[<-|[]]]; [|reflexivity].
    destruct (m !! sid) as [old|] eqn:Hold; simpl in Hr; [|contradiction].
    now apply (Hm sid old).
  - rewrite lookup_insert_ne by assumption. apply Hm.
Qed.

Lemma activitiesBySession_complete (rows : list Activity.t) :
  forall (m : gmap Z (list ActivityRecord.t)) (a : Activity.t),
  In a rows
  \/ In (Db.mapToRecord a) (default [] (m !! default 0 (Activity.sessionId a))) ->
  In (Db.mapToRecord a)
    (default [] (fold_left Db.group_step rows m !! default 0 (Activity.sessionId a))).
Proof.
  induction rows as [|b rows IH]; intros m a H; simpl.
  - destruct H as [[]|H]; exact H.
  - apply IH. destruct H as [[<-|H]|H]; [right|left; exact H|right].
    + unfold Db.group_step. rewrite lookup_insert_eq. simpl.
      apply in_or_app. right. now left.
    + unfold Db.group_step.
      destruct (decide (default 0 (Activity.sessionId b)
                        = default 0 (Activity.sessionId a))) as [Heq|Hne].
      * rewrite Heq, lookup_insert_eq. simpl. apply in_or_app. now left.
      * now rewrite lookup_insert_ne.
Qed.

(** C9.  [getSessionsWithActivities] drops the activities without a
    session: when no stored session has the id 0 (ids come from
    [AUTOINCREMENT]), the rows in range whose [sessionId] is [null] are
    collected under the key 0, every record listed under a returned session
    carries that session's id, and so no activity without a session is
    listed under any returned session. *)
Theorem orphan_activities_dropped (db : Db.t) (startTime endTime : Z) :
  (forall s, In s (Db.sessions db) -> Session.id s <> 0) ->
  (forall a,
     In a (Db.sort_desc Activity.startTime (Db.rows_in_range startTime endTime db)) ->
     Activity.sessionId a = None ->
     In (Db.mapToRecord a)
       (default []
          (Db.activitiesBySession
             (Db.sort_desc Activity.startTime
                (Db.rows_in_range startTime endTime db)) !! 0)))
  /\ forall sw,
       In sw (Db.getSessionsWithActivities startTime endTime db) ->
       (forall r, In r (SessionWithActivities.activities sw) ->
          ActivityRecord.session_id r = Some (SessionWithActivities.id sw))
       /\ (forall a, Activity.sessionId a = None ->
             ~ In (Db.mapToRecord a) (SessionWithActivities.activities sw)).
Proof.
  intros Hids. split.
  - intros a Ha Hnone.
    pose proof (activitiesBySession_complete _ ∅ a (or_introl Ha)) as H.
    now rewrite Hnone in H.
  - intros sw Hsw.
    assert (Hlisted : forall r, In r (SessionWithActivities.activities sw) ->
              ActivityRecord.session_id r = Some (SessionWithActivities.id sw)).
    { intros r Hr. unfold Db.getSessionsWithActivities in Hsw.
      set (sessionRows := Db.sort_desc Session.startTime _) in Hsw.
      assert (Hsub : forall s, In s sessionRows -> Session.id s <> 0).
      { intros s Hs. apply Hids. unfold sessionRows in Hs.
        apply sort_desc_In, filter_In in Hs. tauto. }
      destruct sessionRows as [|s0 rest] eqn:Hrows; [contradiction|].
      rewrite <- Hrows in Hsw, Hsub. clear Hrows.
      apply in_map_iff in Hsw as (session & <- & Hsession).
      simpl in Hr |- *.
      match type of Hr with
      | In r (default [] (?m !! _)) =>
          destruct (m !! Session.id session) as [recs|] eqn:Hm
      end; simpl in Hr; [|contradiction].
      assert (Hempty : forall k recs r,
                (∅ : gmap Z (list ActivityRecord.t)) !! k = Some recs ->
                In r recs -> bucket_of r = k).
      { intros k recs0 r0 H. rewrite lookup_empty in H. discriminate. }
      pose proof (activitiesBySession_keys _ ∅ Hempty _ _ _ Hm Hr) as Hkey.
      unfold bucket_of in Hkey.
      destruct (ActivityRecord.session_id r) as [x|]; simpl in Hkey.
      - now subst x.
      - exfalso. apply (Hsub session Hsession). now symmetry. }
    split; [exact Hlisted|].
    intros a Hnone Hin. apply Hlisted in Hin. simpl in Hin. congruence.
Qed.

End Aggregator.

(* ===================================================================== *)
(** * JSON: the round trip of the goal ledger                              *)
(* ===================================================================== *)

Section JsonFacts.

Lemma parse_emit_char (c : ascii) (rest s k : string) :
  JSON.parse_chars rest = Some (s, k) ->
  JSON.parse_chars (JSON.emit_char c rest) = Some (String c s, k).
Proof.
  intros H.
  destruct c as [[] [] [] [] [] [] [] []]; unfold JSON.emit_char; simpl;
    rewrite H; reflexivity.
Qed.

Lemma parse_chars_emit (s k : string) :
  JSON.parse_chars (JSON.emit_chars s (String dq k)) = Some (s, k).
Proof.
  induction s as [|c s IH]; simpl.
  - reflexivity.
  - now apply parse_emit_char.
Qed.

Lemma parse_value_string (fuel : nat) (s k : string) :
  JSON.parse_value (S fuel) (JSON.emit_string s k) = Some (JSON.Str s, k).
Proof.
  unfold JSON.emit_string. simpl. now rewrite parse_chars_emit.
Qed.

Lemma parse_elements_unfold (fuel : nat) (s : string) :
  JSON.parse_elements (S fuel) s
  = match JSON.parse_value fuel s with
    | None => None
    | Some (v, r) =>
        match JSON.skip_ws r with
        | String "," r' =>
            match JSON.parse_elements fuel r' with
            | Some (items, r'') => Some (v :: items, r'')
            | None => None
            end
        | String "]" r' => Some ([v], r')
        | _ => None
        end
    end.
Proof. reflexivity. Qed.

Lemma emit_strings (gs : list string) (k : string) :
  JSON.emit (JSON.Arr (map JSON.Str gs)) k
  = String "["
      (match gs with
       | [] => String "]" k
       | g :: gs' => JSON.emit_string g (strings_rest gs' k)
       end).
Proof.
  destruct gs as [|g gs]; [reflexivity|]. simpl. do 2 f_equal.
  induction gs as [|g' gs IH]; simpl; [reflexivity|]. now rewrite IH.
Qed.

Lemma parse_elements_strings (gs : list string) :
  forall (g k : string) (fuel : nat),
  (List.length gs + 2 <= fuel)%nat ->
  JSON.parse_elements fuel (JSON.emit_string g (strings_rest gs k))
  = Some (JSON.Str g :: map JSON.Str gs, k).
Proof.
  induction gs as [|g' gs IH]; intros g k fuel Hfuel;
    destruct fuel as [|[|fuel]]; simpl in Hfuel; try lia;
    rewrite parse_elements_unfold, parse_value_string.
  - reflexivity.
  - remember (S fuel) as fuel' eqn:Hfuel'. simpl.
    rewrite IH by lia. reflexivity.
Qed.

Lemma parse_value_object (fuel : nat) (r : string) :
  JSON.parse_value (S fuel) (String "{" r)
  = match JSON.skip_ws r with
    | String "}" r' => Some (JSON.Obj [], r')
    | _ =>
        match JSON.parse_members fuel r with
        | Some (members, r') => Some (JSON.Obj members, r')
        | None => None
        end
    end.
Proof. reflexivity. Qed.

Lemma parse_value_array (fuel : nat) (r : string) :
  JSON.parse_value (S fuel) (String "[" r)
  = match JSON.skip_ws r with
    | String "]" r' => Some (JSON.Arr [], r')
    | _ =>
        match JSON.parse_elements fuel r with
        | Some (items, r') => Some (JSON.Arr items, r')
        | None => None
        end
    end.
Proof. reflexivity. Qed.

Lemma parse_members_key (fuel : nat) (key k : string) :
  JSON.parse_members (S fuel) (JSON.emit_string key k)
  = match JSON.skip_ws k with
    | String ":" r2 =>
        match JSON.parse_value fuel r2 with
        | None => None
        | Some (v, r3) =>
            match JSON.skip_ws r3 with
            | String "," r4 =>
                match JSON.parse_members fuel r4 with
                | Some (members, r5) => Some ((key, v) :: members, r5)
                | None => None
                end
            | String "}" r4 => Some ([(key, v)], r4)
            | _ => None
            end
        end
    | _ => None
    end.
Proof.
  unfold JSON.emit_string. simpl. now rewrite parse_chars_emit.
Qed.

Lemma skip_ws_emit_string (s k : string) :
  JSON.skip_ws (JSON.emit_string s k) = JSON.emit_string s k.
Proof. reflexivity. Qed.

(** The text of a ledger. *)
Lemma emit_ledger (today : string) (notified : list string) (k : string) :
  JSON.emit (Manager.ledger today notified) k
  = String "{"
      (JSON.emit_string "date"
         (String ":"
            (JSON.emit_string today
               (String ","
                  (JSON.emit_string "goals"
                     (String ":"
                        (JSON.emit (JSON.Arr (map JSON.Str notified))
                           (String "}" k)))))))).
Proof. reflexivity. Qed.

Lemma parse_value_ledger (today : string) (notified : list string)
  (k : string) (fuel : nat) :
  (List.length notified + 5 <= fuel)%nat ->
  JSON.parse_value fuel (JSON.emit (Manager.ledger today notified) k)
  = Some (Manager.ledger today notified, k).
Proof.
  intros Hfuel. rewrite emit_ledger, emit_strings.
  destruct fuel as [|[|[|[|fuel]]]]; try lia.
  destruct notified as [|g gs].
  - simpl. rewrite parse_chars_emit. simpl. reflexivity.
  - simpl. rewrite parse_chars_emit. simpl.
    change (String dq (JSON.emit_chars g (String dq ?k))) with (JSON.emit_string g k).
    rewrite parse_elements_strings by (simpl in Hfuel; lia).
    reflexivity.
Qed.

Lemma length_emit_char (c : ascii) (k : string) :
  (String.length k <= String.length (JSON.emit_char c k))%nat.
Proof.
  unfold JSON.emit_char. repeat case_if; simpl; lia.
Qed.

Lemma length_emit_string (s k : string) :
  (String.length k + 2 <= String.length (JSON.emit_string s k))%nat.
Proof.
  unfold JSON.emit_string. simpl.
  assert (H : forall k', (String.length k' <= String.length (JSON.emit_chars s k'))%nat).
  { induction s as [|c s IH]; intros k'; simpl; [lia|].
    etransitivity; [apply IH|apply length_emit_char]. }
  specialize (H (String dq k)). simpl in H. lia.
Qed.

Lemma length_strings_rest (gs : list string) (k : string) :
  (List.length gs <= String.length (strings_rest gs k))%nat.
Proof.
  induction gs as [|g gs IH]; cbn [strings_rest List.length String.length]; [lia|].
  pose proof (length_emit_string g (strings_rest gs k)). lia.
Qed.

Lemma length_ledger (today : string) (notified : list string) :
  (List.length notified + 4
   <= String.length (JSON.emit (Manager.ledger today notified) EmptyString))%nat.
Proof.
  rewrite emit_ledger, emit_strings. cbn [String.length].
  pose proof (length_emit_string "date"
    (String ":" (JSON.emit_string today (String "," (JSON.emit_string "goals"
       (String ":" (String "[" match notified with
                              | [] => String "]" (String "}" EmptyString)
                              | g :: gs' => JSON.emit_string g (strings_rest gs' (String "}" EmptyString))
                              end))))))) as H1.
  cbn [String.length] in H1.
  match type of H1 with
  | context [String.length (JSON.emit_string today ?r)] =>
      pose proof (length_emit_string today r) as H2
  end.
  cbn [String.length] in H2.
  match type of H2 with
  | context [String.length (JSON.emit_string "goals" ?r)] =>
      pose proof (length_emit_string "goals" r) as H3
  end.
  cbn [String.length] in H3.
  destruct notified as [|g gs]; cbn [String.length List.length] in *; [lia|].
  pose proof (length_emit_string g (strings_rest gs (String "}" EmptyString))) as H4.
  pose proof (length_strings_rest gs (String "}" EmptyString)) as H5.
  lia.
Qed.

(** The round trip that the goal ledger relies on. *)
Lemma parse_stringify_ledger (today : string) (notified : list string) :
  JSON.parse (JSON.stringify (Manager.ledger today notified))
  = Some (Manager.ledger today notified).
Proof.
  unfold JSON.parse, JSON.stringify.
  rewrite parse_value_ledger; [reflexivity|].
  pose proof (length_ledger today notified). lia.
Qed.

End JsonFacts.

(* ===================================================================== *)
(** * The notification manager                                             *)
(* ===================================================================== *)

Section Reminders.

Implicit Types (st : Manager.t) (clock : Clock.t).

Lemma round_div_minutes (m : Z) : round_div (m * 60000) 60000 = m.
Proof.
  unfold round_div.
  replace (2 * (m * 60000) + 60000) with (m * (2 * 60000) + 60000) by lia.
  rewrite Z.div_add_l by lia.
  rewrite (Z.div_small 60000 (2 * 60000)) by lia. lia.
Qed.


(** C7.  Break-reminder rate limit.  The task that [resetBreakTimer] arms
    carries the interval of the settings, a whole number [m] of minutes.
    When a task armed for [m] minutes fires: if fewer than 5 minutes have
    passed since the last break notification shown, the state is left as it
    is (nothing is shown, no timeout is added, the recorded time stays);
    otherwise the notification [Time for a break!] with the body
    [You've been working for m minutes.] is shown and the firing time
    becomes the recorded time, and again no timeout is added. *)
Theorem break_reminder_rate_limit st clock (m : Z) :
  (exists h,
     Manager.timeouts (Manager.resetBreakTimer st)
     = Manager.timeouts (Manager.clearBreakTimer st)
       ++ [Manager.mkTimeout h (Manager.getBreakIntervalMs st)
             (Manager.BreakReminder (Manager.getBreakIntervalMs st))]
     /\ Manager.breakTimer (Manager.resetBreakTimer st) = Some h)
  /\ Manager.fireBreakReminder (m * 60000) clock st
     = if Clock.now clock - Manager.lastBreakNotification st <? 300000
       then st
       else
         Manager.mk (Manager.db st) (Manager.breakTimer st) (Clock.now clock)
           (Manager.dailySummaryTimer st) (Manager.dailySummaryShownToday st)
           (Manager.lastSummaryDate st) (Manager.timeouts st)
           (Manager.next_handle st)
           (Manager.shown st
            ++ [Notification.mk "Time for a break!"
                  ("You've been working for " +:+ string_of_Z m +:+ " minutes.")]).
Proof.
  split.
  - unfold Manager.resetBreakTimer.
    assert (Hsame : Manager.getBreakIntervalMs (Manager.clearBreakTimer st)
                    = Manager.getBreakIntervalMs st).
    { unfold Manager.clearBreakTimer.
      now destruct (Manager.breakTimer st). }
    rewrite Hsame. simpl. eauto.
  - unfold Manager.fireBreakReminder. rewrite round_div_minutes.
    change (5 * 60000) with 300000.
    now destruct (_ <? _).
Qed.

(** C8, counterexample.  With the stored value [25], which parses to 25,
    the hour is 18 and not 23: the hour is not clamped. *)
Lemma summary_hour_not_clamped : ~ summary_hour_clamped.
Proof.
  intros H.
  specialize (H (manager_with "daily_summary_hour" "25") "25" 25
                eq_refl eq_refl).
  vm_compute in H. discriminate H.
Qed.

(** C8, as amended.  The summary hour is the stored number when the setting
    parses to a number within [0, 23], and the default 18 otherwise: when
    the key is absent, when the value is not numeric and when the number is
    below 0 or above 23.  It is always within [0, 23], and it is the hour
    for which [scheduleDailySummary] arms the task. *)
Theorem summary_hour_or_default st clock :
  Manager.getDailySummaryHour st
  = match Db.getSetting "daily_summary_hour" (Manager.db st) with
    | None => 18
    | Some v =>
        match parseInt v with
        | None => 18
        | Some h => if (0 <=? h) && (h <=? 23) then h else 18
        end
    end
  /\ 0 <= Manager.getDailySummaryHour st <= 23
  /\ exists h,
       Manager.timeouts (Manager.scheduleDailySummary clock st)
       = Manager.timeouts (Manager.clearDailySummaryTimer st)
         ++ [Manager.mkTimeout h
               ((if Clock.atHour clock (Manager.getDailySummaryHour st)
                    <=? Clock.now clock
                 then Clock.atHourTomorrow clock (Manager.getDailySummaryHour st)
                 else Clock.atHour clock (Manager.getDailySummaryHour st))
                - Clock.now clock)
               Manager.DailySummary].
Proof.
  assert (Heq : Manager.getDailySummaryHour st
                = match Db.getSetting "daily_summary_hour" (Manager.db st) with
                  | None => 18
                  | Some v =>
                      match parseInt v with
                      | None => 18
                      | Some h => if (0 <=? h) && (h <=? 23) then h else 18
                      end
                  end).
  { unfold Manager.getDailySummaryHour.
    destruct (Db.getSetting _ _) as [[|c v]|]; simpl; try reflexivity.
    destruct (parseInt (String c v)) as [h|]; [|reflexivity].
    destruct (h <? 0) eqn:H0, (23 <? h) eqn:H23; simpl;
      destruct (0 <=? h) eqn:H0', (h <=? 23) eqn:H23'; simpl; try reflexivity; lia. }
  split; [exact Heq|]. split.
  - rewrite Heq. destruct (Db.getSetting _ _) as [v|]; [|lia].
    destruct (parseInt v) as [h|]; [|lia].
    destruct (0 <=? h) eqn:H0, (h <=? 23) eqn:H23; simpl; lia.
  - unfold Manager.scheduleDailySummary.
    assert (Hsame : Manager.getDailySummaryHour (Manager.clearDailySummaryTimer st)
                    = Manager.getDailySummaryHour st).
    { unfold Manager.clearDailySummaryTimer.
      now destruct (Manager.dailySummaryTimer st). }
    rewrite Hsame.
    match goal with
    | |- context [if (?b && negb ?d)%bool then _ else _] => destruct (b && negb d)%bool
    end; simpl; eauto.
Qed.

End Reminders.

(* ===================================================================== *)
(** * The category breakdown                                               *)
(* ===================================================================== *)

Section Breakdown.

Implicit Types (c : option string) (rows : list Activity.t)
  (acc : list CategoryRow.t).

Lemma category_eqb_eq c1 c2 : Db.category_eqb c1 c2 = true <-> c1 = c2.
Proof.
  destruct c1 as [a|], c2 as [b|]; simpl; try (split; congruence).
  rewrite String.eqb_eq. split; congruence.
Qed.

Lemma category_eqb_refl c : Db.category_eqb c c = true.
Proof. now apply category_eqb_eq. Qed.

Lemma category_eqb_sym c1 c2 : Db.category_eqb c1 c2 = Db.category_eqb c2 c1.
Proof.
  destruct (Db.category_eqb c1 c2) eqn:H1, (Db.category_eqb c2 c1) eqn:H2;
    try reflexivity.
  - apply category_eqb_eq in H1. subst. now rewrite category_eqb_refl in H2.
  - apply category_eqb_eq in H2. subst. now rewrite category_eqb_refl in H1.
Qed.

Lemma total_of_group_add c c' (d : Z) acc :
  total_of c' (Db.group_add c d acc)
  = total_of c' acc + (if Db.category_eqb c c' then d else 0).
Proof.
  unfold total_of. induction acc as [|r acc IH]; simpl.
  - destruct (Db.category_eqb c c'); simpl; lia.
  - destruct (Db.category_eqb c (CategoryRow.category r)) eqn:Hc; simpl.
    + apply category_eqb_eq in Hc. subst c.
      destruct (Db.category_eqb (CategoryRow.category r) c'); simpl; lia.
    + destruct (Db.category_eqb (CategoryRow.category r) c') eqn:Hr; simpl.
      * apply category_eqb_eq in Hr. subst c'. rewrite Hc. lia.
      * exact IH.
Qed.

Lemma total_of_fold c rows :
  forall acc,
  total_of c
    (fold_left
       (fun acc a => Db.group_add (Activity.category a) (Activity.duration a) acc)
       rows acc)
  = total_of c acc + category_sum c rows.
Proof.
  unfold category_sum, sum_durations.
  induction rows as [|a rows IH]; intros acc; simpl; [lia|].
  rewrite IH, total_of_group_add.
  destruct (Db.category_eqb (Activity.category a) c); simpl; lia.
Qed.

Lemma group_add_categories c (d : Z) acc x :
  In x (map CategoryRow.category (Db.group_add c d acc)) ->
  x = c \/ In x (map CategoryRow.category acc).
Proof.
  induction acc as [|r acc IH]; simpl.
  - intros [<-|[]]. now left.
  - destruct (Db.category_eqb c (CategoryRow.category r)) eqn:Hc; simpl.
    + apply category_eqb_eq in Hc. subst c. tauto.
    + intros [H|H]; [tauto|]. apply IH in H. tauto.
Qed.

Lemma group_add_NoDup c (d : Z) acc :
  List.NoDup (map CategoryRow.category acc) ->
  List.NoDup (map CategoryRow.category (Db.group_add c d acc)).
Proof.
  induction acc as [|r acc IH]; simpl; intros H.
  - constructor; [intros []|constructor].
  - inversion H as [|? ? Hnot Hrest]; subst.
    destruct (Db.category_eqb c (CategoryRow.category r)) eqn:Hc; simpl.
    + apply category_eqb_eq in Hc. subst c. now constructor.
    + constructor; [|now apply IH].
      intros Hin. apply group_add_categories in Hin as [Heq|Hin]; [|tauto].
      rewrite Heq, category_eqb_refl in Hc. discriminate.
Qed.

Lemma group_by_category_facts rows :
  forall acc,
  List.NoDup (map CategoryRow.category acc) ->
  let out :=
    fold_left
      (fun acc a => Db.group_add (Activity.category a) (Activity.duration a) acc)
      rows acc in
  List.NoDup (map CategoryRow.category out)
  /\ (forall x, In x (map CategoryRow.category out) ->
        In x (map CategoryRow.category acc) \/ In x (map Activity.category rows))
  /\ (acc <> [] \/ rows <> [] -> out <> []).
Proof.
  induction rows as [|a rows IH]; intros acc Hacc; simpl.
  - repeat split; auto. intros [H|H]; congruence.
  - destruct (IH (Db.group_add (Activity.category a) (Activity.duration a) acc))
      as (H1 & H2 & H3).
    { now apply group_add_NoDup. }
    repeat split; auto.
    + intros x Hx. apply H2 in Hx as [Hx|Hx]; [|tauto].
      apply group_add_categories in Hx as [->|Hx]; [right; now left|now left].
    + intros _. apply H3. left. destruct acc; simpl; [discriminate|].
      now destruct (Db.category_eqb _ _).
Qed.

Lemma insert_desc_perm {A} (key : A -> Z) (x : A) (l : list A) :
  Permutation (Db.insert_desc key x l) (x :: l).
Proof.
  induction l as [|y l IH]; simpl; [reflexivity|].
  destruct (key y <=? key x); [reflexivity|].
  rewrite IH. apply perm_swap.
Qed.

Lemma sort_desc_perm {A} (key : A -> Z) (l : list A) :
  Permutation (Db.sort_desc key l) l.
Proof.
  unfold Db.sort_desc. induction l as [|x l IH]; simpl; [reflexivity|].
  rewrite insert_desc_perm. now constructor.
Qed.

(** In a list with one row per category, the total of a category is that of
    its row. *)
Lemma total_of_row (l : list CategoryRow.t) (r : CategoryRow.t) :
  List.NoDup (map CategoryRow.category l) ->
  In r l ->
  total_of (CategoryRow.category r) l = CategoryRow.total_duration r.
Proof.
  unfold total_of. induction l as [|r0 l IH]; simpl; intros Hnd Hin; [contradiction|].
  inversion Hnd as [|? ? Hnot Hrest]; subst.
  destruct Hin as [->|Hin].
  - now rewrite category_eqb_refl.
  - destruct (Db.category_eqb (CategoryRow.category r0) (CategoryRow.category r)) eqn:Hc.
    + apply category_eqb_eq in Hc. exfalso. apply Hnot. rewrite Hc.
      now apply in_map.
    + now apply IH.
Qed.

Lemma total_of_perm (l1 l2 : list CategoryRow.t) c :
  List.NoDup (map CategoryRow.category l1) ->
  Permutation l1 l2 ->
  total_of c l1 = total_of c l2.
Proof.
  intros Hnd Hperm.
  assert (Hnd2 : List.NoDup (map CategoryRow.category l2)).
  { eapply Permutation_NoDup; [|exact Hnd]. now apply Permutation_map. }
  destruct (List.find (fun r => Db.category_eqb (CategoryRow.category r) c) l1)
    as [r|] eqn:Hf.
  - apply find_some in Hf as [Hin Hc]. apply category_eqb_eq in Hc. subst c.
    rewrite (total_of_row l1 r Hnd Hin).
    rewrite (total_of_row l2 r Hnd2); [reflexivity|].
    eapply Permutation_in; eauto.
  - unfold total_of at 1. rewrite Hf.
    unfold total_of.
    destruct (List.find _ l2) as [r|] eqn:Hf2; [|reflexivity].
    apply find_some in Hf2 as [Hin Hc].
    rewrite (find_none _ _ Hf r) in Hc; [discriminate|].
    eapply Permutation_in; [symmetry|]; eauto.
Qed.

(** What [getCategoryBreakdown] returns: one row per category met in the
    range, rows by descending total, and each category's total is the sum of
    the durations of its activities in the range. *)
Lemma getCategoryBreakdown_spec (startTime endTime : Z) (db : Db.t) :
  let rows := Db.rows_in_range startTime endTime db in
  let breakdown := Db.getCategoryBreakdown startTime endTime db in
  List.NoDup (map CategoryRow.category breakdown)
  /\ (forall c, total_of c breakdown = category_sum c rows)
  /\ (forall r, In r breakdown ->
        In (CategoryRow.category r) (map Activity.category rows)
        /\ CategoryRow.total_duration r = category_sum (CategoryRow.category r) rows)
  /\ (rows <> [] -> breakdown <> []).
Proof.
  intros rows breakdown.
  destruct (group_by_category_facts rows [] (List.NoDup_nil _)) as (H1 & H2 & H3).
  fold (Db.group_by_category rows) in H1, H2, H3.
  assert (Hperm : Permutation breakdown (Db.group_by_category rows))
    by apply sort_desc_perm.
  assert (Hnd : List.NoDup (map CategoryRow.category breakdown)).
  { eapply Permutation_NoDup; [|exact H1].
    apply Permutation_map. now symmetry. }
  assert (Htot : forall c, total_of c breakdown = category_sum c rows).
  { intros c. rewrite (total_of_perm _ _ c Hnd Hperm).
    unfold Db.group_by_category. rewrite total_of_fold. unfold total_of. simpl. lia. }
  repeat split; auto.
  - destruct (H2 (CategoryRow.category r)) as [[]|Hin]; [|exact Hin].
    apply in_map. eapply Permutation_in; eauto.
  - rewrite <- Htot. symmetry. now apply total_of_row.
  - intros Hne Hempty. apply H3; [now right|].
    rewrite Hempty in Hperm. now apply Permutation_nil in Hperm.
Qed.

End Breakdown.

(* ===================================================================== *)
(** * The daily summary                                                    *)
(* ===================================================================== *)

Section DailySummary.

Implicit Types (st : Manager.t) (clock : Clock.t).

(** The claim C5 fails on the code.  With 45,000 ms tracked today the firing
    is skipped and nothing is shown, but [dailySummaryShownToday] is [true]
    afterwards. *)
Lemma low_activity_skip_is_marked : ~ low_activity_skip_unmarked.
Proof.
  intros H.
  destruct (H evening (manager_over quiet_day)) as (_ & Hflag & _).
  - reflexivity.
  - reflexivity.
  - vm_compute. reflexivity.
  - vm_compute in Hflag. discriminate Hflag.
Qed.

(** C5, what the code does.  When the daily-summary task fires with
    summaries enabled, not yet shown today, and less than 60,000 ms tracked
    today, no notification is shown, but the firing is recorded all the
    same: [fireDailySummary] sets [dailySummaryShownToday] and
    [lastSummaryDate] before it reads the tracked time, so the skip leaves
    [dailySummaryShownToday] at [true] and [lastSummaryDate] at today's
    date. *)
Theorem low_activity_skip_marks_shown clock st :
  Manager.isDailySummaryEnabled st = true ->
  (Manager.dailySummaryShownToday st
   && bool_decide (Manager.lastSummaryDate st = Some (Clock.toDateString clock)))
  = false ->
  Db.getTotalTrackedTime (Clock.startOfToday clock) (Clock.now clock)
    (Manager.db st) < 60000 ->
  Manager.fireDailySummary clock st
  = (Manager.Returns,
     Manager.mk (Manager.db st) (Manager.breakTimer st)
       (Manager.lastBreakNotification st) (Manager.dailySummaryTimer st)
       true (Some (Clock.toDateString clock)) (Manager.timeouts st)
       (Manager.next_handle st) (Manager.shown st)).
Proof.
  intros Hen Hnot Hlow. unfold Manager.fireDailySummary.
  rewrite Hen, Hnot. simpl.
  apply Z.ltb_lt in Hlow. now rewrite Hlow.
Qed.

Lemma topCategory_fold (l : list CategoryRow.t) :
  forall max,
  let r :=
    fold_left
      (fun max c =>
         if CategoryRow.total_duration max <? CategoryRow.total_duration c
         then c else max)
      l max in
  (r = max \/ In r l)
  /\ CategoryRow.total_duration max <= CategoryRow.total_duration r
  /\ forall c, In c l ->
       CategoryRow.total_duration c <= CategoryRow.total_duration r.
Proof.
  induction l as [|c0 l IH]; intros max; simpl.
  - repeat split; auto; try lia; contradiction.
  - destruct (CategoryRow.total_duration max <? CategoryRow.total_duration c0) eqn:Hlt.
    + destruct (IH c0) as (H1 & H2 & H3). apply Z.ltb_lt in Hlt.
      repeat split.
      * destruct H1 as [H1|H1]; [right; left; now symmetry|right; now right].
      * lia.
      * intros c [<-|Hc]; auto.
    + destruct (IH max) as (H1 & H2 & H3). apply Z.ltb_ge in Hlt.
      repeat split.
      * destruct H1 as [H1|H1]; [now left|right; now right].
      * lia.
      * intros c [<-|Hc]; auto. lia.
Qed.

(** The top category is a row of the breakdown with the greatest total. *)
Lemma topCategory_spec (breakdown : list CategoryRow.t) :
  breakdown <> [] ->
  exists top,
    Manager.topCategory breakdown = Some top
    /\ In top breakdown
    /\ forall c, In c breakdown ->
         CategoryRow.total_duration c <= CategoryRow.total_duration top.
Proof.
  destruct breakdown as [|c0 l]; [congruence|]. intros _.
  unfold Manager.topCategory.
  destruct (topCategory_fold (c0 :: l) c0) as (H1 & H2 & H3).
  eexists. split; [reflexivity|]. split; [|exact H3].
  destruct H1 as [->|H1]; [now left|exact H1].
Qed.

(** C6, what the code does.  When the daily-summary task fires with
    summaries enabled, no summary shown yet for today's local date and at
    least 60,000 ms tracked today, it marks the summary as shown for today
    and then throws: the breakdown has a row, the top row has no property
    [category_name], and [topCategory.category_name.replace] is a
    [TypeError].  No notification is shown. *)
Theorem daily_summary_throws clock st :
  Manager.isDailySummaryEnabled st = true ->
  (Manager.dailySummaryShownToday st
   && bool_decide (Manager.lastSummaryDate st = Some (Clock.toDateString clock)))
  = false ->
  60000 <= Db.getTotalTrackedTime (Clock.startOfToday clock) (Clock.now clock)
             (Manager.db st) ->
  Manager.fireDailySummary clock st
  = (Manager.Throws,
     Manager.mk (Manager.db st) (Manager.breakTimer st)
       (Manager.lastBreakNotification st) (Manager.dailySummaryTimer st)
       true (Some (Clock.toDateString clock)) (Manager.timeouts st)
       (Manager.next_handle st) (Manager.shown st)).
Proof.
  intros Hen Hnot Htotal.
  set (breakdown :=
         Db.getCategoryBreakdown (Clock.startOfToday clock) (Clock.now clock)
           (Manager.db st)).
  destruct (getCategoryBreakdown_spec (Clock.startOfToday clock) (Clock.now clock)
              (Manager.db st)) as (_ & _ & _ & Hne).
  fold breakdown in Hne.
  assert (Hbreak : breakdown <> []).
  { apply Hne. intros Hempty. unfold Db.getTotalTrackedTime in Htotal.
    rewrite Hempty in Htotal. simpl in Htotal. lia. }
  destruct (topCategory_spec breakdown Hbreak) as (top & Htop & _).
  unfold Manager.fireDailySummary. rewrite Hen, Hnot. simpl.
  fold breakdown.
  replace (Db.getTotalTrackedTime (Clock.startOfToday clock) (Clock.now clock)
             (Manager.db st) <? 60000)
    with false by (symmetry; apply Z.ltb_ge; lia).
  rewrite Htop. reflexivity.
Qed.

End DailySummary.

(* ===================================================================== *)
(** * Goals                                                                *)
(* ===================================================================== *)

Section Goals.

Implicit Types (st : Manager.t) (clock : Clock.t) (name : string).

Lemma existsb_eqb_In name (l : list string) :
  existsb (String.eqb name) l = true <-> In name l.
Proof.
  rewrite existsb_exists. split.
  - intros (x & Hx & Heq). apply String.eqb_eq in Heq. now subst.
  - intros H. exists name. split; [exact H|apply String.eqb_refl].
Qed.

Lemma existsb_eqb_not_In name (l : list string) :
  existsb (String.eqb name) l = false <-> ~ In name l.
Proof.
  rewrite <- existsb_eqb_In. now destruct (existsb _ _).
Qed.

Lemma set_add_In name x (l : list string) :
  In x (Manager.set_add name l) <-> x = name \/ In x l.
Proof.
  unfold Manager.set_add.
  destruct (existsb (String.eqb name) l) eqn:H.
  - apply existsb_eqb_In in H. split; [tauto|]. intros [->|?]; auto.
  - rewrite in_app_iff. simpl. intuition.
Qed.

Lemma set_add_NoDup name (l : list string) :
  List.NoDup l -> List.NoDup (Manager.set_add name l).
Proof.
  intros Hl. unfold Manager.set_add.
  destruct (existsb (String.eqb name) l) eqn:H; [exact Hl|].
  apply existsb_eqb_not_In in H.
  apply List.NoDup_app; auto.
  - constructor; [intros []|constructor].
  - intros x Hx [<-|[]]. now apply H.
Qed.

Lemma string_set_NoDup (items : list JSON.value) :
  forall seen, List.NoDup seen -> List.NoDup (Manager.string_set items seen).
Proof.
  induction items as [|v items IH]; intros seen Hseen; simpl; [exact Hseen|].
  destruct v; auto. apply IH. now apply set_add_NoDup.
Qed.

Lemma string_set_strings (l : list string) :
  forall seen,
  List.NoDup (seen ++ l) ->
  Manager.string_set (map JSON.Str l) seen = seen ++ l.
Proof.
  induction l as [|s l IH]; intros seen Hnd; simpl.
  - now rewrite app_nil_r.
  - assert (Hs : ~ In s seen).
    { intros Hin. apply NoDup_remove_2 in Hnd. apply Hnd.
      apply in_or_app. now left. }
    unfold Manager.set_add at 1.
    rewrite (proj2 (existsb_eqb_not_In s seen) Hs).
    rewrite IH; rewrite <- app_assoc; [reflexivity|exact Hnd].
Qed.

Lemma getNotifiedGoalsToday_NoDup clock st :
  List.NoDup (Manager.getNotifiedGoalsToday clock st).
Proof.
  unfold Manager.getNotifiedGoalsToday.
  repeat match goal with
         | |- List.NoDup (if ?b then _ else _) => destruct b
         | |- List.NoDup (match ?x with _ => _ end) => destruct x
         end; try constructor.
  apply string_set_NoDup. constructor.
Qed.

(** What the ledger holds after it was written. *)
Lemma getNotifiedGoalsToday_written clock st (notified : list string) :
  List.NoDup notified ->
  Manager.getNotifiedGoalsToday clock
    (Manager.set_db
       (Db.setSetting "goals_notified_today"
          (JSON.stringify (Manager.ledger (Clock.toDateString clock) notified))
          (Manager.db st))
       st)
  = notified.
Proof.
  intros Hnd.
  unfold Manager.getNotifiedGoalsToday at 1. simpl Manager.db.
  unfold Db.getSetting, Db.setSetting. simpl Db.settings.
  rewrite lookup_insert_eq.
  assert (Htruthy : truthy_string
            (Some (JSON.stringify (Manager.ledger (Clock.toDateString clock) notified)))
          = true).
  { unfold JSON.stringify. now rewrite emit_ledger. }
  rewrite Htruthy. simpl negb. cbv iota. simpl default.
  rewrite parse_stringify_ledger.
  unfold Manager.ledger. simpl JSON.member. cbv iota.
  rewrite String.eqb_refl.
  now apply (string_set_strings notified []).
Qed.

(** What the ledger holds after a goal has been marked. *)
Lemma getNotifiedGoalsToday_mark clock st name :
  Manager.getNotifiedGoalsToday clock (Manager.markGoalNotified name clock st)
  = Manager.set_add name (Manager.getNotifiedGoalsToday clock st).
Proof.
  apply getNotifiedGoalsToday_written.
  apply set_add_NoDup, getNotifiedGoalsToday_NoDup.
Qed.

(** The strings of the ledger after [markGoalNotified] of a value. *)
Lemma getNotifiedGoalsToday_mark_value clock st (v : option JSON.value) x :
  In x (Manager.getNotifiedGoalsToday clock st) ->
  In x (Manager.getNotifiedGoalsToday clock
          (Manager.markGoalNotified_value v clock st)).
Proof.
  intros Hx.
  assert (Hother :
    In x (Manager.getNotifiedGoalsToday clock
            (Manager.set_db
               (Db.setSetting "goals_notified_today"
                  (JSON.stringify
                     (Manager.ledger (Clock.toDateString clock)
                        (Manager.getNotifiedGoalsToday clock st)))
                  (Manager.db st))
               st))).
  { rewrite getNotifiedGoalsToday_written; [exact Hx|].
    apply getNotifiedGoalsToday_NoDup. }
  destruct v as [[]|]; try exact Hother.
  cbn [Manager.markGoalNotified_value]. rewrite getNotifiedGoalsToday_mark.
  apply set_add_In. now right.
Qed.

Lemma same_but_ledger_refl st : same_but_ledger st st.
Proof. now split. Qed.

Lemma same_but_ledger_trans st1 st2 st3 :
  same_but_ledger st1 st2 -> same_but_ledger st2 st3 -> same_but_ledger st1 st3.
Proof.
  intros [a1 a2 a3 a4 a5 a6 a7 a8 a9] [b1 b2 b3 b4 b5 b6 b7 b8 b9].
  split; try (etransitivity; eassumption).
  intros key Hkey. now rewrite b3, a3.
Qed.

Lemma markGoalNotified_frame clock st name :
  same_but_ledger st (Manager.markGoalNotified name clock st)
  /\ Manager.shown (Manager.markGoalNotified name clock st) = Manager.shown st.
Proof.
  split; [split|]; try reflexivity.
  intros key Hkey. unfold Manager.markGoalNotified, Db.getSetting; simpl.
  now rewrite lookup_insert_ne by congruence.
Qed.

Lemma show_frame st (title body : string) :
  same_but_ledger st (Manager.show title body st).
Proof. now split. Qed.

Lemma set_setting_frame st (text : string) :
  same_but_ledger st
    (Manager.set_db (Db.setSetting "goals_notified_today" text (Manager.db st)) st).
Proof.
  split; try reflexivity.
  intros key Hkey. unfold Db.getSetting; simpl.
  now rewrite lookup_insert_ne by congruence.
Qed.

Lemma markGoalNotified_value_frame clock st (v : option JSON.value) :
  same_but_ledger st (Manager.markGoalNotified_value v clock st)
  /\ Manager.shown (Manager.markGoalNotified_value v clock st) = Manager.shown st
  /\ Manager.next_handle (Manager.markGoalNotified_value v clock st)
     = Manager.next_handle st.
Proof.
  destruct v as [[]|];
    (split; [apply set_setting_frame|split; reflexivity]).
Qed.

Lemma goal_frame_refl st : goal_frame st st.
Proof.
  split; [apply same_but_ledger_refl|]. split; [reflexivity|].
  exists []. split; [now rewrite app_nil_r|constructor].
Qed.

Lemma goal_frame_trans st1 st2 st3 :
  goal_frame st1 st2 -> goal_frame st2 st3 -> goal_frame st1 st3.
Proof.
  intros (Ha & Hb & notes & Hc & Hd) (Ha' & Hb' & notes' & Hc' & Hd').
  split; [eapply same_but_ledger_trans; eassumption|].
  split; [congruence|].
  exists (notes ++ notes'). split.
  - now rewrite Hc', Hc, app_assoc.
  - apply List.Forall_app. now split.
Qed.

Lemma goal_frame_mark clock st (v : option JSON.value) :
  goal_frame st (Manager.markGoalNotified_value v clock st).
Proof.
  destruct (markGoalNotified_value_frame clock st v) as (Ha & Hb & Hc).
  split; [exact Ha|]. split; [exact Hc|].
  exists []. split; [now rewrite app_nil_r|constructor].
Qed.

Lemma goal_frame_show st (body : string) :
  goal_frame st (Manager.show "Goal reached!" body st).
Proof.
  split; [apply show_frame|]. split; [reflexivity|].
  exists [Notification.mk "Goal reached!" body]. split; [reflexivity|].
  constructor; [reflexivity|constructor].
Qed.

(** The body of the loop, however it ends. *)
Lemma checkGoal_body_frame clock (breakdown : list CategoryRow.t)
  (notifiedToday : list string) (categoryName targetMs : option JSON.value) st :
  goal_frame st
    (Manager.checkGoal_body categoryName targetMs breakdown notifiedToday clock
       st).2.
Proof.
  unfold Manager.checkGoal_body.
  destruct (Manager.has notifiedToday categoryName) as [[]|];
    try apply goal_frame_refl.
  destruct (Manager.ToNumber targetMs) as [target|]; [|apply goal_frame_refl].
  destruct (ge _ target); [|apply goal_frame_refl]. cbv zeta.
  pose proof (goal_frame_mark clock st categoryName) as Hmark.
  destruct categoryName as [[]|]; try exact Hmark.
  destruct (Manager.hoursText target); [|exact Hmark].
  eapply goal_frame_trans; [exact Hmark|apply goal_frame_show].
Qed.

(** One turn of the loop, however it ends. *)
Lemma checkGoal_frame clock (breakdown : list CategoryRow.t)
  (notifiedToday : list string) (goal : JSON.value) st :
  goal_frame st (Manager.checkGoal goal breakdown notifiedToday clock st).2.
Proof.
  destruct goal; try apply checkGoal_body_frame. apply goal_frame_refl.
Qed.

(** The loop of [checkGoals], however it ends. *)
Lemma checkGoals_loop_frame clock (breakdown : list CategoryRow.t)
  (notifiedToday : list string) (goals : list JSON.value) :
  forall st,
  goal_frame st (Manager.checkGoals_loop goals breakdown notifiedToday clock st).2.
Proof.
  induction goals as [|goal goals IH]; intros st; cbn [Manager.checkGoals_loop].
  - apply goal_frame_refl.
  - pose proof (checkGoal_frame clock breakdown notifiedToday goal st) as Hturn.
    destruct (Manager.checkGoal goal breakdown notifiedToday clock st)
      as [[[]|] st1]; try exact Hturn.
    eapply goal_frame_trans; [exact Hturn|apply IH].
Qed.

(** A call of [checkGoals], however it ends. *)
Lemma checkGoals_frame clock st :
  goal_frame st (Manager.checkGoals clock st).2.
Proof.
  unfold Manager.checkGoals.
  destruct (negb (Manager.isEnabled st)); [apply goal_frame_refl|].
  destruct (negb (truthy_string _)); [apply goal_frame_refl|].
  destruct (JSON.parse _) as [[]|]; try apply goal_frame_refl.
  apply checkGoals_loop_frame.
Qed.


(** The body of the loop, however it ends: either it shows nothing and
    keeps what the ledger lists, or it returns after the notification of
    the category that the entry names. *)
Lemma checkGoal_body_cases clock (breakdown : list CategoryRow.t)
  (notifiedToday : list string) (categoryName targetMs : option JSON.value) st :
  quiet_turn clock st
    (Manager.checkGoal_body categoryName targetMs breakdown notifiedToday clock
       st).2
  \/ exists name target hours,
       categoryName = Some (JSON.Str name)
       /\ ~ In name notifiedToday
       /\ ge (of_Z (Manager.currentMs breakdown (Some (JSON.Str name)))) target
          = true
       /\ Manager.hoursText target = Some hours
       /\ Manager.checkGoal_body categoryName targetMs breakdown notifiedToday
            clock st
          = (Some Manager.Returns,
             Manager.show "Goal reached!"
               (Manager.goalReachedBody (replace_underscores name) hours)
               (Manager.markGoalNotified name clock st)).
Proof.
  assert (Hquiet : quiet_turn clock st st) by (split; auto).
  assert (Hmarked :
    quiet_turn clock st (Manager.markGoalNotified_value categoryName clock st)).
  { split.
    - apply markGoalNotified_value_frame.
    - intros x. apply getNotifiedGoalsToday_mark_value. }
  unfold Manager.checkGoal_body.
  destruct (Manager.has notifiedToday categoryName) as [[]|] eqn:Hhas;
    try (left; exact Hquiet).
  destruct (Manager.ToNumber targetMs) as [target|]; [|left; exact Hquiet].
  destruct (ge _ target) eqn:Hmet; [|left; exact Hquiet]. cbv zeta.
  destruct categoryName as [[| | |name| |]|]; try (left; exact Hmarked).
  destruct (Manager.hoursText target) as [hours|] eqn:Hhours;
    [|left; exact Hmarked].
  right. exists name, target, hours.
  cbn [Manager.has] in Hhas. injection Hhas as Hhas.
  split; [reflexivity|]. split; [now apply existsb_eqb_not_In|].
  split; [exact Hmet|]. split; [exact Hhours|reflexivity].
Qed.

(** One turn of the loop, however it ends. *)
Lemma checkGoal_cases clock (breakdown : list CategoryRow.t)
  (notifiedToday : list string) (v : JSON.value) st :
  quiet_turn clock st (Manager.checkGoal v breakdown notifiedToday clock st).2
  \/ exists name target hours,
       entry_name v = Some name
       /\ ~ In name notifiedToday
       /\ ge (of_Z (Manager.currentMs breakdown (Some (JSON.Str name)))) target
          = true
       /\ Manager.hoursText target = Some hours
       /\ Manager.checkGoal v breakdown notifiedToday clock st
          = (Some Manager.Returns,
             Manager.show "Goal reached!"
               (Manager.goalReachedBody (replace_underscores name) hours)
               (Manager.markGoalNotified name clock st)).
Proof.
  assert (Hbody : forall goal,
    quiet_turn clock st
      (Manager.checkGoal_body (JSON.member "categoryName" goal)
         (JSON.member "targetMs" goal) breakdown notifiedToday clock st).2
    \/ exists name target hours,
         entry_name goal = Some name
         /\ ~ In name notifiedToday
         /\ ge (of_Z (Manager.currentMs breakdown (Some (JSON.Str name))))
              target = true
         /\ Manager.hoursText target = Some hours
         /\ Manager.checkGoal_body (JSON.member "categoryName" goal)
              (JSON.member "targetMs" goal) breakdown notifiedToday clock st
            = (Some Manager.Returns,
               Manager.show "Goal reached!"
                 (Manager.goalReachedBody (replace_underscores name) hours)
                 (Manager.markGoalNotified name clock st))).
  { intros goal.
    destruct (checkGoal_body_cases clock breakdown notifiedToday
                (JSON.member "categoryName" goal) (JSON.member "targetMs" goal) st)
      as [H|(name & target & hours & H1 & H2 & H3 & H4 & H5)]; [now left|].
    right. exists name, target, hours.
    split; [unfold entry_name; now rewrite H1|].
    split; [exact H2|]. split; [exact H3|]. split; [exact H4|exact H5]. }
  destruct v; try apply Hbody. left. split; auto.
Qed.

Lemma goalReachedNotification_body name target hours :
  Manager.hoursText target = Some hours ->
  goalReachedNotification (DailyGoal.mk name target)
  = Notification.mk "Goal reached!"
      (Manager.goalReachedBody (replace_underscores name) hours).
Proof.
  intros H. unfold goalReachedNotification.
  cbn [DailyGoal.categoryName DailyGoal.targetMs]. now rewrite H.
Qed.

(** The loop of [checkGoals], however it ends: it shows the notifications
    of goals that the entries name and that the snapshot of the ledger does
    not list, each entry at most once and in order, and it adds their names
    to the ledger. *)
Lemma checkGoals_loop_fired clock (breakdown : list CategoryRow.t)
  (notifiedToday : list string) (items : list JSON.value) :
  forall st,
  exists fired : list DailyGoal.t,
    Manager.shown
      (Manager.checkGoals_loop items breakdown notifiedToday clock st).2
    = Manager.shown st ++ map goalReachedNotification fired
    /\ incl (map DailyGoal.categoryName fired) (entry_names items)
    /\ (List.NoDup (entry_names items) ->
        List.NoDup (map DailyGoal.categoryName fired))
    /\ (forall goal, In goal fired ->
          ~ In (DailyGoal.categoryName goal) notifiedToday
          /\ ge (of_Z (Manager.currentMs breakdown
                         (Some (JSON.Str (DailyGoal.categoryName goal)))))
               (DailyGoal.targetMs goal)
             = true)
    /\ (forall x,
          In x (Manager.getNotifiedGoalsToday clock st)
          \/ In x (map DailyGoal.categoryName fired) ->
          In x (Manager.getNotifiedGoalsToday clock
                  (Manager.checkGoals_loop items breakdown notifiedToday clock
                     st).2)).
Proof.
  induction items as [|v items IH]; intros st.
  - exists []. cbn [Manager.checkGoals_loop snd map entry_names].
    rewrite app_nil_r. split; [reflexivity|]. split; [intros x []|].
    split; [intros _; constructor|]. split; [intros goal []|].
    intros x [Hx|[]]. exact Hx.
  - cbn [Manager.checkGoals_loop entry_names].
    destruct (checkGoal_cases clock breakdown notifiedToday v st)
      as [(Hshown & Hledger)
         |(name & target & hours & Hname & Hnot & Hmet & Hhours & Hturn)].
    + destruct (Manager.checkGoal v breakdown notifiedToday clock st)
        as [ending st1] eqn:Hturn. cbn [snd] in Hshown, Hledger.
      assert (Hweak : forall l : list string,
                incl l (entry_names items) ->
                incl l (match entry_name v with
                        | Some name => name :: entry_names items
                        | None => entry_names items
                        end)).
      { intros l Hl. destruct (entry_name v); [|exact Hl].
        intros x Hx. right. now apply Hl. }
      assert (Hnd : List.NoDup (match entry_name v with
                                | Some name => name :: entry_names items
                                | None => entry_names items
                                end) ->
                    List.NoDup (entry_names items)).
      { destruct (entry_name v); [|auto]. intros H. now inversion H. }
      assert (Hstop :
        exists fired : list DailyGoal.t,
          Manager.shown st1 = Manager.shown st ++ map goalReachedNotification fired
          /\ incl (map DailyGoal.categoryName fired)
               (match entry_name v with
                | Some name => name :: entry_names items
                | None => entry_names items
                end)
          /\ (List.NoDup (match entry_name v with
                          | Some name => name :: entry_names items
                          | None => entry_names items
                          end) ->
              List.NoDup (map DailyGoal.categoryName fired))
          /\ (forall goal, In goal fired ->
                ~ In (DailyGoal.categoryName goal) notifiedToday
                /\ ge (of_Z (Manager.currentMs breakdown
                               (Some (JSON.Str (DailyGoal.categoryName goal)))))
                     (DailyGoal.targetMs goal)
                   = true)
          /\ (forall x,
                In x (Manager.getNotifiedGoalsToday clock st)
                \/ In x (map DailyGoal.categoryName fired) ->
                In x (Manager.getNotifiedGoalsToday clock st1))).
      { exists []. cbn [map]. rewrite app_nil_r.
        split; [exact Hshown|]. split; [intros x []|].
        split; [intros _; constructor|]. split; [intros goal []|].
        intros x [Hx|[]]. now apply Hledger. }
      destruct ending as [[]|]; try exact Hstop.
      destruct (IH st1) as (fired & H1 & H2 & H3 & H4 & H5).
      exists fired. rewrite H1, Hshown.
      split; [reflexivity|]. split; [now apply Hweak|].
      split; [intros H; now apply H3, Hnd|]. split; [exact H4|].
      intros x [Hx|Hx]; apply H5; [left; now apply Hledger|now right].
    + rewrite Hturn, Hname. cbn [snd].
      match goal with
      | |- context [Manager.checkGoals_loop items _ _ _ ?s] =>
          destruct (IH s) as (fired & H1 & H2 & H3 & H4 & H5)
      end.
      exists (DailyGoal.mk name target :: fired).
      cbn [map DailyGoal.categoryName].
      rewrite (goalReachedNotification_body name target hours Hhours).
      split; [|split; [|split; [|split]]].
      * rewrite H1. cbn [Manager.show Manager.shown].
        destruct (markGoalNotified_frame clock st name) as (_ & ->).
        now rewrite <- app_assoc.
      * intros x [<-|Hx]; [now left|right; now apply H2].
      * intros Hnd. inversion Hnd as [|? ? Hfresh Hrest]; subst.
        constructor; [|now apply H3].
        intros Hin. apply Hfresh. now apply H2.
      * intros goal [<-|Hin]; [now split|now apply H4].
      * intros x Hx. apply H5.
        assert (Hmark : In x (Manager.getNotifiedGoalsToday clock
                                (Manager.markGoalNotified name clock st))
                        \/ In x (map DailyGoal.categoryName fired)).
        { rewrite getNotifiedGoalsToday_mark.
          destruct Hx as [Hx|[<-|Hx]].
          - left. apply set_add_In. now right.
          - left. apply set_add_In. now left.
          - now right. }
        exact Hmark.
Qed.


End Goals.
Section GoalCheck.

Implicit Types (st : Manager.t) (clock : Clock.t) (name : string).

(** Past its early returns [checkGoals] is its loop. *)
Lemma checkGoals_parsed clock st text items :
  Manager.isEnabled st = true ->
  Db.getSetting "daily_goals" (Manager.db st) = Some text ->
  JSON.parse text = Some (JSON.Arr items) ->
  Manager.checkGoals clock st
  = Manager.checkGoals_loop items
      (Db.getCategoryBreakdown (Clock.startOfToday clock) (Clock.now clock)
         (Manager.db st))
      (Manager.getNotifiedGoalsToday clock st) clock st.
Proof.
  intros Hen Hget Hparse. unfold Manager.checkGoals. rewrite Hen, Hget.
  destruct text as [|c text]; [discriminate Hparse|].
  simpl. now rewrite Hparse.
Qed.

(** On a list of goals of the data model the loop returns. *)
Lemma checkGoals_loop_returns clock (breakdown : list CategoryRow.t)
  (notifiedToday : list string) (items : list JSON.value) :
  Forall is_goal items ->
  forall st,
  (Manager.checkGoals_loop items breakdown notifiedToday clock st).1
  = Some Manager.Returns.
Proof.
  induction 1 as [|v items (name & m & e & Hname & Htarget & Hplain) _ IH];
    intros st; [reflexivity|].
  cbn [Manager.checkGoals_loop].
  assert (Hturn : exists st1,
            Manager.checkGoal v breakdown notifiedToday clock st
            = (Some Manager.Returns, st1)).
  { destruct v; try discriminate Hname.
    unfold Manager.checkGoal, Manager.checkGoal_body.
    rewrite Hname, Htarget. cbn [Manager.has Manager.ToNumber].
    destruct (existsb _ notifiedToday); [eexists; reflexivity|].
    destruct (ge _ _); [|eexists; reflexivity]. cbv zeta.
    unfold Manager.hoursText, toFixed1. unfold plain in Hplain.
    destruct (fdiv (JSON.number m e) (of_Z 3600000)) as [| | |sg mx ex];
      try contradiction; [eexists; reflexivity|].
    rewrite Hplain. eexists. reflexivity. }
  destruct Hturn as (st1 & ->). apply IH.
Qed.

(** The duration that [checkGoals] finds for a goal with a name: no row
    has a [category_name], so no row is found. *)
Lemma currentMs_named (breakdown : list CategoryRow.t) name :
  Manager.currentMs breakdown (Some (JSON.Str name)) = 0.
Proof.
  unfold Manager.currentMs.
  now induction breakdown as [|c breakdown IH].
Qed.











Lemma getNotifiedGoalsToday_date clock1 clock2 st :
  Clock.toDateString clock1 = Clock.toDateString clock2 ->
  Manager.getNotifiedGoalsToday clock1 st = Manager.getNotifiedGoalsToday clock2 st.
Proof. intros H. unfold Manager.getNotifiedGoalsToday. now rewrite H. Qed.

(** C4.  checkGoals idempotence within a day.  For every stored goal list
    whose category names are pairwise distinct, and with the activity data
    unchanged, two calls of [checkGoals] on the same local day show the
    goal-reached notification of each category at most once across both
    calls, whether the calls return or throw: the goals notified by the
    first call and those notified by the second are named by entries of
    the list and have pairwise distinct names.  The first call leaves its
    goals in the ledger, and the second notifies no goal that the ledger
    lists.  (For calls that the embedding covers to their end.) *)
Theorem checkGoals_notifies_once clock1 clock2 st text items :
  Clock.toDateString clock1 = Clock.toDateString clock2 ->
  Db.getSetting "daily_goals" (Manager.db st) = Some text ->
  JSON.parse text = Some (JSON.Arr items) ->
  List.NoDup (entry_names items) ->
  (Manager.checkGoals clock1 st).1 <> None ->
  (Manager.checkGoals clock2 (Manager.checkGoals clock1 st).2).1 <> None ->
  exists fired1 fired2 : list DailyGoal.t,
    Manager.shown (Manager.checkGoals clock1 st).2
    = Manager.shown st ++ map goalReachedNotification fired1
    /\ Manager.shown (Manager.checkGoals clock2 (Manager.checkGoals clock1 st).2).2
       = Manager.shown (Manager.checkGoals clock1 st).2
         ++ map goalReachedNotification fired2
    /\ incl (map DailyGoal.categoryName (fired1 ++ fired2)) (entry_names items)
    /\ List.NoDup (map DailyGoal.categoryName (fired1 ++ fired2))
    /\ (forall goal, In goal fired1 ->
          In (DailyGoal.categoryName goal)
            (Manager.getNotifiedGoalsToday clock1 (Manager.checkGoals clock1 st).2))
    /\ (forall goal, In goal fired2 ->
          ~ In (DailyGoal.categoryName goal)
              (Manager.getNotifiedGoalsToday clock2
                 (Manager.checkGoals clock1 st).2)).
Proof.
  intros Hdate Hget Hparse Hnd _ _.
  destruct (Manager.isEnabled st) eqn:Hen.
  - pose proof (checkGoals_frame clock1 st) as (Hframe & _).
    rewrite (checkGoals_parsed clock1 st text items Hen Hget Hparse) in *.
    set (breakdown1 := Db.getCategoryBreakdown _ _ _) in *.
    destruct (checkGoals_loop_fired clock1 breakdown1
                (Manager.getNotifiedGoalsToday clock1 st) items st)
      as (fired1 & Hshown1 & Hincl1 & Hnd1 & _ & Hledger1).
    set (st1 := (Manager.checkGoals_loop items breakdown1
                   (Manager.getNotifiedGoalsToday clock1 st) clock1 st).2) in *.
    assert (Hen1 : Manager.isEnabled st1 = true).
    { unfold Manager.isEnabled in *.
      now rewrite (same_settings _ _ Hframe) by discriminate. }
    assert (Hget1 : Db.getSetting "daily_goals" (Manager.db st1) = Some text).
    { now rewrite (same_settings _ _ Hframe) by discriminate. }
    rewrite (checkGoals_parsed clock2 st1 text items Hen1 Hget1 Hparse).
    set (breakdown2 := Db.getCategoryBreakdown _ _ _).
    destruct (checkGoals_loop_fired clock2 breakdown2
                (Manager.getNotifiedGoalsToday clock2 st1) items st1)
      as (fired2 & Hshown2 & Hincl2 & Hnd2 & Hnot2 & _).
    exists fired1, fired2.
    split; [exact Hshown1|]. split; [exact Hshown2|].
    split; [|split; [|split]].
    + rewrite map_app. intros x Hx.
      apply in_app_or in Hx as [Hx|Hx]; [now apply Hincl1|now apply Hincl2].
    + rewrite map_app. apply List.NoDup_app; auto.
      intros name Hin1 Hin2.
      apply in_map_iff in Hin2 as (goal & <- & Hin2).
      apply (proj1 (Hnot2 goal Hin2)).
      rewrite <- (getNotifiedGoalsToday_date clock1 clock2 _ Hdate).
      apply Hledger1. now right.
    + intros goal Hin. apply Hledger1. right. now apply in_map.
    + intros goal Hin. apply (proj1 (Hnot2 goal Hin)).
  - assert (Hoff : forall clock, Manager.checkGoals clock st
                                 = (Some Manager.Returns, st)).
    { intros clock. unfold Manager.checkGoals. now rewrite Hen. }
    exists [], []. rewrite !Hoff. cbn [snd]. rewrite ?Hoff. cbn [snd map app].
    rewrite app_nil_r.
    split; [reflexivity|]. split; [reflexivity|].
    split; [intros x []|]. split; [constructor|].
    split; intros goal [].
Qed.

End GoalCheck.

(* ===================================================================== *)
(** * Queries: order, grouping and ranges                                  *)
(* ===================================================================== *)

Section Sorting.

Context {A : Type} (key : A -> Z).

Lemma insert_desc_sorted (x : A) (l : list A) :
  descending key l -> descending key (Db.insert_desc key x l).
Proof.
  unfold descending.
  induction l as [|y l IH]; intros Hs; simpl.
  - constructor; [constructor | constructor].
  - destruct (key y <=? key x) eqn:E.
    + apply Z.leb_le in E.
      constructor; [exact Hs|].
      inversion Hs as [|? ? Hl Hy]; subst.
      constructor; [exact E|].
      rewrite List.Forall_forall in Hy |- *.
      intros z Hz. specialize (Hy z Hz). lia.
    + apply Z.leb_gt in E.
      inversion Hs as [|? ? Hl Hy]; subst.
      constructor; [apply IH; exact Hl|].
      rewrite List.Forall_forall in Hy |- *.
      intros z Hz. apply insert_desc_In in Hz as [->|Hz]; [lia | auto].
Qed.

Lemma sort_desc_sorted (l : list A) : descending key (Db.sort_desc key l).
Proof.
  unfold Db.sort_desc.
  induction l as [|x l IH]; simpl.
  - constructor.
  - apply insert_desc_sorted, IH.
Qed.

End Sorting.

Section Grouping.

Context {K : Type} (eqb : K -> K -> bool) (key : Activity.t -> K).
Hypothesis eqb_eq : forall a b, eqb a b = true <-> a = b.

Lemma eqb_false a b : eqb a b = false <-> a <> b.
Proof.
  split.
  - intros E <-. rewrite (proj2 (eqb_eq a a) eq_refl) in E. discriminate.
  - intros N. destruct (eqb a b) eqn:E; [|reflexivity].
    apply eqb_eq in E. contradiction.
Qed.

Lemma usage_add_names k (d : Z) acc x :
  In x (map UsageRow.name (Db.usage_add eqb k d acc)) <->
  x = k \/ In x (map UsageRow.name acc).
Proof.
  induction acc as [|r acc IH]; simpl.
  - intuition.
  - destruct (eqb k (UsageRow.name r)) eqn:E; simpl.
    + apply eqb_eq in E. subst k. intuition.
    + rewrite IH. intuition.
Qed.

Lemma usage_add_NoDup k (d : Z) acc :
  List.NoDup (map UsageRow.name acc) ->
  List.NoDup (map UsageRow.name (Db.usage_add eqb k d acc)).
Proof.
  induction acc as [|r acc IH]; simpl; intros Hn.
  - constructor; [intros [] | constructor].
  - inversion Hn as [|? ? Hr Hacc]; subst.
    destruct (eqb k (UsageRow.name r)) eqn:E; simpl.
    + apply eqb_eq in E. subst k. constructor; assumption.
    + apply eqb_false in E.
      constructor; [|apply IH; exact Hacc].
      rewrite usage_add_names. intros [Hx|Hx]; [congruence | contradiction].
Qed.

Lemma usage_add_In k (d : Z) acc r :
  List.NoDup (map UsageRow.name acc) ->
  In r (Db.usage_add eqb k d acc) ->
  (UsageRow.name r <> k /\ In r acc)
  \/ (~ In k (map UsageRow.name acc) /\ r = UsageRow.mk k d 1)
  \/ (exists r0, In r0 acc /\ UsageRow.name r0 = k
        /\ r = UsageRow.mk k (UsageRow.total_duration r0 + d)
                 (UsageRow.session_count r0 + 1)).
Proof.
  induction acc as [|r0 acc IH]; simpl; intros Hn.
  - intros [<-|[]]. right. left. tauto.
  - inversion Hn as [|? ? Hr Hacc]; subst.
    destruct (eqb k (UsageRow.name r0)) eqn:E; simpl.
    + apply eqb_eq in E. subst k.
      intros [<-|Hin].
      * right. right. exists r0. tauto.
      * left. split; [|tauto]. intros Hx. apply Hr. rewrite <- Hx.
        apply in_map, Hin.
    + apply eqb_false in E.
      intros [<-|Hin].
      * left. split; [congruence | tauto].
      * destruct (IH Hacc Hin) as [[Hne Hin']|[[Hnot ->]|(r1 & Hin1 & Hn1 & ->)]].
        -- left. tauto.
        -- right. left. split; [|reflexivity].
           intros [Hx|Hx]; [congruence | contradiction].
        -- right. right. exists r1. tauto.
Qed.

Lemma group_usage_snoc (rows : list Activity.t) (a : Activity.t) :
  Db.group_usage eqb key (rows ++ [a])
  = Db.usage_add eqb (key a) (Activity.duration a) (Db.group_usage eqb key rows).
Proof. unfold Db.group_usage. rewrite fold_left_app. reflexivity. Qed.

Lemma with_key_snoc k (rows : list Activity.t) (a : Activity.t) :
  with_key eqb key k (rows ++ [a])
  = with_key eqb key k rows ++ (if eqb (key a) k then [a] else []).
Proof. unfold with_key. rewrite List.filter_app. reflexivity. Qed.

Lemma with_key_nil k (rows : list Activity.t) :
  ~ In k (map key rows) -> with_key eqb key k rows = [].
Proof.
  unfold with_key. induction rows as [|a rows IH]; simpl; intros Hk.
  - reflexivity.
  - destruct (eqb (key a) k) eqn:E.
    + apply eqb_eq in E. exfalso. tauto.
    + apply IH. tauto.
Qed.

Lemma group_usage_rows (rows : list Activity.t) :
  List.NoDup (map UsageRow.name (Db.group_usage eqb key rows))
  /\ (forall r,
        In r (Db.group_usage eqb key rows) ->
        In (UsageRow.name r) (map key rows)
        /\ UsageRow.total_duration r
           = sum_durations (with_key eqb key (UsageRow.name r) rows)
        /\ UsageRow.session_count r
           = Z.of_nat (List.length (with_key eqb key (UsageRow.name r) rows)))
  /\ (forall k, In k (map key rows) ->
        In k (map UsageRow.name (Db.group_usage eqb key rows))).
Proof.
  induction rows as [|a rows IH] using rev_ind.
  - split; [constructor|]. split; [intros r []|intros k []].
  - destruct IH as (Hn & Hrows & Hkeys). rewrite group_usage_snoc.
    split; [apply usage_add_NoDup, Hn|]. split.
    + intros r Hin.
      rewrite !with_key_snoc, map_app, in_app_iff.
      rewrite sum_durations_app, List.length_app, Nat2Z.inj_add. simpl.
      destruct (usage_add_In _ _ _ _ Hn Hin)
        as [[Hne Hin']|[[Hnot ->]|(r0 & Hin0 & Hn0 & ->)]].
      * assert (E : eqb (key a) (UsageRow.name r) = false)
          by (apply eqb_false; congruence).
        rewrite E. destruct (Hrows r Hin') as (H1 & H2 & H3).
        rewrite H2, H3. unfold sum_durations. simpl. split; [tauto|]. split; lia.
      * simpl. rewrite (proj2 (eqb_eq _ _) eq_refl).
        rewrite with_key_nil by (intros Hk; apply Hnot, Hkeys, Hk).
        unfold sum_durations. simpl. split; [tauto|]. split; lia.
      * simpl. rewrite (proj2 (eqb_eq _ _) eq_refl).
        destruct (Hrows r0 Hin0) as (H1 & H2 & H3).
        rewrite Hn0 in H2, H3. rewrite H2, H3.
        unfold sum_durations. simpl. split; [tauto|]. split; lia.
    + intros k. rewrite map_app, in_app_iff, usage_add_names. simpl.
      intros [Hk|[<-|[]]]; [right; apply Hkeys, Hk | left; reflexivity].
Qed.

(** What [GROUP BY] returns: one row for each key that occurs, with the sum
    and the number of the rows of that key. *)
Lemma group_usage_spec (rows : list Activity.t) (r : UsageRow.t K) :
  In r (Db.group_usage eqb key rows) <->
  In (UsageRow.name r) (map key rows)
  /\ UsageRow.total_duration r
     = sum_durations (with_key eqb key (UsageRow.name r) rows)
  /\ UsageRow.session_count r
     = Z.of_nat (List.length (with_key eqb key (UsageRow.name r) rows)).
Proof.
  destruct (group_usage_rows rows) as (Hn & Hrows & Hkeys).
  split; [apply Hrows|].
  intros (Hk & Ht & Hc).
  apply Hkeys, in_map_iff in Hk as (r' & Hname & Hin).
  destruct (Hrows r' Hin) as (_ & Ht' & Hc').
  rewrite Hname in Ht', Hc'.
  destruct r as [n t c], r' as [n' t' c']; simpl in *. subst. exact Hin.
Qed.

Lemma sum_usage_add k (d : Z) (acc : list (UsageRow.t K)) :
  sum_totals (Db.usage_add eqb k d acc) = sum_totals acc + d
  /\ sum_counts (Db.usage_add eqb k d acc) = sum_counts acc + 1.
Proof.
  unfold sum_totals, sum_counts.
  induction acc as [|r acc IH]; simpl.
  - lia.
  - destruct (eqb k (UsageRow.name r)); simpl; lia.
Qed.

Lemma sum_group_usage (rows : list Activity.t) :
  sum_totals (Db.group_usage eqb key rows) = sum_durations rows
  /\ sum_counts (Db.group_usage eqb key rows) = Z.of_nat (List.length rows).
Proof.
  induction rows as [|a rows IH] using rev_ind.
  - split; reflexivity.
  - rewrite group_usage_snoc.
    destruct (sum_usage_add (key a) (Activity.duration a)
                (Db.group_usage eqb key rows)) as [-> ->].
    destruct IH as [-> ->].
    rewrite sum_durations_app, List.length_app, Nat2Z.inj_add.
    unfold sum_durations. simpl. lia.
Qed.

End Grouping.

Section Usage.

Lemma insert_desc_map {A B} (f : A -> B) (key : A -> Z) (key' : B -> Z) x l :
  (forall y, key' (f y) = key y) ->
  map f (Db.insert_desc key x l) = Db.insert_desc key' (f x) (map f l).
Proof.
  intros Hk. induction l as [|y l IH]; simpl.
  - reflexivity.
  - rewrite !Hk. destruct (key y <=? key x); simpl; [reflexivity|].
    rewrite IH. reflexivity.
Qed.

Lemma sort_desc_map {A B} (f : A -> B) (key : A -> Z) (key' : B -> Z) l :
  (forall y, key' (f y) = key y) ->
  map f (Db.sort_desc key l) = Db.sort_desc key' (map f l).
Proof.
  intros Hk. unfold Db.sort_desc. induction l as [|x l IH]; simpl.
  - reflexivity.
  - rewrite (insert_desc_map f key key' _ _ Hk), IH. reflexivity.
Qed.

Lemma group_add_usage c (d : Z) acc :
  map to_usage (Db.group_add c d acc)
  = Db.usage_add Db.category_eqb c d (map to_usage acc).
Proof.
  induction acc as [|r acc IH]; simpl.
  - reflexivity.
  - destruct (Db.category_eqb c (CategoryRow.category r)); simpl.
    + reflexivity.
    + rewrite IH. reflexivity.
Qed.

Lemma group_by_category_usage rows :
  map to_usage (Db.group_by_category rows)
  = Db.group_usage Db.category_eqb Activity.category rows.
Proof.
  unfold Db.group_by_category, Db.group_usage.
  change (@nil (UsageRow.t (option string))) with (map to_usage []).
  generalize (@nil CategoryRow.t).
  induction rows as [|a rows IH]; intros acc; simpl.
  - reflexivity.
  - rewrite IH, group_add_usage. reflexivity.
Qed.

Lemma getCategoryBreakdown_usage startTime endTime db :
  map to_usage (Db.getCategoryBreakdown startTime endTime db)
  = Db.sort_desc UsageRow.total_duration
      (Db.group_usage Db.category_eqb Activity.category
         (Db.rows_in_range startTime endTime db)).
Proof.
  unfold Db.getCategoryBreakdown.
  rewrite (sort_desc_map to_usage CategoryRow.total_duration
             UsageRow.total_duration) by reflexivity.
  rewrite group_by_category_usage. reflexivity.
Qed.

Lemma NoDup_perm_map {A B} (f : A -> B) (l1 l2 : list A) :
  Permutation l1 l2 -> List.NoDup (map f l2) -> List.NoDup (map f l1).
Proof.
  intros Hp Hn. eapply Permutation_NoDup; [|exact Hn].
  apply Permutation_map, Permutation_sym, Hp.
Qed.

(** A sorted grouping is the usage by its key. *)
Lemma sorted_group_usage {K} (eqb : K -> K -> bool) (key : Activity.t -> K) rows :
  (forall a b, eqb a b = true <-> a = b) ->
  usage_by eqb key rows
    (Db.sort_desc UsageRow.total_duration (Db.group_usage eqb key rows)).
Proof.
  intros eqb_eq.
  destruct (group_usage_rows eqb key eqb_eq rows) as (Hn & _).
  split; [|split].
  - eapply NoDup_perm_map; [apply sort_desc_perm | exact Hn].
  - apply sort_desc_sorted.
  - intros r. rewrite sort_desc_In. apply group_usage_spec, eqb_eq.
Qed.

Lemma sum_totals_perm {K} (l1 l2 : list (UsageRow.t K)) :
  Permutation l1 l2 ->
  sum_totals l1 = sum_totals l2 /\ sum_counts l1 = sum_counts l2.
Proof.
  unfold sum_totals, sum_counts.
  induction 1; simpl; lia.
Qed.

Lemma sum_sorted_group {K} (eqb : K -> K -> bool) (key : Activity.t -> K) rows :
  sum_totals (Db.sort_desc UsageRow.total_duration (Db.group_usage eqb key rows))
  = sum_durations rows
  /\ sum_counts (Db.sort_desc UsageRow.total_duration (Db.group_usage eqb key rows))
     = Z.of_nat (List.length rows).
Proof.
  destruct (sum_totals_perm _ _
              (sort_desc_perm UsageRow.total_duration (Db.group_usage eqb key rows)))
    as [-> ->].
  apply sum_group_usage.
Qed.

(** X1: [getCategoryBreakdown] returns one row for each category that an
    activity started in the range has (the missing category counts as one),
    with the summed duration of those activities as [total_duration] and
    their number as [session_count], in descending order of the sum. *)
Theorem category_breakdown_usage (startTime endTime : Z) (db : Db.t) :
  usage_by Db.category_eqb Activity.category
    (Db.rows_in_range startTime endTime db)
    (map to_usage (Db.getCategoryBreakdown startTime endTime db)).
Proof.
  rewrite getCategoryBreakdown_usage.
  apply sorted_group_usage, category_eqb_eq.
Qed.

Lemma length_map_sort_desc {A B} (f : A -> B) (key : A -> Z) (l : list A) :
  List.length (map f (Db.sort_desc key l)) = List.length l.
Proof.
  rewrite List.length_map. apply Permutation_length, sort_desc_perm.
Qed.

(** X2: the rows of [getCategoryBreakdown], and those of [getAppUsage], add
    up: their [total_duration]s sum to [getTotalTrackedTime] of the same
    range, their [session_count]s to the number of records that
    [getActivitiesInRange] returns. *)
Theorem breakdown_adds_up (startTime endTime : Z) (db : Db.t) :
  sum_totals (map to_usage (Db.getCategoryBreakdown startTime endTime db))
  = Db.getTotalTrackedTime startTime endTime db
  /\ sum_counts (map to_usage (Db.getCategoryBreakdown startTime endTime db))
     = Z.of_nat (List.length (Db.getActivitiesInRange startTime endTime db))
  /\ sum_totals (Db.getAppUsage startTime endTime db)
     = Db.getTotalTrackedTime startTime endTime db
  /\ sum_counts (Db.getAppUsage startTime endTime db)
     = Z.of_nat (List.length (Db.getActivitiesInRange startTime endTime db)).
Proof.
  rewrite getCategoryBreakdown_usage.
  unfold Db.getAppUsage, Db.getActivitiesInRange.
  rewrite length_map_sort_desc.
  destruct (sum_sorted_group Db.category_eqb Activity.category
              (Db.rows_in_range startTime endTime db)) as [-> ->].
  destruct (sum_sorted_group String.eqb Activity.appName
              (Db.rows_in_range startTime endTime db)) as [-> ->].
  repeat split; reflexivity.
Qed.

(** X3: [getAppUsage] returns one row for each app that has an activity
    started in the range, with the summed duration and the number of those
    activities, in descending order of the sum. *)
Theorem app_usage_rows (startTime endTime : Z) (db : Db.t) :
  usage_by String.eqb Activity.appName
    (Db.rows_in_range startTime endTime db)
    (Db.getAppUsage startTime endTime db).
Proof. apply sorted_group_usage, String.eqb_eq. Qed.

Lemma filter_and {A} (f g : A -> bool) (l : list A) :
  List.filter (fun x => f x && g x) l = List.filter g (List.filter f l).
Proof.
  induction l as [|x l IH]; simpl; [reflexivity|].
  destruct (f x); simpl; [|exact IH].
  destruct (g x); rewrite IH; reflexivity.
Qed.

Lemma with_key_not_null (key : Activity.t -> option string) p rows :
  with_key Db.category_eqb key (Some p)
    (List.filter (fun a => Db.isNotNull (key a)) rows)
  = with_key Db.category_eqb key (Some p) rows.
Proof.
  unfold with_key. induction rows as [|a rows IH]; simpl; [reflexivity|].
  destruct (key a) as [k|] eqn:E; simpl.
  - rewrite E. simpl. rewrite IH. reflexivity.
  - exact IH.
Qed.

(** The usage by a column that may be [NULL], over the rows where it is
    not. *)
Lemma not_null_usage (key : Activity.t -> option string) startTime endTime db :
  let result :=
    Db.sort_desc UsageRow.total_duration
      (Db.group_usage Db.category_eqb key
         (List.filter
            (fun a => Db.in_range startTime endTime (Activity.startTime a)
                      && Db.isNotNull (key a))
            (Db.activities db))) in
  usage_by Db.category_eqb key
    (List.filter (fun a => Db.isNotNull (key a))
       (Db.rows_in_range startTime endTime db))
    result
  /\ forall r, In r result ->
       exists p,
         UsageRow.name r = Some p
         /\ UsageRow.total_duration r
            = sum_durations
                (with_key Db.category_eqb key (Some p)
                   (Db.rows_in_range startTime endTime db))
         /\ UsageRow.session_count r
            = Z.of_nat
                (List.length
                   (with_key Db.category_eqb key (Some p)
                      (Db.rows_in_range startTime endTime db))).
Proof.
  intros result. subst result. rewrite filter_and.
  fold (Db.rows_in_range startTime endTime db).
  pose proof (sorted_group_usage Db.category_eqb key
                (List.filter (fun a => Db.isNotNull (key a))
                   (Db.rows_in_range startTime endTime db))
                category_eqb_eq) as Hu.
  split; [exact Hu|].
  intros r Hr. destruct Hu as (_ & _ & Hu). apply Hu in Hr as (Hk & Ht & Hc).
  apply in_map_iff in Hk as (a & Ha & Hin).
  apply List.filter_In in Hin as [_ Hnn].
  destruct (key a) as [p|] eqn:E; [|discriminate].
  exists p. rewrite <- Ha in Ht, Hc |- *.
  rewrite with_key_not_null in Ht, Hc. auto.
Qed.

(** X4: [getProjectTime] and [getDomainUsage] group the activities of the
    range that have a project, respectively a domain: no row stands for the
    activities without one, and the sum and the count of a row range over
    all activities of its project, respectively domain, in the range. *)
Theorem project_and_domain_usage (startTime endTime : Z) (db : Db.t) :
  let rows := Db.rows_in_range startTime endTime db in
  (usage_by Db.category_eqb Activity.projectName
     (List.filter (fun a => Db.isNotNull (Activity.projectName a)) rows)
     (Db.getProjectTime startTime endTime db)
   /\ forall r, In r (Db.getProjectTime startTime endTime db) ->
        exists p,
          UsageRow.name r = Some p
          /\ UsageRow.total_duration r
             = sum_durations
                 (with_key Db.category_eqb Activity.projectName (Some p) rows)
          /\ UsageRow.session_count r
             = Z.of_nat
                 (List.length
                    (with_key Db.category_eqb Activity.projectName (Some p) rows)))
  /\ (usage_by Db.category_eqb Activity.domain
        (List.filter (fun a => Db.isNotNull (Activity.domain a)) rows)
        (Db.getDomainUsage startTime endTime db)
      /\ forall r, In r (Db.getDomainUsage startTime endTime db) ->
           exists p,
             UsageRow.name r = Some p
             /\ UsageRow.total_duration r
                = sum_durations
                    (with_key Db.category_eqb Activity.domain (Some p) rows)
             /\ UsageRow.session_count r
                = Z.of_nat
                    (List.length
                       (with_key Db.category_eqb Activity.domain (Some p) rows))).
Proof.
  intros rows. split.
  - apply (not_null_usage Activity.projectName).
  - apply (not_null_usage Activity.domain).
Qed.

End Usage.

Section Ranges.

Lemma descending_map {A B} (f : A -> B) (key : A -> Z) (key' : B -> Z) l :
  (forall y, key' (f y) = key y) ->
  descending key l -> descending key' (map f l).
Proof.
  intros Hk. unfold descending. induction 1 as [|x l Hs IH Hx]; simpl.
  - constructor.
  - constructor; [exact IH|].
    rewrite List.Forall_forall in Hx |- *.
    intros y Hy. apply in_map_iff in Hy as (z & <- & Hz).
    rewrite !Hk. apply Hx, Hz.
Qed.

Lemma descending_filter {A} (key : A -> Z) (p : A -> bool) l :
  descending key l -> descending key (List.filter p l).
Proof.
  unfold descending. induction 1 as [|x l Hs IH Hx]; simpl.
  - constructor.
  - destruct (p x); [|exact IH].
    constructor; [exact IH|].
    rewrite List.Forall_forall in Hx |- *.
    intros y Hy. apply List.filter_In in Hy as [Hy _]. apply Hx, Hy.
Qed.

Lemma in_range_spec startTime endTime x :
  Db.in_range startTime endTime x = true <-> startTime <= x <= endTime.
Proof. unfold Db.in_range. rewrite andb_true_iff, !Z.leb_le. tauto. Qed.

(** X5: [getActivitiesInRange] returns exactly the stored activities whose
    start lies in the closed range, each once, latest start first; a range
    whose end precedes its start gives no record. *)
Theorem activities_in_range (startTime endTime : Z) (db : Db.t) :
  let result := Db.getActivitiesInRange startTime endTime db in
  descending ActivityRecord.start_time result
  /\ Permutation result
       (map Db.mapToRecord (Db.rows_in_range startTime endTime db))
  /\ (forall r,
        In r result <->
        exists a,
          In a (Db.activities db)
          /\ startTime <= Activity.startTime a <= endTime
          /\ r = Db.mapToRecord a)
  /\ (endTime < startTime -> result = []).
Proof.
  intros result. subst result. unfold Db.getActivitiesInRange.
  split; [|split; [|split]].
  - apply (descending_map Db.mapToRecord Activity.startTime); [reflexivity|].
    apply sort_desc_sorted.
  - apply Permutation_map, sort_desc_perm.
  - intros r. rewrite in_map_iff. split.
    + intros (a & <- & Hin). apply sort_desc_In in Hin.
      apply List.filter_In in Hin as [Hin Hr]. apply in_range_spec in Hr.
      exists a. auto.
    + intros (a & Hin & Hr & ->). exists a. split; [reflexivity|].
      apply sort_desc_In. apply List.filter_In. split; [exact Hin|].
      apply in_range_spec, Hr.
  - intros Hlt. unfold Db.rows_in_range.
    rewrite filter_none; [reflexivity|].
    intros a _. unfold Db.in_range.
    destruct (startTime <=? Activity.startTime a) eqn:E1; [|reflexivity].
    apply Z.leb_le in E1. simpl. apply Z.leb_gt. lia.
Qed.

Lemma sum_durations_perm (l1 l2 : list Activity.t) :
  Permutation l1 l2 -> sum_durations l1 = sum_durations l2.
Proof. unfold sum_durations. induction 1; simpl; lia. Qed.

Lemma sum_durations_split (p q : Activity.t -> bool) (l : list Activity.t) :
  (forall a, In a l -> p a && q a = false) ->
  sum_durations (List.filter (fun a => p a || q a) l)
  = sum_durations (List.filter p l) + sum_durations (List.filter q l).
Proof.
  unfold sum_durations. induction l as [|a l IH]; intros Hd; simpl.
  - reflexivity.
  - assert (Ha := Hd a (or_introl eq_refl)).
    assert (IH' := IH (fun b Hb => Hd b (or_intror Hb))).
    destruct (p a), (q a); simpl in *; try discriminate; lia.
Qed.

(** X6: [getTotalTrackedTime] is additive over adjacent ranges: the total
    of a range is the total up to any point of it plus the total from the
    next millisecond on. *)
Theorem tracked_time_splits (startTime middle endTime : Z) (db : Db.t) :
  startTime - 1 <= middle <= endTime ->
  Db.getTotalTrackedTime startTime endTime db
  = Db.getTotalTrackedTime startTime middle db
    + Db.getTotalTrackedTime (middle + 1) endTime db.
Proof.
  intros Hm. unfold Db.getTotalTrackedTime, Db.rows_in_range.
  fold (sum_durations
          (List.filter
             (fun a => Db.in_range startTime endTime (Activity.startTime a))
             (Db.activities db))).
  fold (sum_durations
          (List.filter
             (fun a => Db.in_range startTime middle (Activity.startTime a))
             (Db.activities db))).
  fold (sum_durations
          (List.filter
             (fun a => Db.in_range (middle + 1) endTime (Activity.startTime a))
             (Db.activities db))).
  rewrite <- sum_durations_split.
  - f_equal. apply List.filter_ext. intros a. unfold Db.in_range.
    destruct (startTime <=? Activity.startTime a) eqn:E1,
             (Activity.startTime a <=? endTime) eqn:E2,
             (Activity.startTime a <=? middle) eqn:E3,
             (middle + 1 <=? Activity.startTime a) eqn:E4;
      try reflexivity;
      rewrite ?Z.leb_le, ?Z.leb_gt in *; lia.
  - intros a _. unfold Db.in_range.
    destruct (Activity.startTime a <=? middle) eqn:E3,
             (middle + 1 <=? Activity.startTime a) eqn:E4;
      rewrite ?andb_false_r, ?andb_false_l; try reflexivity.
    rewrite ?Z.leb_le, ?Z.leb_gt in *; lia.
Qed.

(** The bucket of a session id under the grouping loop. *)
Lemma activitiesBySession_bucket (rows : list Activity.t) (k : Z) :
  forall m : gmap Z (list ActivityRecord.t),
  default [] (fold_left Db.group_step rows m !! k)
  = default [] (m !! k)
    ++ map Db.mapToRecord
         (List.filter (fun a => default 0 (Activity.sessionId a) =? k) rows).
Proof.
  induction rows as [|a rows IH]; intros m; simpl.
  - rewrite app_nil_r. reflexivity.
  - rewrite IH. unfold Db.group_step.
    destruct (default 0 (Activity.sessionId a) =? k) eqn:E.
    + apply Z.eqb_eq in E. rewrite E, lookup_insert_eq. simpl.
      rewrite <- app_assoc. reflexivity.
    + apply Z.eqb_neq in E. rewrite lookup_insert_ne by exact E. reflexivity.
Qed.

Lemma filter_belongs (sid : Z) (rows : list Activity.t) :
  sid <> 0 ->
  List.filter (fun a => default 0 (Activity.sessionId a) =? sid) rows
  = List.filter (belongs sid) rows.
Proof.
  intros Hsid. apply List.filter_ext. intros a. unfold belongs.
  destruct (Activity.sessionId a); [reflexivity|].
  change (default 0 None) with 0. apply Z.eqb_neq. congruence.
Qed.

Lemma getSessionsWithActivities_entries (startTime endTime : Z) (db : Db.t) :
  (forall s, In s (Db.sessions db) -> Session.id s <> 0) ->
  Db.getSessionsWithActivities startTime endTime db
  = map (entry_of startTime endTime db)
      (Db.sort_desc Session.startTime
         (List.filter
            (fun s => Db.in_range startTime endTime (Session.startTime s))
            (Db.sessions db))).
Proof.
  intros Hids. unfold Db.getSessionsWithActivities.
  set (sessionRows := Db.sort_desc Session.startTime _).
  assert (Hin : forall s, In s sessionRows -> Session.id s <> 0).
  { intros s Hs. apply sort_desc_In, List.filter_In in Hs as [Hs _].
    apply Hids, Hs. }
  assert (Hmap :
    map (fun session =>
           SessionWithActivities.mk (Session.id session)
             (Session.appName session) (Session.category session)
             (Session.startTime session) (Session.endTime session)
             (Session.totalDuration session) (Session.activityCount session)
             (Session.createdAt session)
             (default []
                (Db.activitiesBySession
                   (Db.sort_desc Activity.startTime
                      (Db.rows_in_range startTime endTime db))
                 !! Session.id session)))
        sessionRows
    = map (entry_of startTime endTime db) sessionRows).
  { apply map_ext_in. intros s Hs. unfold entry_of. f_equal.
    unfold Db.activitiesBySession. rewrite activitiesBySession_bucket.
    rewrite lookup_empty. simpl. rewrite filter_belongs by (apply Hin, Hs).
    reflexivity. }
  destruct sessionRows; [reflexivity | exact Hmap].
Qed.

Lemma Permutation_filter {A} (p : A -> bool) (l l' : list A) :
  Permutation l l' -> Permutation (List.filter p l) (List.filter p l').
Proof.
  induction 1 as [|x l l' Hp IH|x y l|l l' l'' H1 IH1 H2 IH2]; simpl.
  - constructor.
  - destruct (p x); [constructor|]; exact IH.
  - destruct (p x), (p y); try reflexivity. apply perm_swap.
  - etransitivity; eassumption.
Qed.

Lemma filter_comm {A} (p q : A -> bool) (l : list A) :
  List.filter p (List.filter q l) = List.filter q (List.filter p l).
Proof.
  induction l as [|x l IH]; simpl; [reflexivity|].
  destruct (q x) eqn:Eq, (p x) eqn:Ep; simpl; rewrite ?Eq, ?Ep, IH; reflexivity.
Qed.

Lemma length_filter_le {A} (p : A -> bool) (l : list A) :
  (List.length (List.filter p l) <= List.length l)%nat.
Proof.
  induction l as [|x l IH]; simpl; [lia|]. destruct (p x); simpl; lia.
Qed.

Lemma filter_all {A} (p : A -> bool) (l : list A) :
  (forall x, In x l -> p x = true) -> List.filter p l = l.
Proof.
  induction l as [|x l IH]; intros H; simpl; [reflexivity|].
  rewrite (H x (or_introl eq_refl)), IH; [reflexivity|].
  intros y Hy. apply H. right. exact Hy.
Qed.

(** The activities that an entry lists, as rows: those of the session that
    started in the range. *)
Lemma listed_rows (startTime endTime : Z) (db : Db.t) (sid : Z) :
  Permutation
    (List.filter (belongs sid)
       (Db.sort_desc Activity.startTime (Db.rows_in_range startTime endTime db)))
    (List.filter (fun a => Db.in_range startTime endTime (Activity.startTime a))
       (activities_of sid db)).
Proof.
  unfold activities_of, Db.rows_in_range. rewrite filter_comm.
  apply Permutation_filter, sort_desc_perm.
Qed.

(** X7: when no session has the id 0, [getSessionsWithActivities] returns
    one entry for each session started in the range, latest start first;
    the activities of an entry are exactly the activities of that session
    that started in the range, latest start first. *)
Theorem sessions_with_activities (startTime endTime : Z) (db : Db.t) :
  (forall s, In s (Db.sessions db) -> Session.id s <> 0) ->
  let result := Db.getSessionsWithActivities startTime endTime db in
  descending SessionWithActivities.start_time result
  /\ Permutation (map SessionWithActivities.id result)
       (map Session.id
          (List.filter
             (fun s => Db.in_range startTime endTime (Session.startTime s))
             (Db.sessions db)))
  /\ forall sw,
       In sw result ->
       (exists session,
          In session (Db.sessions db)
          /\ startTime <= Session.startTime session <= endTime
          /\ SessionWithActivities.id sw = Session.id session
          /\ SessionWithActivities.app_name sw = Session.appName session
          /\ SessionWithActivities.category sw = Session.category session
          /\ SessionWithActivities.start_time sw = Session.startTime session
          /\ SessionWithActivities.end_time sw = Session.endTime session
          /\ SessionWithActivities.total_duration sw = Session.totalDuration session
          /\ SessionWithActivities.activity_count sw = Session.activityCount session
          /\ SessionWithActivities.created_at sw = Session.createdAt session)
       /\ descending ActivityRecord.start_time (SessionWithActivities.activities sw)
       /\ Permutation (SessionWithActivities.activities sw)
            (map Db.mapToRecord
               (List.filter
                  (fun a => Db.in_range startTime endTime (Activity.startTime a))
                  (activities_of (SessionWithActivities.id sw) db))).
Proof.
  intros Hids result. subst result.
  rewrite (getSessionsWithActivities_entries _ _ _ Hids).
  split; [|split].
  - apply (descending_map (entry_of startTime endTime db) Session.startTime);
      [reflexivity | apply sort_desc_sorted].
  - rewrite List.map_map. cbn [entry_of SessionWithActivities.id].
    apply Permutation_map, sort_desc_perm.
  - intros sw Hsw. apply in_map_iff in Hsw as (session & <- & Hs).
    apply sort_desc_In, List.filter_In in Hs as [Hs Hr].
    apply in_range_spec in Hr.
    split; [exists session; cbn; repeat split; tauto|]. split.
    + cbn [entry_of SessionWithActivities.activities].
      apply (descending_map Db.mapToRecord Activity.startTime); [reflexivity|].
      apply descending_filter, sort_desc_sorted.
    + cbn [entry_of SessionWithActivities.activities SessionWithActivities.id].
      apply Permutation_map, listed_rows.
Qed.

End Ranges.

(* ===================================================================== *)
(** * Databases built from an empty file                                   *)
(* ===================================================================== *)

Section Lifecycle.

(** What [insertActivity] does to a consistent database, case by case. *)
Lemma insertActivity_effect (activity : ActivityInput.t) (db : Db.t) :
  consistent db ->
  Db.insertActivity activity db
  = (Db.seq_activities db + 1,
     match Db.open_for (ActivityInput.app_name activity) db with
     | Some sid =>
         Db.mk
           (map (fun s =>
                   if Session.id s =? sid
                   then Db.extend (ActivityInput.end_time activity)
                          (ActivityInput.duration activity) s
                   else s)
              (Db.sessions db))
           (Db.activities db
            ++ [Db.new_row (Db.seq_activities db + 1) sid activity
                  (Db.CURRENT_TIMESTAMP db)])
           (Db.seq_sessions db) (Db.seq_activities db + 1)
           (Db.CURRENT_TIMESTAMP db) (Db.settings db)
           (Db.currentSessionId db) (Db.currentSessionAppName db)
     | None =>
         Db.mk
           (Db.sessions db
            ++ [opened_by (Db.seq_sessions db + 1) activity
                  (Db.CURRENT_TIMESTAMP db)])
           (Db.activities db
            ++ [Db.new_row (Db.seq_activities db + 1) (Db.seq_sessions db + 1)
                  activity (Db.CURRENT_TIMESTAMP db)])
           (Db.seq_sessions db + 1) (Db.seq_activities db + 1)
           (Db.CURRENT_TIMESTAMP db) (Db.settings db)
           (Some (Db.seq_sessions db + 1))
           (Some (ActivityInput.app_name activity))
     end).
Proof.
  intros Hc. unfold Db.insertActivity.
  destruct (Db.open_for (ActivityInput.app_name activity) db) as [sid|] eqn:Ho.
  - rewrite (getOrCreateSession_reuse _ _ _ _ _ Ho). reflexivity.
  - rewrite (getOrCreateSession_create _ _ _ _ Ho). simpl.
    unfold Db.updateSession, Db.set_sessions, Db.set_activities. simpl.
    f_equal. f_equal.
    rewrite map_app. simpl. rewrite Z.eqb_refl. f_equal.
    rewrite <- (map_id (Db.sessions db)) at 2.
    apply map_ext_in. intros s Hs.
    destruct (session_ids db Hc s Hs) as [_ Hle].
    destruct (Session.id s =? Db.seq_sessions db + 1) eqn:E; [|reflexivity].
    apply Z.eqb_eq in E. lia.
Qed.

Lemma first_ids_S (n : nat) : first_ids (S n) = first_ids n ++ [Z.of_nat n + 1].
Proof.
  unfold first_ids. rewrite seq_S, map_app. simpl. do 2 f_equal. lia.
Qed.

Lemma first_ids_bound (n : nat) (x : Z) :
  In x (first_ids n) -> 1 <= x <= Z.of_nat n.
Proof.
  unfold first_ids. intros Hx. apply in_map_iff in Hx as (k & <- & Hk).
  apply in_seq in Hk. lia.
Qed.

Lemma first_ids_NoDup (n : nat) : List.NoDup (first_ids n).
Proof.
  induction n as [|n IH].
  - constructor.
  - rewrite first_ids_S. apply List.NoDup_app.
    + exact IH.
    + constructor; [intros [] | constructor].
    + intros x Hx [<-|[]]. apply first_ids_bound in Hx. lia.
Qed.

Lemma same_id_same_row {A} (id : A -> Z) (l : list A) (x y : A) :
  List.NoDup (map id l) -> In x l -> In y l -> id x = id y -> x = y.
Proof.
  induction l as [|z l IH]; simpl; intros Hn Hx Hy E; [contradiction|].
  inversion Hn as [|? ? Hz Hl]; subst.
  destruct Hx as [->|Hx], Hy as [->|Hy].
  - reflexivity.
  - exfalso. apply Hz. rewrite E. apply in_map, Hy.
  - exfalso. apply Hz. rewrite <- E. apply in_map, Hx.
  - apply IH; assumption.
Qed.

Lemma activities_of_snoc (sid : Z) (db db' : Db.t) (row : Activity.t) :
  Db.activities db' = Db.activities db ++ [row] ->
  activities_of sid db'
  = activities_of sid db ++ (if belongs sid row then [row] else []).
Proof.
  intros E. unfold activities_of. rewrite E, List.filter_app. reflexivity.
Qed.

Lemma belongs_new_row (sid sid' id : Z) activity created :
  belongs sid (Db.new_row id sid' activity created) = (sid' =? sid).
Proof. reflexivity. Qed.

Lemma spans_snoc (s : Session.t) (rows : list Activity.t) (row : Activity.t)
  (endTime duration : Z) :
  spans s rows ->
  Activity.endTime row = endTime ->
  spans (Db.extend endTime duration s) (rows ++ [row]).
Proof.
  intros (first & rest & -> & Ha & Hc & Hs & He) Hrow.
  exists first, (rest ++ [row]). simpl.
  rewrite List.last_last. auto.
Qed.

Lemma empty_well_formed (now : string) : well_formed (Db.empty now).
Proof.
  split; try reflexivity.
  - apply empty_consistent.
  - intros a [].
  - intros appName sid H. discriminate.
  - intros s [].
Qed.

Lemma closeCurrentSession_well_formed db :
  well_formed db -> well_formed (Db.closeCurrentSession db).
Proof.
  intros [Hc Hsi Hss Hai Hsa Hl Hcur Hsp].
  split; try assumption.
  - apply closeCurrentSession_consistent, Hc.
  - intros appName sid H. discriminate.
Qed.

Lemma insertActivity_well_formed activity db :
  well_formed db -> well_formed (Db.insertActivity activity db).2.
Proof.
  intros [Hc Hsi Hss Hai Hsa Hl Hcur Hsp].
  pose proof (insertActivity_consistent activity db Hc) as Hc'.
  rewrite (insertActivity_effect activity db Hc) in Hc' |- *.
  cbn [snd] in Hc' |- *.
  destruct (Db.open_for (ActivityInput.app_name activity) db) as [sid|] eqn:Ho.
  - destruct (Hcur _ _ Ho) as (s0 & Hs0 & Hid0 & Happ0).
    set (f := fun s : Session.t =>
                if Session.id s =? sid
                then Db.extend (ActivityInput.end_time activity)
                       (ActivityInput.duration activity) s
                else s) in *.
    assert (Hfid : forall s, Session.id (f s) = Session.id s)
      by (intros s; unfold f; destruct (Session.id s =? sid); reflexivity).
    assert (Hfapp : forall s, Session.appName (f s) = Session.appName s)
      by (intros s; unfold f; destruct (Session.id s =? sid); reflexivity).
    split; cbn [Db.sessions Db.activities Db.seq_sessions Db.seq_activities].
    + exact Hc'.
    + rewrite List.map_map, List.length_map.
      rewrite (map_ext _ Session.id Hfid). exact Hsi.
    + rewrite List.length_map. exact Hss.
    + rewrite map_app, List.length_app, Nat.add_1_r, first_ids_S, Hai, Hsa.
      reflexivity.
    + rewrite List.length_app, Nat.add_1_r, Hsa. lia.
    + intros a Ha. apply in_app_iff in Ha as [Ha|[<-|[]]].
      * destruct (Hl a Ha) as (s & Hs & H1 & H2).
        exists (f s). rewrite Hfid, Hfapp. split; [apply in_map, Hs | auto].
      * exists (f s0). rewrite Hfid, Hfapp, Hid0, Happ0.
        split; [apply in_map, Hs0 | auto].
    + intros appName sid' Ho'.
      change (Db.open_for appName db = Some sid') in Ho'.
      destruct (Hcur _ _ Ho') as (s & Hs & H1 & H2).
      exists (f s). rewrite Hfid, Hfapp. split; [apply in_map, Hs | auto].
    + intros s' Hs'. apply in_map_iff in Hs' as (s & <- & Hs).
      rewrite Hfid.
      erewrite activities_of_snoc by reflexivity. rewrite belongs_new_row.
      unfold f. rewrite (Z.eqb_sym sid).
      destruct (Session.id s =? sid).
      * apply spans_snoc; [apply Hsp, Hs | reflexivity].
      * rewrite app_nil_r. apply Hsp, Hs.
  - split; cbn [Db.sessions Db.activities Db.seq_sessions Db.seq_activities].
    + exact Hc'.
    + rewrite map_app, List.length_app, Nat.add_1_r, first_ids_S, Hsi, Hss.
      reflexivity.
    + rewrite List.length_app, Nat.add_1_r, Hss. lia.
    + rewrite map_app, List.length_app, Nat.add_1_r, first_ids_S, Hai, Hsa.
      reflexivity.
    + rewrite List.length_app, Nat.add_1_r, Hsa. lia.
    + intros a Ha. apply in_app_iff in Ha as [Ha|[<-|[]]].
      * destruct (Hl a Ha) as (s & Hs & H1 & H2).
        exists s. split; [apply in_app_iff; left; exact Hs | auto].
      * eexists. split; [apply in_app_iff; right; left; reflexivity|].
        split; reflexivity.
    + intros appName sid' Ho'. unfold Db.open_for in Ho'. cbn in Ho'.
      destruct (negb (Db.seq_sessions db + 1 =? 0)
                && String.eqb (ActivityInput.app_name activity) appName)%bool
        eqn:E; [|discriminate].
      injection Ho' as <-. apply andb_true_iff in E as [_ E].
      apply String.eqb_eq in E. subst appName.
      eexists. split; [apply in_app_iff; right; left; reflexivity|].
      split; reflexivity.
    + intros s Hs. apply in_app_iff in Hs as [Hs|[<-|[]]].
      * erewrite activities_of_snoc by reflexivity. rewrite belongs_new_row.
        destruct (session_ids db Hc s Hs) as [_ Hle].
        destruct (Db.seq_sessions db + 1 =? Session.id s) eqn:E;
          [apply Z.eqb_eq in E; lia|].
        rewrite app_nil_r. apply Hsp, Hs.
      * erewrite activities_of_snoc by reflexivity. rewrite belongs_new_row.
        cbn [opened_by Session.id]. rewrite Z.eqb_refl.
        unfold activities_of at 1. rewrite filter_none.
        -- eexists _, []. cbn. repeat split; reflexivity.
        -- intros a Ha. unfold belongs.
           destruct (Activity.sessionId a) as [x|] eqn:Ex; [|reflexivity].
           apply Z.eqb_neq. pose proof (activity_refs db Hc a x Ha Ex). lia.
Qed.

Lemma perform_well_formed db o : well_formed db -> well_formed (perform db o).
Proof.
  destruct o; simpl.
  - apply insertActivity_well_formed.
  - apply closeCurrentSession_well_formed.
Qed.

Lemma perform_all_well_formed ops :
  forall db, well_formed db -> well_formed (perform_all ops db).
Proof.
  unfold perform_all. induction ops as [|o ops IH]; intros db H; simpl.
  - exact H.
  - apply IH, perform_well_formed, H.
Qed.

(** X8: in a database that [insertActivity] and [closeCurrentSession] built
    from an empty file, the sessions have the ids 1, 2, ... and the
    activities the ids 1, 2, ... in the order of insertion, and every
    activity refers to a stored session of its own app. *)
Theorem tracked_rows_are_linked (now : string) (ops : list operation) :
  let db := perform_all ops (Db.empty now) in
  map Session.id (Db.sessions db) = first_ids (List.length (Db.sessions db))
  /\ map Activity.id (Db.activities db)
     = first_ids (List.length (Db.activities db))
  /\ forall a, In a (Db.activities db) ->
       exists s,
         In s (Db.sessions db)
         /\ Activity.sessionId a = Some (Session.id s)
         /\ Activity.appName a = Session.appName s.
Proof.
  intros db.
  destruct (perform_all_well_formed ops _ (empty_well_formed now))
    as [_ Hsi _ Hai _ Hl _ _].
  auto.
Qed.

(** X9: in such a database every session has at least one activity; it
    starts when its first activity starts, has the app and the category of
    that activity, and ends when its latest activity ends. *)
Theorem session_spans_its_activities (now : string) (ops : list operation)
  (s : Session.t) :
  let db := perform_all ops (Db.empty now) in
  In s (Db.sessions db) -> spans s (activities_of (Session.id s) db).
Proof.
  intros db.
  apply (wf_spans _ (perform_all_well_formed ops _ (empty_well_formed now))).
Qed.

Lemma step_final (db : Db.t) (s : Session.t) (o : operation) :
  well_formed db ->
  In s (Db.sessions db) ->
  Db.currentSessionId db <> Some (Session.id s) \/ leaves s o ->
  In s (Db.sessions (perform db o))
  /\ activities_of (Session.id s) (perform db o) = activities_of (Session.id s) db
  /\ Db.currentSessionId (perform db o) <> Some (Session.id s).
Proof.
  intros Hwf Hs Hor. pose proof (wf_consistent _ Hwf) as Hc.
  destruct o as [activity|]; simpl.
  - rewrite (insertActivity_effect activity db Hc). cbn [snd].
    destruct (session_ids db Hc s Hs) as [_ Hle].
    destruct (Db.open_for (ActivityInput.app_name activity) db) as [sid|] eqn:Ho.
    + destruct (open_for_current _ _ _ Ho) as (Hcur & _ & _).
      assert (Hne : sid <> Session.id s).
      { intros ->. destruct Hor as [Hn|Hl]; [congruence|].
        destruct (wf_current _ Hwf _ _ Ho) as (s' & Hs' & Hid & Happ).
        simpl in Hl. apply Hl. rewrite <- Happ. f_equal.
        apply (same_id_same_row Session.id (Db.sessions db)); auto.
        rewrite (wf_session_ids _ Hwf). apply first_ids_NoDup. }
      split; [|split].
      * cbn [Db.sessions]. apply in_map_iff. exists s. split; [|exact Hs].
        destruct (Session.id s =? sid) eqn:E; [|reflexivity].
        apply Z.eqb_eq in E. congruence.
      * erewrite activities_of_snoc by reflexivity. rewrite belongs_new_row.
        destruct (sid =? Session.id s) eqn:E;
          [apply Z.eqb_eq in E; contradiction|].
        apply app_nil_r.
      * cbn [Db.currentSessionId]. congruence.
    + split; [|split].
      * cbn [Db.sessions]. apply in_app_iff. left. exact Hs.
      * erewrite activities_of_snoc by reflexivity. rewrite belongs_new_row.
        destruct (Db.seq_sessions db + 1 =? Session.id s) eqn:E;
          [apply Z.eqb_eq in E; lia|].
        apply app_nil_r.
      * cbn [Db.currentSessionId]. intros [= E]. lia.
  - split; [exact Hs|]. split; [reflexivity | discriminate].
Qed.

(** X10: once the tracker goes idle or a sample of another app arrives, a
    session is final: whatever is tracked afterwards, its row and its
    activities stay as they are (a return to the app opens a new session). *)
Theorem left_session_is_final (db : Db.t) (s : Session.t) (o : operation)
  (ops : list operation) :
  well_formed db ->
  In s (Db.sessions db) ->
  leaves s o ->
  In s (Db.sessions (perform_all (o :: ops) db))
  /\ activities_of (Session.id s) (perform_all (o :: ops) db)
     = activities_of (Session.id s) db.
Proof.
  intros Hwf Hs Hl.
  assert (Hgen : forall ops db,
            well_formed db -> In s (Db.sessions db) ->
            Db.currentSessionId db <> Some (Session.id s) ->
            In s (Db.sessions (perform_all ops db))
            /\ activities_of (Session.id s) (perform_all ops db)
               = activities_of (Session.id s) db).
  { clear. unfold perform_all.
    induction ops as [|o ops IH]; intros db Hwf Hs Hn; simpl.
    - auto.
    - destruct (step_final db s o Hwf Hs (or_introl Hn)) as (H1 & H2 & H3).
      destruct (IH _ (perform_well_formed db o Hwf) H1 H3) as [H4 H5].
      split; [exact H4 | congruence]. }
  destruct (step_final db s o Hwf Hs (or_intror Hl)) as (H1 & H2 & H3).
  destruct (Hgen ops _ (perform_well_formed db o Hwf) H1 H3) as [H4 H5].
  change (perform_all (o :: ops) db) with (perform_all ops (perform db o)).
  split; [exact H4 | congruence].
Qed.

End Lifecycle.

Section Log.

Lemma insertActivity_appends (activity : ActivityInput.t) (db : Db.t) :
  exists id sessionId,
    Db.activities (Db.insertActivity activity db).2
    = Db.activities db
      ++ [Db.new_row id sessionId activity (Db.CURRENT_TIMESTAMP db)]
    /\ id = (Db.insertActivity activity db).1.
Proof.
  unfold Db.insertActivity, Db.getOrCreateSession.
  destruct (Db.open_for _ db); do 2 eexists; split; reflexivity.
Qed.

(** X27: the activity log is append-only: whatever is tracked, the stored
    activities stay as they are and where they are, and each inserted
    sample adds one row at the end that holds the values of the sample. *)
Theorem activity_log_is_append_only (ops : list operation) (db : Db.t) :
  exists rows,
    Db.activities (perform_all ops db) = Db.activities db ++ rows
    /\ Forall2
         (fun row sample =>
            exists id sessionId created,
              row = Db.new_row id sessionId sample created)
         rows (samples_of ops).
Proof.
  unfold perform_all. revert db.
  induction ops as [|o ops IH]; intros db; cbn [fold_left].
  - exists []. rewrite app_nil_r. split; [reflexivity | constructor].
  - destruct (IH (perform db o)) as (rows & Hrows & Hall).
    destruct o as [activity|]; cbn [perform] in *.
    + destruct (insertActivity_appends activity db) as (id & sid & Hrow & _).
      eexists (_ :: rows). rewrite Hrows, Hrow, <- app_assoc.
      split; [reflexivity|].
      change (samples_of (InsertActivity activity :: ops))
        with (activity :: samples_of ops).
      constructor; [eauto | exact Hall].
    + exists rows. split; [exact Hrows | exact Hall].
Qed.

End Log.

Section Totals.

Lemma sum_record_durations (rows : list Activity.t) :
  fold_right Z.add 0 (map ActivityRecord.duration (map Db.mapToRecord rows))
  = sum_durations rows.
Proof. unfold sum_durations. rewrite List.map_map. reflexivity. Qed.

(** X24: in a consistent database an entry of [getSessionsWithActivities]
    never lists more activities than its [activity_count]; when all
    activities of the session started in the range, the count is the number
    of activities listed and [total_duration] the sum of their durations. *)
Theorem listed_activities_match_totals (startTime endTime : Z) (db : Db.t)
  (sw : SessionWithActivities.t) :
  consistent db ->
  In sw (Db.getSessionsWithActivities startTime endTime db) ->
  Z.of_nat (List.length (SessionWithActivities.activities sw))
    <= SessionWithActivities.activity_count sw
  /\ ((forall a, In a (activities_of (SessionWithActivities.id sw) db) ->
         startTime <= Activity.startTime a <= endTime) ->
      SessionWithActivities.activity_count sw
        = Z.of_nat (List.length (SessionWithActivities.activities sw))
      /\ SessionWithActivities.total_duration sw
         = fold_right Z.add 0
             (map ActivityRecord.duration (SessionWithActivities.activities sw))).
Proof.
  intros Hc Hsw.
  rewrite getSessionsWithActivities_entries in Hsw
    by (apply consistent_session_ids, Hc).
  apply in_map_iff in Hsw as (session & <- & Hs).
  apply sort_desc_In, List.filter_In in Hs as [Hs _].
  destruct (session_totals db Hc session Hs) as [Htotal Hcount].
  pose proof (listed_rows startTime endTime db (Session.id session)) as Hp.
  cbn [entry_of SessionWithActivities.activities SessionWithActivities.id
       SessionWithActivities.activity_count SessionWithActivities.total_duration].
  rewrite List.length_map, (Permutation_length Hp), sum_record_durations,
    (sum_durations_perm _ _ Hp), Hcount, Htotal.
  split.
  - apply inj_le, length_filter_le.
  - intros Hall. rewrite filter_all; [split; reflexivity|].
    intros a Ha. apply in_range_spec, Hall, Ha.
Qed.

End Totals.

(* ===================================================================== *)
(** * The manager under events                                             *)
(* ===================================================================== *)

Section Timers.

Lemma timers_ok_same st st' : same_timers st st' -> timers_ok st -> timers_ok st'.
Proof.
  intros (Ht & Hn & Hb & Hs) [H1 H2 H3 H4].
  split; rewrite ?Ht, ?Hn, ?Hb, ?Hs; assumption.
Qed.

Lemma same_timers_refl st : same_timers st st.
Proof. repeat split. Qed.

Lemma same_timers_trans st1 st2 st3 :
  same_timers st1 st2 -> same_timers st2 st3 -> same_timers st1 st3.
Proof.
  intros (A1 & A2 & A3 & A4) (B1 & B2 & B3 & B4).
  repeat split; congruence.
Qed.

Lemma fireBreakReminder_timers intervalMs clock st :
  same_timers st (Manager.fireBreakReminder intervalMs clock st).
Proof.
  unfold Manager.fireBreakReminder.
  destruct (_ <? _); repeat split.
Qed.

Lemma fireDailySummary_timers clock st :
  same_timers st (Manager.fireDailySummary clock st).2.
Proof.
  unfold Manager.fireDailySummary.
  repeat (match goal with
          | |- context [if ?b then _ else _] => destruct b
          | |- context [match ?x with _ => _ end] => destruct x
          end; try (repeat split; fail)).
Qed.

Lemma checkGoals_timers clock st :
  same_timers st (Manager.checkGoals clock st).2.
Proof.
  destruct (checkGoals_frame clock st) as ([] & Hnext & _).
  split; [assumption|]. split; [exact Hnext|split; assumption].
Qed.

Lemma onPomodoroComplete_timers type durationMs label st :
  same_timers st (Manager.onPomodoroComplete type durationMs label st).
Proof.
  unfold Manager.onPomodoroComplete.
  repeat case_if; repeat split.
Qed.

Lemma NoDup_map_filter {A B} (f : A -> B) (p : A -> bool) (l : list A) :
  List.NoDup (map f l) -> List.NoDup (map f (List.filter p l)).
Proof.
  induction l as [|x l IH]; simpl; intros H; [constructor|].
  inversion H as [|? ? Hnot Hrest]; subst.
  destruct (p x); simpl; [|now apply IH].
  constructor; [|now apply IH].
  intros Hin. apply Hnot. apply in_map_iff in Hin as (y & Hy & Hin).
  apply filter_In in Hin as [Hin _]. rewrite <- Hy. now apply in_map.
Qed.

Lemma clearTimeout_ok h st :
  timers_ok st -> timers_ok (Manager.clearTimeout h st).
Proof.
  intros [H1 H2 H3 H4].
  split; cbn [Manager.clearTimeout Manager.timeouts Manager.next_handle
              Manager.breakTimer Manager.dailySummaryTimer].
  - intros x Hx. apply List.filter_In in Hx as [Hx _]. auto.
  - apply NoDup_map_filter, H2.
  - intros x Hx. apply List.filter_In in Hx as [Hx _]. auto.
  - intros x Hx. apply List.filter_In in Hx as [Hx _]. auto.
Qed.

Lemma clearBreakTimer_ok st :
  timers_ok st ->
  timers_ok (Manager.clearBreakTimer st)
  /\ List.filter is_break_reminder (Manager.timeouts (Manager.clearBreakTimer st))
     = [].
Proof.
  intros Hok. unfold Manager.clearBreakTimer.
  destruct (Manager.breakTimer st) as [h|] eqn:Hb.
  - assert (Hnone : forall x,
              In x (Manager.timeouts (Manager.clearTimeout h st)) ->
              is_break_reminder x = false).
    { intros x Hx. cbn in Hx. apply List.filter_In in Hx as [Hx Hh].
      destruct (is_break_reminder x) eqn:E; [|reflexivity].
      pose proof (break_known st Hok x Hx E) as Hk. rewrite Hb in Hk.
      injection Hk as ->. rewrite Z.eqb_refl in Hh. discriminate. }
    split.
    + destruct (clearTimeout_ok h st Hok) as [H1 H2 H3 H4].
      split; try assumption.
      intros x Hx E. rewrite (Hnone x Hx) in E. discriminate.
    + apply filter_none. exact Hnone.
  - split; [exact Hok|]. apply filter_none. intros x Hx.
    destruct (is_break_reminder x) eqn:E; [|reflexivity].
    pose proof (break_known st Hok x Hx E). congruence.
Qed.

Lemma clearDailySummaryTimer_ok st :
  timers_ok st ->
  timers_ok (Manager.clearDailySummaryTimer st)
  /\ List.filter is_daily_summary
       (Manager.timeouts (Manager.clearDailySummaryTimer st))
     = [].
Proof.
  intros Hok. unfold Manager.clearDailySummaryTimer.
  destruct (Manager.dailySummaryTimer st) as [h|] eqn:Hb.
  - assert (Hnone : forall x,
              In x (Manager.timeouts (Manager.clearTimeout h st)) ->
              is_daily_summary x = false).
    { intros x Hx. cbn in Hx. apply List.filter_In in Hx as [Hx Hh].
      destruct (is_daily_summary x) eqn:E; [|reflexivity].
      pose proof (summary_known st Hok x Hx E) as Hk. rewrite Hb in Hk.
      injection Hk as ->. rewrite Z.eqb_refl in Hh. discriminate. }
    split.
    + destruct (clearTimeout_ok h st Hok) as [H1 H2 H3 H4].
      split; try assumption.
      intros x Hx E. rewrite (Hnone x Hx) in E. discriminate.
    + apply filter_none. exact Hnone.
  - split; [exact Hok|]. apply filter_none. intros x Hx.
    destruct (is_daily_summary x) eqn:E; [|reflexivity].
    pose proof (summary_known st Hok x Hx E). congruence.
Qed.

(** Arming a timeout of one kind when none of that kind is pending. *)
Lemma setTimeout_break_ok intervalMs ms st :
  timers_ok st ->
  List.filter is_break_reminder (Manager.timeouts st) = [] ->
  timers_ok
    (Manager.set_breakTimer
       (Some (Manager.setTimeout (Manager.BreakReminder intervalMs) ms st).1)
       (Manager.setTimeout (Manager.BreakReminder intervalMs) ms st).2).
Proof.
  intros [H1 H2 H3 H4] Hnone.
  split; cbn.
  - intros x Hx. apply in_app_iff in Hx as [Hx|[<-|[]]].
    + specialize (H1 x Hx). lia.
    + cbn. lia.
  - rewrite map_app. apply List.NoDup_app; [exact H2 | |].
    + constructor; [intros [] | constructor].
    + intros h Hh [<-|[]]. apply in_map_iff in Hh as (x & Hx & Hin).
      specialize (H1 x Hin). cbn in Hx. lia.
  - intros x Hx E. apply in_app_iff in Hx as [Hx|[<-|[]]]; [|reflexivity].
    exfalso. assert (Hf : In x (List.filter is_break_reminder (Manager.timeouts st)))
      by (apply List.filter_In; auto).
    rewrite Hnone in Hf. exact Hf.
  - intros x Hx E. apply in_app_iff in Hx as [Hx|[<-|[]]]; [auto | discriminate].
Qed.

Lemma setTimeout_summary_ok ms st :
  timers_ok st ->
  List.filter is_daily_summary (Manager.timeouts st) = [] ->
  timers_ok
    (Manager.set_dailySummaryTimer
       (Some (Manager.setTimeout Manager.DailySummary ms st).1)
       (Manager.setTimeout Manager.DailySummary ms st).2).
Proof.
  intros [H1 H2 H3 H4] Hnone.
  split; cbn.
  - intros x Hx. apply in_app_iff in Hx as [Hx|[<-|[]]].
    + specialize (H1 x Hx). lia.
    + cbn. lia.
  - rewrite map_app. apply List.NoDup_app; [exact H2 | |].
    + constructor; [intros [] | constructor].
    + intros h Hh [<-|[]]. apply in_map_iff in Hh as (x & Hx & Hin).
      specialize (H1 x Hin). cbn in Hx. lia.
  - intros x Hx E. apply in_app_iff in Hx as [Hx|[<-|[]]]; [auto | discriminate].
  - intros x Hx E. apply in_app_iff in Hx as [Hx|[<-|[]]]; [|reflexivity].
    exfalso. assert (Hf : In x (List.filter is_daily_summary (Manager.timeouts st)))
      by (apply List.filter_In; auto).
    rewrite Hnone in Hf. exact Hf.
Qed.

Lemma resetBreakTimer_ok st : timers_ok st -> timers_ok (Manager.resetBreakTimer st).
Proof.
  intros Hok. destruct (clearBreakTimer_ok st Hok) as [Hok1 Hnone].
  unfold Manager.resetBreakTimer.
  apply (setTimeout_break_ok _ _ _ Hok1 Hnone).
Qed.

Lemma scheduleDailySummary_ok clock st :
  timers_ok st -> timers_ok (Manager.scheduleDailySummary clock st).
Proof.
  intros Hok. destruct (clearDailySummaryTimer_ok st Hok) as [Hok1 Hnone].
  unfold Manager.scheduleDailySummary. cbv zeta.
  match goal with
  | |- context [Manager.setTimeout Manager.DailySummary ?ms ?st2] =>
      assert (Hsame : same_timers (Manager.clearDailySummaryTimer st) st2)
        by (case_if; repeat split);
      apply (setTimeout_summary_ok ms st2)
  end.
  - apply (timers_ok_same _ _ Hsame Hok1).
  - destruct Hsame as [-> _]. exact Hnone.
Qed.

Lemma set_db_timers d st : same_timers st (Manager.set_db d st).
Proof. repeat split. Qed.

Lemma run_timeout_ok h clock st : timers_ok st -> timers_ok (run_timeout h clock st).
Proof.
  intros Hok. unfold run_timeout.
  destruct (List.find _ _) as [x|]; [|exact Hok].
  pose proof (clearTimeout_ok h st Hok) as Hok1. cbv zeta.
  destruct (Manager.action x).
  - apply (timers_ok_same _ _ (fireBreakReminder_timers _ _ _) Hok1).
  - unfold Manager.dailySummaryTask.
    pose proof (fireDailySummary_timers clock (Manager.clearTimeout h st)) as Hs.
    destruct (Manager.fireDailySummary clock (Manager.clearTimeout h st))
      as [[] st1]; cbn [snd] in *.
    + apply scheduleDailySummary_ok, (timers_ok_same _ _ Hs Hok1).
    + apply (timers_ok_same _ _ Hs Hok1).
Qed.

Lemma handle_event_ok st e : timers_ok st -> timers_ok (handle_event st e).
Proof.
  intros Hok. destruct e; cbn [handle_event].
  - unfold Manager.onActivityStarted. case_if; [exact Hok|].
    apply resetBreakTimer_ok, Hok.
  - apply clearBreakTimer_ok, Hok.
  - apply clearBreakTimer_ok, Hok.
  - apply (timers_ok_same _ _ (checkGoals_timers _ _) Hok).
  - apply (timers_ok_same _ _ (onPomodoroComplete_timers _ _ _ _) Hok).
  - apply clearDailySummaryTimer_ok, clearBreakTimer_ok, Hok.
  - apply run_timeout_ok, Hok.
  - exact (timers_ok_same _ _ (set_db_timers _ _) Hok).
  - exact (timers_ok_same _ _ (set_db_timers _ _) Hok).
Qed.

Lemma run_ok events : forall st, timers_ok st -> timers_ok (run events st).
Proof.
  unfold run. induction events as [|e events IH]; intros st Hok; simpl.
  - exact Hok.
  - apply IH, handle_event_ok, Hok.
Qed.

Lemma constructor_ok d clock : timers_ok (Manager.constructor d clock).
Proof.
  apply scheduleDailySummary_ok. split; cbn; try (intros x []).
  constructor.
Qed.

Lemma at_most_one (p : Manager.timeout -> bool) (l : list Manager.timeout) (h : Z) :
  List.NoDup (map Manager.handle l) ->
  (forall x, In x l -> p x = true -> Manager.handle x = h) ->
  (List.length (List.filter p l) <= 1)%nat.
Proof.
  intros Hn Hh.
  destruct (List.filter p l) as [|x [|y rest]] eqn:E; simpl; try lia.
  exfalso.
  assert (Hx : In x (List.filter p l)) by (rewrite E; left; reflexivity).
  assert (Hy : In y (List.filter p l)) by (rewrite E; right; left; reflexivity).
  apply List.filter_In in Hx as [Hx Hpx]. apply List.filter_In in Hy as [Hy Hpy].
  assert (Hnf : List.NoDup (map Manager.handle (List.filter p l)))
    by (apply NoDup_map_filter, Hn).
  rewrite E in Hnf. simpl in Hnf.
  inversion Hnf as [|? ? Hnot _]; subst. apply Hnot. left.
  rewrite (Hh x Hx Hpx), (Hh y Hy Hpy). reflexivity.
Qed.

(** X11: whatever happens to a manager after its construction, at most one
    break reminder and at most one daily summary are pending, and every
    pending timeout is the one whose handle the manager holds. *)
Theorem one_timer_of_each_kind (d : Db.t) (clock : Clock.t) (events : list event) :
  let st := run events (Manager.constructor d clock) in
  (List.length (List.filter is_break_reminder (Manager.timeouts st)) <= 1)%nat
  /\ (List.length (List.filter is_daily_summary (Manager.timeouts st)) <= 1)%nat
  /\ (forall x, In x (Manager.timeouts st) ->
        Manager.breakTimer st = Some (Manager.handle x)
        \/ Manager.dailySummaryTimer st = Some (Manager.handle x)).
Proof.
  intros st.
  assert (Hok : timers_ok st) by (apply run_ok, constructor_ok).
  destruct Hok as [H1 H2 H3 H4].
  split; [|split].
  - destruct (Manager.breakTimer st) as [h|] eqn:Hb.
    + apply (at_most_one _ _ h H2). intros x Hx Hp.
      specialize (H3 x Hx Hp). congruence.
    + rewrite filter_none; [simpl; lia|]. intros x Hx.
      destruct (is_break_reminder x) eqn:E; [|reflexivity].
      specialize (H3 x Hx E). discriminate.
  - destruct (Manager.dailySummaryTimer st) as [h|] eqn:Hb.
    + apply (at_most_one _ _ h H2). intros x Hx Hp.
      specialize (H4 x Hx Hp). congruence.
    + rewrite filter_none; [simpl; lia|]. intros x Hx.
      destruct (is_daily_summary x) eqn:E; [|reflexivity].
      specialize (H4 x Hx E). discriminate.
  - intros x Hx. destruct (is_break_reminder x) eqn:E.
    + left. auto.
    + right. apply H4; [exact Hx|]. unfold is_break_reminder in E.
      unfold is_daily_summary. destruct (Manager.action x); congruence.
Qed.

(** X12: in every state that a manager reaches, [onIdle] and [onPaused]
    leave no break reminder pending, and [shutdown] leaves nothing
    pending. *)
Theorem idle_and_shutdown_cancel (d : Db.t) (clock : Clock.t) (events : list event) :
  let st := run events (Manager.constructor d clock) in
  List.filter is_break_reminder (Manager.timeouts (Manager.onIdle st)) = []
  /\ List.filter is_break_reminder (Manager.timeouts (Manager.onPaused st)) = []
  /\ Manager.timeouts (Manager.shutdown st) = [].
Proof.
  intros st.
  assert (Hok : timers_ok st) by (apply run_ok, constructor_ok).
  destruct (clearBreakTimer_ok st Hok) as [Hok1 Hb].
  split; [exact Hb|]. split; [exact Hb|].
  unfold Manager.shutdown.
  destruct (clearDailySummaryTimer_ok _ Hok1) as [Hok2 Hs].
  assert (Hsub : forall y,
            In y (Manager.timeouts
                    (Manager.clearDailySummaryTimer (Manager.clearBreakTimer st))) ->
            In y (Manager.timeouts (Manager.clearBreakTimer st))).
  { intros y. unfold Manager.clearDailySummaryTimer.
    destruct (Manager.dailySummaryTimer (Manager.clearBreakTimer st)); [|auto].
    cbn. intros Hy. apply List.filter_In in Hy. tauto. }
  assert (Hno : forall x,
            ~ In x (Manager.timeouts
                      (Manager.clearDailySummaryTimer (Manager.clearBreakTimer st)))).
  { intros x Hx. destruct (is_daily_summary x) eqn:Ex.
    - assert (Hf : In x (List.filter is_daily_summary
                           (Manager.timeouts
                              (Manager.clearDailySummaryTimer
                                 (Manager.clearBreakTimer st)))))
        by (apply List.filter_In; auto).
      rewrite Hs in Hf. exact Hf.
    - assert (Hf : In x (List.filter is_break_reminder
                           (Manager.timeouts (Manager.clearBreakTimer st)))).
      { apply List.filter_In. split; [apply Hsub, Hx|].
        unfold is_daily_summary in Ex. unfold is_break_reminder.
        destruct (Manager.action x); congruence. }
      rewrite Hb in Hf. exact Hf. }
  destruct (Manager.timeouts (Manager.clearDailySummaryTimer
                                (Manager.clearBreakTimer st)))
    as [|x l]; [reflexivity|].
  exfalso. apply (Hno x). left. reflexivity.
Qed.

End Timers.

Section Countdown.

(** X26: in every state that a manager reaches, [onActivityStarted] with
    the break reminders switched on leaves exactly one break reminder
    pending: a new one, armed with the full interval. *)
Theorem activity_restarts_the_countdown (d : Db.t) (clock : Clock.t)
  (events : list event) :
  let st := run events (Manager.constructor d clock) in
  Manager.isBreakRemindersEnabled st = true ->
  exists h,
    List.filter is_break_reminder (Manager.timeouts (Manager.onActivityStarted st))
    = [Manager.mkTimeout h (Manager.getBreakIntervalMs st)
         (Manager.BreakReminder (Manager.getBreakIntervalMs st))]
    /\ Manager.breakTimer (Manager.onActivityStarted st) = Some h.
Proof.
  intros st Hon.
  assert (Hok : timers_ok st) by (apply run_ok, constructor_ok).
  destruct (clearBreakTimer_ok st Hok) as [_ Hnone].
  exists (Manager.next_handle st).
  unfold Manager.onActivityStarted. rewrite Hon. cbn [negb].
  unfold Manager.resetBreakTimer.
  cbn [Manager.timeouts Manager.breakTimer Manager.set_breakTimer
       Manager.setTimeout].
  rewrite List.filter_app, Hnone.
  assert (Hsame : Manager.next_handle (Manager.clearBreakTimer st)
                  = Manager.next_handle st
                  /\ Manager.getBreakIntervalMs (Manager.clearBreakTimer st)
                     = Manager.getBreakIntervalMs st).
  { unfold Manager.clearBreakTimer. destruct (Manager.breakTimer st); auto. }
  destruct Hsame as [-> ->]. split; reflexivity.
Qed.

End Countdown.

Section Intervals.









End Intervals.

Section Summaries.

Lemma same_summary_refl st : same_summary st st.
Proof. repeat split. Qed.

Lemma same_summary_trans st1 st2 st3 :
  same_summary st1 st2 -> same_summary st2 st3 -> same_summary st1 st3.
Proof.
  intros (A1 & A2 & A3) (B1 & B2 & B3). repeat split; congruence.
Qed.

Lemma summaries_app l1 l2 : summaries (l1 ++ l2) = summaries l1 ++ summaries l2.
Proof. apply List.filter_app. Qed.

Lemma summaries_goals (notes : list Notification.t) :
  goal_notes notes -> summaries notes = [].
Proof.
  induction 1 as [|n notes Hn _ IH]; [reflexivity|].
  unfold summaries. cbn [List.filter]. rewrite Hn. exact IH.
Qed.

Lemma clearBreakTimer_summary st : same_summary st (Manager.clearBreakTimer st).
Proof.
  unfold Manager.clearBreakTimer. destruct (Manager.breakTimer st); repeat split.
Qed.

Lemma clearDailySummaryTimer_summary st :
  same_summary st (Manager.clearDailySummaryTimer st).
Proof.
  unfold Manager.clearDailySummaryTimer.
  destruct (Manager.dailySummaryTimer st); repeat split.
Qed.

Lemma onActivityStarted_summary st : same_summary st (Manager.onActivityStarted st).
Proof.
  unfold Manager.onActivityStarted. case_if; [apply same_summary_refl|].
  unfold Manager.resetBreakTimer.
  apply (same_summary_trans _ _ _ (clearBreakTimer_summary st)).
  repeat split.
Qed.

Lemma fireBreakReminder_summary intervalMs clock st :
  same_summary st (Manager.fireBreakReminder intervalMs clock st).
Proof.
  unfold Manager.fireBreakReminder. case_if; [apply same_summary_refl|].
  split; [|split; reflexivity].
  cbn [Manager.show Manager.shown Manager.set_lastBreakNotification].
  rewrite summaries_app. apply app_nil_r.
Qed.

Lemma onPomodoroComplete_summary type durationMs label st :
  same_summary st (Manager.onPomodoroComplete type durationMs label st).
Proof.
  unfold Manager.onPomodoroComplete.
  case_if; [apply same_summary_refl|].
  case_if; (split; [|split; reflexivity]);
    cbn [Manager.show Manager.shown]; rewrite summaries_app; apply app_nil_r.
Qed.

Lemma checkGoals_summary clock st :
  same_summary st (Manager.checkGoals clock st).2.
Proof.
  destruct (checkGoals_frame clock st) as ([] & _ & notes & Hshown & Hnotes).
  split; [|split; assumption].
  rewrite Hshown, summaries_app, (summaries_goals notes Hnotes).
  apply app_nil_r.
Qed.

Lemma scheduleDailySummary_summary clock st :
  summaries (Manager.shown (Manager.scheduleDailySummary clock st))
  = summaries (Manager.shown st)
  /\ (summary_done (Clock.toDateString clock) st ->
      summary_done (Clock.toDateString clock)
        (Manager.scheduleDailySummary clock st)).
Proof.
  unfold Manager.scheduleDailySummary. cbv zeta.
  destruct (clearDailySummaryTimer_summary st) as (Hs & Hf & Hd).
  split.
  - repeat case_if;
      cbn [Manager.shown Manager.set_dailySummaryTimer Manager.setTimeout
           Manager.set_summary_flags];
      exact Hs.
  - intros [Hflag Hdate]. unfold summary_done.
    rewrite Hd, Hdate, bool_decide_true by reflexivity.
    rewrite andb_false_r.
    cbn [Manager.dailySummaryShownToday Manager.lastSummaryDate
         Manager.set_dailySummaryTimer Manager.setTimeout negb].
    rewrite Hf, Hd. auto.
Qed.

(** The outcomes of [fireDailySummary]. *)
Lemma fireDailySummary_summary clock st :
  (summary_done (Clock.toDateString clock) st ->
   Manager.fireDailySummary clock st = (Manager.Returns, st))
  /\ ((Manager.fireDailySummary clock st).2 = st
      \/ (summary_done (Clock.toDateString clock) (Manager.fireDailySummary clock st).2
          /\ (Manager.shown (Manager.fireDailySummary clock st).2 = Manager.shown st
              \/ exists body,
                   Manager.shown (Manager.fireDailySummary clock st).2
                   = Manager.shown st ++ [Notification.mk "Daily Summary" body]))).
Proof.
  unfold Manager.fireDailySummary. cbv zeta. split.
  - intros [Hflag Hdate]. rewrite Hflag, Hdate, bool_decide_true by reflexivity.
    case_if; reflexivity.
  - destruct (negb (Manager.isDailySummaryEnabled st)); [left; reflexivity|].
    destruct (_ && _); [left; reflexivity|].
    right. destruct (_ <? 60000); [split; [split; reflexivity | left; reflexivity]|].
    destruct (Manager.topCategory _) as [c|].
    + destruct (Manager.category_name c) as [[]|];
        first [ split; [split; reflexivity | left; reflexivity]
              | split; [split; reflexivity|]; right; eexists; reflexivity ].
    + split; [split; reflexivity|]. right. eexists. reflexivity.
Qed.

Lemma clearTimeout_summary h st : same_summary st (Manager.clearTimeout h st).
Proof. repeat split. Qed.

Lemma summary_done_same date st st' :
  same_summary st st' -> summary_done date st -> summary_done date st'.
Proof. intros (_ & Hf & Hd) [H1 H2]. split; congruence. Qed.

(** One event: the daily summaries shown stay as they are, or one is
    added and recorded for the date. *)
Lemma handle_event_summary date e st :
  on_date date e ->
  (summary_done date st ->
   summaries (Manager.shown (handle_event st e)) = summaries (Manager.shown st)
   /\ summary_done date (handle_event st e))
  /\ (summaries (Manager.shown (handle_event st e)) = summaries (Manager.shown st)
      \/ (summary_done date (handle_event st e)
          /\ List.length (summaries (Manager.shown (handle_event st e)))
             = S (List.length (summaries (Manager.shown st))))).
Proof.
  intros Hdate.
  assert (Hsame : forall st', same_summary st st' ->
            (summary_done date st ->
             summaries (Manager.shown st') = summaries (Manager.shown st)
             /\ summary_done date st')
            /\ (summaries (Manager.shown st') = summaries (Manager.shown st)
                \/ (summary_done date st'
                    /\ List.length (summaries (Manager.shown st'))
                       = S (List.length (summaries (Manager.shown st)))))).
  { intros st' Hs. split.
    - intros Hd. split; [apply Hs | apply (summary_done_same _ _ _ Hs Hd)].
    - left. apply Hs. }
  destruct e; cbn [handle_event]; cbn [on_date] in Hdate.
  - apply Hsame, onActivityStarted_summary.
  - apply Hsame, clearBreakTimer_summary.
  - apply Hsame, clearBreakTimer_summary.
  - apply Hsame, checkGoals_summary.
  - apply Hsame, onPomodoroComplete_summary.
  - apply Hsame. unfold Manager.shutdown.
    eapply same_summary_trans;
      [apply clearBreakTimer_summary | apply clearDailySummaryTimer_summary].
  - unfold run_timeout.
    destruct (List.find _ _) as [x|]; [|apply Hsame, same_summary_refl].
    cbv zeta. destruct (Manager.action x).
    + apply Hsame.
      eapply same_summary_trans;
        [apply (clearTimeout_summary h) | apply fireBreakReminder_summary].
    + set (st1 := Manager.clearTimeout h st).
      assert (H1 : same_summary st st1) by apply clearTimeout_summary.
      destruct (fireDailySummary_summary clock st1) as [Hdone Hcases].
      destruct (scheduleDailySummary_summary clock
                  (Manager.fireDailySummary clock st1).2) as [Hsch1 Hsch2].
      rewrite Hdate in Hdone, Hcases, Hsch2.
      assert (Htask :
        (Manager.dailySummaryTask clock st1).2
        = (Manager.fireDailySummary clock st1).2
        \/ (Manager.dailySummaryTask clock st1).2
           = Manager.scheduleDailySummary clock
               (Manager.fireDailySummary clock st1).2).
      { unfold Manager.dailySummaryTask.
        destruct (Manager.fireDailySummary clock st1) as [[] st2]; cbn; auto. }
      assert (Hshown :
        summaries (Manager.shown (Manager.dailySummaryTask clock st1).2)
        = summaries (Manager.shown (Manager.fireDailySummary clock st1).2)).
      { destruct Htask as [->| ->]; [reflexivity | exact Hsch1]. }
      assert (Hkeep :
        summary_done date (Manager.fireDailySummary clock st1).2 ->
        summary_done date (Manager.dailySummaryTask clock st1).2).
      { destruct Htask as [->| ->]; [auto | exact Hsch2]. }
      split.
      * intros Hd. pose proof (summary_done_same _ _ _ H1 Hd) as Hd1.
        rewrite Hshown. rewrite (Hdone Hd1) in Hkeep |- *. cbn [snd] in *.
        split; [apply H1 | apply Hkeep, Hd1].
      * rewrite Hshown.
        destruct Hcases as [->|[Hd [->|[body ->]]]].
        -- left. apply H1.
        -- left. apply H1.
        -- right. split; [apply Hkeep, Hd|].
           rewrite summaries_app, List.length_app.
           destruct H1 as [-> _]. cbn. lia.
  - apply Hsame. repeat split.
  - apply Hsame. repeat split.
Qed.

(** X14: while the local date stays the same, the manager shows at most one
    daily summary, whatever the events and however often the daily timer
    becomes due. *)
Theorem one_daily_summary_per_date (date : string) (events : list event)
  (st : Manager.t) :
  Forall (on_date date) events ->
  (List.length (summaries (Manager.shown (run events st)))
   <= List.length (summaries (Manager.shown st)) + 1)%nat.
Proof.
  intros Hall.
  assert (Hlocked : forall events st,
            Forall (on_date date) events -> summary_done date st ->
            summaries (Manager.shown (run events st))
            = summaries (Manager.shown st)).
  { clear. unfold run. induction events as [|e events IH]; intros st Hall Hd.
    - reflexivity.
    - inversion Hall as [|? ? He Hrest]; subst. cbn [fold_left].
      destruct (handle_event_summary date e st He) as [Hl _].
      destruct (Hl Hd) as [Hs Hd']. rewrite (IH _ Hrest Hd'). exact Hs. }
  revert st. unfold run in *.
  induction events as [|e events IH]; intros st; cbn [fold_left].
  - lia.
  - inversion Hall as [|? ? He Hrest]; subst.
    destruct (handle_event_summary date e st He) as [_ [Hs|[Hd Hlen]]].
    + specialize (IH Hrest (handle_event st e)). rewrite Hs in IH. exact IH.
    + rewrite (Hlocked events _ Hrest Hd), Hlen. lia.
Qed.

End Summaries.

Section Switch.

Lemma silent_step_refl st : silent_step st st.
Proof. repeat split. auto. Qed.

Lemma silent_step_trans st1 st2 st3 :
  silent_step st1 st2 -> silent_step st2 st3 -> silent_step st1 st3.
Proof.
  intros (A1 & A2 & A3) (B1 & B2 & B3). repeat split; try congruence. auto.
Qed.

Lemma filter_filter_nil {A} (p q : A -> bool) (l : list A) :
  List.filter p l = [] -> List.filter p (List.filter q l) = [].
Proof.
  intros Hp. apply filter_none. intros x Hx.
  apply List.filter_In in Hx as [Hx _].
  destruct (p x) eqn:E; [|reflexivity].
  assert (Hf : In x (List.filter p l)) by (apply List.filter_In; auto).
  rewrite Hp in Hf. destruct Hf.
Qed.

Lemma clearTimeout_silent h st : silent_step st (Manager.clearTimeout h st).
Proof. repeat split. cbn. apply filter_filter_nil. Qed.

Lemma clearBreakTimer_silent st : silent_step st (Manager.clearBreakTimer st).
Proof.
  unfold Manager.clearBreakTimer.
  destruct (Manager.breakTimer st) as [h|]; [|apply silent_step_refl].
  repeat split. cbn. apply filter_filter_nil.
Qed.

Lemma clearDailySummaryTimer_silent st :
  silent_step st (Manager.clearDailySummaryTimer st).
Proof.
  unfold Manager.clearDailySummaryTimer.
  destruct (Manager.dailySummaryTimer st) as [h|]; [|apply silent_step_refl].
  repeat split. cbn. apply filter_filter_nil.
Qed.

Lemma scheduleDailySummary_silent clock st :
  silent_step st (Manager.scheduleDailySummary clock st).
Proof.
  apply (silent_step_trans _ _ _ (clearDailySummaryTimer_silent st)).
  unfold Manager.scheduleDailySummary. cbv zeta.
  repeat case_if; repeat split;
    cbn [Manager.timeouts Manager.set_dailySummaryTimer Manager.setTimeout
         Manager.set_summary_flags];
    intros Hn; rewrite List.filter_app, Hn; reflexivity.
Qed.

Lemma perform_settings db o : Db.settings (perform db o) = Db.settings db.
Proof.
  destruct o as [activity|]; [|reflexivity].
  cbn [perform]. unfold Db.insertActivity, Db.getOrCreateSession.
  destruct (Db.open_for _ db); reflexivity.
Qed.

Lemma handle_event_silent st e :
  Manager.isEnabled st = false ->
  List.filter is_break_reminder (Manager.timeouts st) = [] ->
  keeps_switch e ->
  silent_step st (handle_event st e).
Proof.
  intros Hoff Hnone Hkeep. destruct e; cbn [handle_event].
  - unfold Manager.onActivityStarted, Manager.isBreakRemindersEnabled.
    rewrite Hoff. apply silent_step_refl.
  - apply clearBreakTimer_silent.
  - apply clearBreakTimer_silent.
  - unfold Manager.checkGoals. rewrite Hoff. apply silent_step_refl.
  - unfold Manager.onPomodoroComplete. rewrite Hoff. apply silent_step_refl.
  - unfold Manager.shutdown.
    eapply silent_step_trans;
      [apply clearBreakTimer_silent | apply clearDailySummaryTimer_silent].
  - unfold run_timeout.
    destruct (List.find _ _) as [x|] eqn:Hfind; [|apply silent_step_refl].
    apply List.find_some in Hfind as [Hx _]. cbv zeta.
    destruct (Manager.action x) eqn:Hact.
    + exfalso.
      assert (Hf : In x (List.filter is_break_reminder (Manager.timeouts st))).
      { apply List.filter_In. split; [exact Hx|].
        unfold is_break_reminder. rewrite Hact. reflexivity. }
      rewrite Hnone in Hf. exact Hf.
    + apply (silent_step_trans _ _ _ (clearTimeout_silent h st)).
      unfold Manager.dailySummaryTask, Manager.fireDailySummary,
        Manager.isDailySummaryEnabled.
      change (Manager.isEnabled (Manager.clearTimeout h st))
        with (Manager.isEnabled st).
      rewrite Hoff. cbn [negb snd]. apply scheduleDailySummary_silent.
  - repeat split; [|auto].
    unfold Manager.isEnabled, Db.getSetting. cbn [Manager.db Manager.set_db].
    rewrite perform_settings. reflexivity.
  - repeat split; [|auto].
    unfold Manager.isEnabled, Db.getSetting, Db.setSetting.
    cbn [Manager.db Manager.set_db Db.settings].
    cbn in Hkeep. rewrite lookup_insert_ne by exact Hkeep. reflexivity.
Qed.

(** X15: with [notifications_enabled] set to [false] and no break reminder
    pending, nothing is shown, whatever happens, as long as the switch stays
    as it is. *)
Theorem notifications_off_is_silent (events : list event) (st : Manager.t) :
  Manager.isEnabled st = false ->
  List.filter is_break_reminder (Manager.timeouts st) = [] ->
  Forall keeps_switch events ->
  Manager.shown (run events st) = Manager.shown st.
Proof.
  unfold run. revert st.
  induction events as [|e events IH]; intros st Hoff Hnone Hall; cbn [fold_left].
  - reflexivity.
  - inversion Hall as [|? ? He Hrest]; subst.
    destruct (handle_event_silent st e Hoff Hnone He) as (H1 & H2 & H3).
    rewrite IH; [exact H2 | congruence | auto | exact Hrest].
Qed.

End Switch.

(* ===================================================================== *)
(** * Settings, ledger and texts                                           *)
(* ===================================================================== *)

Section Numerals.

Lemma read_digits_uint (d : Decimal.uint) :
  forall acc : option Z,
  read_digits (NilEmpty.string_of_uint d) acc
  = match d with
    | Decimal.Nil => acc
    | _ => Some (uint_value d (default 0 acc))
    end.
Proof.
  induction d; intros acc; cbn [NilEmpty.string_of_uint read_digits];
    try reflexivity;
    (change (digit_value _) with (Some 0) || change (digit_value _) with (Some 1)
     || change (digit_value _) with (Some 2) || change (digit_value _) with (Some 3)
     || change (digit_value _) with (Some 4) || change (digit_value _) with (Some 5)
     || change (digit_value _) with (Some 6) || change (digit_value _) with (Some 7)
     || change (digit_value _) with (Some 8) || change (digit_value _) with (Some 9));
    cbv iota; rewrite IHd; destruct d; reflexivity.
Qed.

Lemma uint_value_acc (d : Decimal.uint) :
  forall acc : positive,
  uint_value d (Z.pos acc) = Z.pos (Pos.of_uint_acc d acc).
Proof.
  induction d; intros acc; cbn [uint_value Pos.of_uint_acc];
    try reflexivity;
    rewrite <- IHd; f_equal; lia.
Qed.

Lemma uint_value_of_uint (d : Decimal.uint) :
  uint_value d 0 = Z.of_N (Pos.of_uint d).
Proof.
  induction d; cbn [uint_value Pos.of_uint]; try reflexivity;
    try exact IHd;
    change (10 * 0 + ?k) with k; rewrite uint_value_acc; reflexivity.
Qed.

Lemma uint_value_to_uint (p : positive) : uint_value (Pos.to_uint p) 0 = Z.pos p.
Proof.
  rewrite uint_value_of_uint, DecimalPos.Unsigned.of_to. reflexivity.
Qed.

Lemma skip_white_uint (d : Decimal.uint) :
  skip_white (NilZero.string_of_uint d) = NilZero.string_of_uint d.
Proof.
  destruct d; try reflexivity;
    cbn [NilZero.string_of_uint NilEmpty.string_of_uint];
    destruct (NilEmpty.string_of_uint d) as [|c2 [|c3 s3]]; reflexivity.
Qed.

Lemma parseInt_uint (d : Decimal.uint) :
  d <> Decimal.Nil ->
  parseInt (NilZero.string_of_uint d) = Some (uint_value d 0).
Proof.
  intros Hd. unfold parseInt. rewrite skip_white_uint.
  pose proof (read_digits_uint d None) as Hr.
  destruct d; try contradiction;
    cbn [NilZero.string_of_uint NilEmpty.string_of_uint] in *; exact Hr.
Qed.

Lemma parseInt_string_of_Z (n : Z) : parseInt (string_of_Z n) = Some n.
Proof.
  unfold string_of_Z. destruct n as [|p|p]; cbn [Z.to_int NilZero.string_of_int].
  - reflexivity.
  - rewrite parseInt_uint by apply DecimalPos.Unsigned.to_uint_nonnil.
    rewrite uint_value_to_uint. reflexivity.
  - unfold parseInt.
    assert (Hs : skip_white (String "-" (NilZero.string_of_uint (Pos.to_uint p)))
                 = String "-" (NilZero.string_of_uint (Pos.to_uint p))).
    { destruct (NilZero.string_of_uint (Pos.to_uint p)) as [|c2 [|c3 s3]];
        reflexivity. }
    rewrite Hs.
    pose proof (read_digits_uint (Pos.to_uint p) None) as Hr.
    pose proof (DecimalPos.Unsigned.to_uint_nonnil p) as Hn.
    pose proof (uint_value_to_uint p) as Hv.
    destruct (Pos.to_uint p); try contradiction;
      cbn [NilZero.string_of_uint NilEmpty.string_of_uint] in *;
      rewrite Hr; cbn [default]; rewrite Hv; reflexivity.
Qed.

Lemma truthy_string_of_Z (n : Z) : truthy_string (Some (string_of_Z n)) = true.
Proof.
  unfold string_of_Z.
  destruct n as [|p|p]; cbn [Z.to_int NilZero.string_of_int]; try reflexivity.
  pose proof (DecimalPos.Unsigned.to_uint_nonnil p) as Hn.
  destruct (Pos.to_uint p); try contradiction; reflexivity.
Qed.

(** X16: a whole number [n] with [|n| * 60000 <= 2^53] (where numbers are
    exact) that is stored as its decimal text is read back by [parseInt];
    so [getBreakIntervalMs] returns the stored minutes (60 for a number
    below 1) times 60,000, and [getDailySummaryHour] the stored hour (18
    for a number outside 0..23). *)
Theorem stored_numbers_are_read_back (st : Manager.t) (n : Z) :
  Z.abs n * 60000 <= 2 ^ 53 ->
  parseInt (string_of_Z n) = Some n
  /\ Manager.getBreakIntervalMs (with_number "break_interval_minutes" n st)
     = (if n <? 1 then 60 else n) * 60000
  /\ Manager.getDailySummaryHour (with_number "daily_summary_hour" n st)
     = (if (n <? 0) || (23 <? n) then 18 else n).
Proof.
  intros _. split; [apply parseInt_string_of_Z|]. split.
  - unfold Manager.getBreakIntervalMs, with_number, Db.getSetting, Db.setSetting.
    cbn [Manager.db Manager.set_db Db.settings]. rewrite lookup_insert_eq.
    cbv zeta. rewrite truthy_string_of_Z.
    change (default EmptyString (Some (string_of_Z n))) with (string_of_Z n).
    rewrite parseInt_string_of_Z. reflexivity.
  - unfold Manager.getDailySummaryHour, with_number, Db.getSetting, Db.setSetting.
    cbn [Manager.db Manager.set_db Db.settings]. rewrite lookup_insert_eq.
    cbv zeta. rewrite truthy_string_of_Z.
    change (default EmptyString (Some (string_of_Z n))) with (string_of_Z n).
    rewrite parseInt_string_of_Z. reflexivity.
Qed.

End Numerals.

Section Ledger.

(** X17: [markGoalNotified] adds the category to what
    [getNotifiedGoalsToday] returns on the same date and keeps the rest, for
    every category name (quotes, backslashes and control characters
    included); no name is listed twice, and marking again changes nothing. *)
Theorem ledger_remembers (clock : Clock.t) (st : Manager.t) (name : string) :
  let st' := Manager.markGoalNotified name clock st in
  (forall x,
     In x (Manager.getNotifiedGoalsToday clock st') <->
     x = name \/ In x (Manager.getNotifiedGoalsToday clock st))
  /\ List.NoDup (Manager.getNotifiedGoalsToday clock st')
  /\ Manager.getNotifiedGoalsToday clock (Manager.markGoalNotified name clock st')
     = Manager.getNotifiedGoalsToday clock st'.
Proof.
  intros st'. subst st'. split; [|split].
  - intros x. rewrite getNotifiedGoalsToday_mark. apply set_add_In.
  - apply getNotifiedGoalsToday_NoDup.
  - rewrite !getNotifiedGoalsToday_mark.
    unfold Manager.set_add at 1.
    replace (existsb (String.eqb name)
               (Manager.set_add name (Manager.getNotifiedGoalsToday clock st)))
      with true; [reflexivity|].
    symmetry. apply existsb_eqb_In, set_add_In. left. reflexivity.
Qed.

(** X18: a ledger written on another local date counts as empty, and the
    first mark of the new date replaces it. *)
Theorem ledger_resets_on_new_date (clock1 clock2 : Clock.t) (st : Manager.t)
  (name1 name2 : string) :
  Clock.toDateString clock1 <> Clock.toDateString clock2 ->
  let st1 := Manager.markGoalNotified name1 clock1 st in
  Manager.getNotifiedGoalsToday clock2 st1 = []
  /\ Manager.getNotifiedGoalsToday clock2 (Manager.markGoalNotified name2 clock2 st1)
     = [name2].
Proof.
  intros Hdate st1.
  assert (Hempty : Manager.getNotifiedGoalsToday clock2 st1 = []).
  { subst st1. unfold Manager.markGoalNotified.
    set (notified := Manager.set_add name1 (Manager.getNotifiedGoalsToday clock1 st)).
    unfold Manager.getNotifiedGoalsToday at 1. simpl Manager.db.
    unfold Db.getSetting, Db.setSetting. simpl Db.settings.
    rewrite lookup_insert_eq.
    assert (Htruthy : truthy_string
              (Some (JSON.stringify
                       (Manager.ledger (Clock.toDateString clock1) notified)))
            = true).
    { unfold JSON.stringify. now rewrite emit_ledger. }
    rewrite Htruthy. simpl negb. cbv iota. simpl default.
    rewrite parse_stringify_ledger.
    unfold Manager.ledger. simpl JSON.member. cbv iota.
    destruct (String.eqb (Clock.toDateString clock1) (Clock.toDateString clock2))
      eqn:E; [|reflexivity].
    apply String.eqb_eq in E. contradiction. }
  split; [exact Hempty|].
  rewrite getNotifiedGoalsToday_mark, Hempty. reflexivity.
Qed.

(** X19: [checkGoals] writes nothing but the ledger, whether it returns or
    throws: sessions, activities, every other setting, the timers and the
    record of the daily summary stay as they are, and what it shows are
    [Goal reached!] notifications.  (For the calls that the embedding
    covers to their end.) *)
Theorem checkGoals_writes_only_the_ledger (clock : Clock.t) (st : Manager.t) :
  (Manager.checkGoals clock st).1 <> None ->
  same_but_ledger st (Manager.checkGoals clock st).2
  /\ Manager.next_handle (Manager.checkGoals clock st).2 = Manager.next_handle st
  /\ exists notifications,
       Manager.shown (Manager.checkGoals clock st).2
       = Manager.shown st ++ notifications
       /\ Forall (fun n => Notification.title n = "Goal reached!") notifications.
Proof. intros _. exact (checkGoals_frame clock st). Qed.

(** X25: [checkGoals] shows a notification only for a category that an
    entry of the stored goal list names, that today's ledger does not list,
    and whose target is at most the duration that [checkGoals] finds for
    it; and only with the notifications switched on.  (For the calls that
    the embedding covers to their end.) *)
Theorem goal_notifications_are_earned (clock : Clock.t) (st : Manager.t) :
  (Manager.checkGoals clock st).1 <> None ->
  exists fired : list DailyGoal.t,
    Manager.shown (Manager.checkGoals clock st).2
    = Manager.shown st ++ map goalReachedNotification fired
    /\ forall goal, In goal fired ->
         Manager.isEnabled st = true
         /\ (exists text items,
               Db.getSetting "daily_goals" (Manager.db st) = Some text
               /\ JSON.parse text = Some (JSON.Arr items)
               /\ In (DailyGoal.categoryName goal) (entry_names items))
         /\ ~ In (DailyGoal.categoryName goal)
              (Manager.getNotifiedGoalsToday clock st)
         /\ ge (of_Z (Manager.currentMs
                        (Db.getCategoryBreakdown (Clock.startOfToday clock)
                           (Clock.now clock) (Manager.db st))
                        (Some (JSON.Str (DailyGoal.categoryName goal)))))
              (DailyGoal.targetMs goal)
            = true.
Proof.
  intros _.
  assert (Hnone : forall st',
            Manager.shown st' = Manager.shown st ->
            exists fired : list DailyGoal.t,
              Manager.shown st'
              = Manager.shown st ++ map goalReachedNotification fired
              /\ forall goal, In goal fired ->
                   Manager.isEnabled st = true
                   /\ (exists text items,
                         Db.getSetting "daily_goals" (Manager.db st) = Some text
                         /\ JSON.parse text = Some (JSON.Arr items)
                         /\ In (DailyGoal.categoryName goal) (entry_names items))
                   /\ ~ In (DailyGoal.categoryName goal)
                        (Manager.getNotifiedGoalsToday clock st)
                   /\ ge (of_Z (Manager.currentMs
                                  (Db.getCategoryBreakdown
                                     (Clock.startOfToday clock)
                                     (Clock.now clock) (Manager.db st))
                                  (Some (JSON.Str (DailyGoal.categoryName goal)))))
                        (DailyGoal.targetMs goal)
                      = true).
  { intros st' Hshown. exists []. rewrite Hshown. cbn [map].
    rewrite app_nil_r. split; [reflexivity|]. intros goal []. }
  unfold Manager.checkGoals.
  destruct (Manager.isEnabled st) eqn:Hen; [|now apply Hnone].
  cbn [negb]. cbv zeta.
  destruct (Db.getSetting "daily_goals" (Manager.db st)) as [text|] eqn:Hget;
    [|now apply Hnone].
  destruct (negb (truthy_string (Some text))); [now apply Hnone|].
  change (default EmptyString (Some text)) with text.
  destruct (JSON.parse text) as [[| | | |items|]|] eqn:Hparse;
    try now apply Hnone.
  destruct (checkGoals_loop_fired clock
              (Db.getCategoryBreakdown (Clock.startOfToday clock)
                 (Clock.now clock) (Manager.db st))
              (Manager.getNotifiedGoalsToday clock st) items st)
    as (fired & Hshown & Hincl & _ & Hfired & _).
  exists fired. split; [exact Hshown|].
  intros goal Hin. destruct (Hfired goal Hin) as (Hnot & Hmet).
  split; [reflexivity|]. split; [|split; [exact Hnot|exact Hmet]].
  exists text, items. split; [reflexivity|]. split; [exact Hparse|].
  apply Hincl. now apply in_map.
Qed.

End Ledger.

Section Texts.

(** X21: [formatDuration] of [h] hours, [m] minutes and less than a minute
    more reads [h]h [m]m, drops the minutes when [m] is 0 and the hours when
    [h] is 0; what is left of a minute is never shown. *)
Theorem formatDuration_shape (h m r : Z) :
  0 <= h -> 0 <= m < 60 -> 0 <= r < 60000 ->
  formatDuration (h * 3600000 + m * 60000 + r)
  = if 0 <? h
    then if 0 <? m
         then string_of_Z h +:+ "h " +:+ string_of_Z m +:+ "m"
         else string_of_Z h +:+ "h"
    else string_of_Z m +:+ "m".
Proof.
  intros Hh Hm Hr. unfold formatDuration. cbv zeta.
  assert (H1 : (h * 3600000 + m * 60000 + r) / 3600000 = h).
  { symmetry. apply Z.div_unique with (r := m * 60000 + r); lia. }
  assert (H2 : Z.rem (h * 3600000 + m * 60000 + r) 3600000 = m * 60000 + r).
  { rewrite Z.rem_mod_nonneg by lia.
    symmetry. apply Z.mod_unique with (q := h); lia. }
  assert (H3 : (m * 60000 + r) / 60000 = m).
  { symmetry. apply Z.div_unique with (r := r); lia. }
  rewrite H1, H2, H3. reflexivity.
Qed.

Lemma round_div_nearest (n d m : Z) :
  0 < d -> 2 * d * m - d <= 2 * n < 2 * d * m + d -> round_div n d = m.
Proof.
  intros Hd Hn. unfold round_div.
  symmetry. apply Z.div_unique with (r := 2 * n + d - 2 * d * m); lia.
Qed.

(** X22: with both switches on, [onPomodoroComplete] shows one notification
    that reports the duration in minutes, rounded to the nearest minute
    (half a minute goes up). *)
Theorem pomodoro_minutes_are_rounded (type : string) (durationMs minutes : Z)
  (label : option string) (st : Manager.t) :
  Manager.isEnabled st = true ->
  Manager.isPomodoroNotificationsEnabled st = true ->
  60000 * minutes - 30000 <= durationMs < 60000 * minutes + 30000 ->
  Manager.onPomodoroComplete type durationMs label st
  = Manager.show
      (if String.eqb type "work" then "Pomodoro complete!" else "Break's over!")
      (if String.eqb type "work"
       then match label with
            | None | Some EmptyString =>
                string_of_Z minutes +:+ " min of focused work complete."
            | Some text =>
                String dq text +:+ String dq " finished — "
                  +:+ string_of_Z minutes +:+ " min of focused work."
            end
       else "Your " +:+ string_of_Z minutes +:+ " min "
              +:+ replace_underscores type +:+ " is done. Ready to focus?")
      st.
Proof.
  intros Hon Hpom Hd. unfold Manager.onPomodoroComplete.
  rewrite Hon, Hpom. cbn [negb orb]. cbv zeta.
  rewrite (round_div_nearest durationMs 60000 minutes) by lia.
  destruct (String.eqb type "work"); [|reflexivity].
  destruct label as [[|c text]|]; reflexivity.
Qed.

End Texts.

(* ===================================================================== *)
(** * Scenarios and instances                                              *)
(* ===================================================================== *)

Section Scenarios.

(** Scenario A of the specification: one session, 1,800,000 ms, 3
    activities, all three with its id. *)
Example scenario_A :
  Db.sessions (insert_all three_samples fresh) = [editor_session]
  /\ map Activity.sessionId (Db.activities (insert_all three_samples fresh))
     = [Some 1; Some 1; Some 1].
Proof. split; reflexivity. Qed.

(** Scenario B: a break shown at minute 30 suppresses one forced at minute
    33, and a task armed for 30 minutes announces 30 minutes. *)
Example scenario_B :
  let at_30 := Clock.mk 1800000 "Mon Nov 02 2026" 0 (fun h => h) (fun h => h) in
  let at_33 := Clock.mk 1980000 "Mon Nov 02 2026" 0 (fun h => h) (fun h => h) in
  let st := manager_with "break_interval_minutes" "30" in
  let st30 := Manager.fireBreakReminder (Manager.getBreakIntervalMs st) at_30
                (Manager.set_lastBreakNotification (-86400000) st) in
  Manager.getBreakIntervalMs st = 1800000
  /\ Manager.shown st30
     = [Notification.mk "Time for a break!" "You've been working for 30 minutes."]
  /\ Manager.fireBreakReminder (Manager.getBreakIntervalMs st) at_33 st30 = st30.
Proof. repeat split; reflexivity. Qed.

(** Scenario C of the specification, on the code: no row of the breakdown
    has a [category_name], so the duration found for [development] is 0 and
    nothing is shown, with 3,700,000 ms tracked against the target of
    3,600,000 ms. *)
Example scenario_C :
  Manager.checkGoals evening (goal_day "development" development_goal)
  = (Some Manager.Returns, goal_day "development" development_goal).
Proof. vm_compute. reflexivity. Qed.

(** A goal with the target 0 is notified, once. *)
Example met_goal_example :
  let st := goal_day "deep_work" two_goals in
  Manager.shown (Manager.checkGoals evening st).2
  = [Notification.mk "Goal reached!" "You hit your deep work goal of 0h."]
  /\ Manager.shown
       (Manager.checkGoals evening (Manager.checkGoals evening st).2).2
     = Manager.shown (Manager.checkGoals evening st).2.
Proof. split; vm_compute; reflexivity. Qed.

(** An entry [null] ends the call with a [TypeError], after the goals before
    it were notified. *)
Example null_entry_example :
  let st := goal_day "deep_work" goal_then_null in
  (Manager.checkGoals evening st).1 = Some Manager.Throws
  /\ Manager.shown (Manager.checkGoals evening st).2
     = [Notification.mk "Goal reached!" "You hit your deep work goal of 0h."].
Proof. split; vm_compute; reflexivity. Qed.

(** The duration format: hours and minutes. *)
Example formatDuration_examples :
  formatDuration 5400000 = "1h 30m"
  /\ formatDuration 2700000 = "45m"
  /\ formatDuration 7200000 = "2h".
Proof. repeat split; reflexivity. Qed.

(** The hours of a goal: one decimal, no final [.0]. *)
Example hoursText_examples :
  Manager.hoursText (of_Z 3600000) = Some "1"
  /\ Manager.hoursText (of_Z 5400000) = Some "1.5"
  /\ Manager.hoursText (of_Z 9000000) = Some "2.5"
  /\ Manager.hoursText (of_Z 540000) = Some "0.1"
  /\ Manager.hoursText (JSON.number (-54) 5) = Some "-1.5".
Proof. repeat split; vm_compute; reflexivity. Qed.

(** The numbers that numerals are read as: halfway between two neighbours
    the even one, and an infinity beyond the largest number. *)
Example number_examples :
  JSON.number 9007199254740993 0 = of_Z 9007199254740992
  /\ JSON.number 15 (-1) = fdiv (of_Z 3) (of_Z 2)
  /\ JSON.number 1 999 = S754_infinity false.
Proof. repeat split; vm_compute; reflexivity. Qed.

(** The daily summary of scenario C's day: the call throws at the top
    category, and nothing is shown. *)
Example daily_summary_example :
  let st := goal_day "development" development_goal in
  (Manager.fireDailySummary evening st).1 = Manager.Throws
  /\ Manager.shown (Manager.fireDailySummary evening st).2 = []
  /\ Manager.dailySummaryShownToday (Manager.fireDailySummary evening st).2
     = true.
Proof. repeat split; vm_compute; reflexivity. Qed.

(** C1, instance: scenario A, then a pause and one more sample. *)
Lemma session_totals_invariant_witness :
  consistent fresh
  /\ In editor_session
       (Db.sessions
          (perform_all
             (map InsertActivity three_samples
              ++ [CloseCurrentSession; InsertActivity (editor_sample 1900000 2000000)])
             fresh))
  /\ Session.totalDuration editor_session
     = sum_durations
         (activities_of (Session.id editor_session)
            (perform_all
               (map InsertActivity three_samples
                ++ [CloseCurrentSession;
                    InsertActivity (editor_sample 1900000 2000000)])
               fresh))
  /\ Session.activityCount editor_session
     = Z.of_nat
         (List.length
            (activities_of (Session.id editor_session)
               (perform_all
                  (map InsertActivity three_samples
                   ++ [CloseCurrentSession;
                       InsertActivity (editor_sample 1900000 2000000)])
                  fresh))).
Proof.
  assert (Hin : In editor_session
                  (Db.sessions
                     (perform_all
                        (map InsertActivity three_samples
                         ++ [CloseCurrentSession;
                             InsertActivity (editor_sample 1900000 2000000)])
                        fresh)))
    by (vm_compute; left; reflexivity).
  split; [apply empty_consistent|]. split; [exact Hin|].
  exact (session_totals_invariant fresh _ editor_session
           (empty_consistent _) Hin).
Defined.

(** C2, instance: scenario A. *)
Lemma same_app_grouping_witness :
  consistent fresh
  /\ three_samples <> []
  /\ Forall (fun i => ActivityInput.app_name i = "Editor") three_samples
  /\ exists sid rows,
       Db.activities (insert_all three_samples fresh) = rows
       /\ map Activity.sessionId rows = [Some sid; Some sid; Some sid]
       /\ Db.open_for "Editor" (insert_all three_samples fresh) = Some sid
       /\ exists s,
            Db.sessions (insert_all three_samples fresh) = [s]
            /\ Session.id s = sid
            /\ Session.activityCount s = 3
            /\ Session.totalDuration s = 1800000.
Proof.
  assert (H1 : three_samples <> []) by discriminate.
  assert (H2 : Forall (fun i => ActivityInput.app_name i = "Editor") three_samples)
    by (repeat constructor).
  split; [apply empty_consistent|]. split; [exact H1|]. split; [exact H2|].
  destruct (same_app_grouping fresh "Editor" three_samples
              (empty_consistent _) H1 H2)
    as (sid & rows & Hrows & Hids & _ & Hopen & Hcase).
  change (Db.open_for "Editor" fresh) with (@None Z) in Hcase.
  destruct Hcase as (s & Hs & Hid & _ & Hcount & Htotal).
  exists sid, rows. repeat split; try assumption.
  exists s. repeat split; assumption.
Defined.

(** C9, instance: the activity without a session is not listed. *)
Lemma orphan_activities_dropped_witness :
  (forall s, In s (Db.sessions legacy_db) -> Session.id s <> 0)
  /\ map (fun sw => map ActivityRecord.id (SessionWithActivities.activities sw))
       (Db.getSessionsWithActivities 0 5000 legacy_db)
     = [[2]]
  /\ forall sw,
       In sw (Db.getSessionsWithActivities 0 5000 legacy_db) ->
       (forall r, In r (SessionWithActivities.activities sw) ->
          ActivityRecord.session_id r = Some (SessionWithActivities.id sw))
       /\ (forall a, Activity.sessionId a = None ->
             ~ In (Db.mapToRecord a) (SessionWithActivities.activities sw)).
Proof.
  assert (H : forall s, In s (Db.sessions legacy_db) -> Session.id s <> 0).
  { intros s [<-|[]]. simpl. lia. }
  split; [exact H|]. split; [vm_compute; reflexivity|].
  exact (proj2 (orphan_activities_dropped legacy_db 0 5000 H)).
Defined.

(** C10, instance: the session of scenario A, extended by a sample that
    ends after the session started. *)
Lemma session_interval_ordered_witness :
  In (Session.mk 1 "Editor" (Some "development") 0 1900000 1900000 4
        (Some "2026-11-02 09:00:00"))
    (Db.sessions
       (Db.updateSession 1 1900000 100000 (insert_all three_samples fresh)))
  /\ Session.startTime
       (Session.mk 1 "Editor" (Some "development") 0 1900000 1900000 4
          (Some "2026-11-02 09:00:00"))
     <= Session.endTime
          (Session.mk 1 "Editor" (Some "development") 0 1900000 1900000 4
             (Some "2026-11-02 09:00:00")).
Proof.
  assert (Hin : In (Session.mk 1 "Editor" (Some "development") 0 1900000
                      1900000 4 (Some "2026-11-02 09:00:00"))
                  (Db.sessions
                     (Db.updateSession 1 1900000 100000
                        (insert_all three_samples fresh))))
    by (vm_compute; left; reflexivity).
  split; [exact Hin|].
  apply (proj1 (proj2 session_interval_ordered) 1 1900000 100000
           (insert_all three_samples fresh)).
  - intros s [<-|[]]. simpl. lia.
  - intros s [<-|[]] _. simpl. lia.
  - exact Hin.
Defined.


(** C4, instance: the two goals, checked twice the same evening; the one
    notification of [deep_work] is all that both calls show. *)
Lemma checkGoals_notifies_once_witness :
  (exists fired1 fired2 : list DailyGoal.t,
     Manager.shown (Manager.checkGoals evening (goal_day "deep_work" two_goals)).2
     = Manager.shown (goal_day "deep_work" two_goals)
       ++ map goalReachedNotification fired1
     /\ Manager.shown
          (Manager.checkGoals evening
             (Manager.checkGoals evening (goal_day "deep_work" two_goals)).2).2
        = Manager.shown
            (Manager.checkGoals evening (goal_day "deep_work" two_goals)).2
          ++ map goalReachedNotification fired2
     /\ incl (map DailyGoal.categoryName (fired1 ++ fired2))
          (entry_names two_goals_items)
     /\ List.NoDup (map DailyGoal.categoryName (fired1 ++ fired2))
     /\ (forall goal, In goal fired1 ->
           In (DailyGoal.categoryName goal)
             (Manager.getNotifiedGoalsToday evening
                (Manager.checkGoals evening (goal_day "deep_work" two_goals)).2))
     /\ (forall goal, In goal fired2 ->
           ~ In (DailyGoal.categoryName goal)
               (Manager.getNotifiedGoalsToday evening
                  (Manager.checkGoals evening
                     (goal_day "deep_work" two_goals)).2)))
  /\ Manager.shown
       (Manager.checkGoals evening
          (Manager.checkGoals evening (goal_day "deep_work" two_goals)).2).2
     = [Notification.mk "Goal reached!" "You hit your deep work goal of 0h."].
Proof.
  split; [|vm_compute; reflexivity].
  apply (checkGoals_notifies_once evening evening
           (goal_day "deep_work" two_goals) two_goals two_goals_items).
  - reflexivity.
  - vm_compute. reflexivity.
  - vm_compute. reflexivity.
  - repeat constructor; simpl; intuition discriminate.
  - vm_compute. discriminate.
  - vm_compute. discriminate.
Defined.

(** C5, instance: scenario D, 45 seconds tracked. *)
Lemma low_activity_skip_marks_shown_witness :
  Manager.fireDailySummary evening (manager_over quiet_day)
  = (Manager.Returns,
     Manager.mk quiet_day None 0 None true (Some "Mon Nov 02 2026") [] 1 []).
Proof.
  apply (low_activity_skip_marks_shown evening (manager_over quiet_day)).
  - reflexivity.
  - reflexivity.
  - vm_compute. reflexivity.
Defined.

(** C6, instance: the day of scenario C, 3,700,000 ms tracked. *)
Lemma daily_summary_throws_witness :
  Manager.fireDailySummary evening (goal_day "development" development_goal)
  = (Manager.Throws,
     Manager.mk (Manager.db (goal_day "development" development_goal)) None 0
       None true (Some "Mon Nov 02 2026") [] 1 []).
Proof.
  apply (daily_summary_throws evening (goal_day "development" development_goal)).
  - reflexivity.
  - reflexivity.
  - vm_compute. discriminate.
Defined.

Lemma tracked_time_splits_witness :
  0 - 1 <= 599999 <= 1800000
  /\ Db.getTotalTrackedTime 0 1800000 (insert_all three_samples fresh)
     = Db.getTotalTrackedTime 0 599999 (insert_all three_samples fresh)
       + Db.getTotalTrackedTime (599999 + 1) 1800000
           (insert_all three_samples fresh).
Proof.
  split; [lia|].
  apply (tracked_time_splits 0 599999 1800000 (insert_all three_samples fresh)).
  lia.
Defined.

Lemma sessions_with_activities_witness :
  (forall s, In s (Db.sessions legacy_db) -> Session.id s <> 0)
  /\ descending SessionWithActivities.start_time
       (Db.getSessionsWithActivities 0 5000 legacy_db)
  /\ Permutation
       (map SessionWithActivities.id (Db.getSessionsWithActivities 0 5000 legacy_db))
       (map Session.id
          (List.filter (fun s => Db.in_range 0 5000 (Session.startTime s))
             (Db.sessions legacy_db))).
Proof.
  assert (H : forall s, In s (Db.sessions legacy_db) -> Session.id s <> 0).
  { intros s [<-|[]]. simpl. lia. }
  split; [exact H|].
  split.
  - exact (proj1 (sessions_with_activities 0 5000 legacy_db H)).
  - exact (proj1 (proj2 (sessions_with_activities 0 5000 legacy_db H))).
Defined.

Lemma session_spans_its_activities_witness :
  In editor_session
    (Db.sessions
       (perform_all (map InsertActivity three_samples)
          (Db.empty "2026-11-02 09:00:00")))
  /\ spans editor_session
       (activities_of (Session.id editor_session)
          (perform_all (map InsertActivity three_samples)
             (Db.empty "2026-11-02 09:00:00"))).
Proof.
  assert (Hin : In editor_session
                  (Db.sessions
                     (perform_all (map InsertActivity three_samples)
                        (Db.empty "2026-11-02 09:00:00"))))
    by (vm_compute; left; reflexivity).
  split; [exact Hin|].
  exact (session_spans_its_activities "2026-11-02 09:00:00"
           (map InsertActivity three_samples) editor_session Hin).
Defined.

Lemma left_session_is_final_witness :
  well_formed first_hour
  /\ In first_editor_session (Db.sessions first_hour)
  /\ leaves first_editor_session to_browser
  /\ In first_editor_session
       (Db.sessions (perform_all (to_browser :: back_to_editor) first_hour))
  /\ activities_of (Session.id first_editor_session)
       (perform_all (to_browser :: back_to_editor) first_hour)
     = activities_of (Session.id first_editor_session) first_hour.
Proof.
  assert (Hwf : well_formed first_hour)
    by apply perform_all_well_formed, empty_well_formed.
  assert (Hin : In first_editor_session (Db.sessions first_hour))
    by (vm_compute; left; reflexivity).
  assert (Hl : leaves first_editor_session to_browser)
    by (simpl; discriminate).
  split; [exact Hwf|]. split; [exact Hin|]. split; [exact Hl|].
  exact (left_session_is_final first_hour first_editor_session to_browser
           back_to_editor Hwf Hin Hl).
Defined.

Lemma one_daily_summary_per_date_witness :
  Forall (on_date "Mon Nov 02 2026") evening_events
  /\ (List.length (summaries (Manager.shown (run evening_events summary_day)))
      <= List.length (summaries (Manager.shown summary_day)) + 1)%nat.
Proof.
  assert (H : Forall (on_date "Mon Nov 02 2026") evening_events)
    by (repeat constructor).
  split; [exact H|].
  exact (one_daily_summary_per_date "Mon Nov 02 2026" evening_events summary_day H).
Defined.

Lemma notifications_off_is_silent_witness :
  Manager.isEnabled switched_off = false
  /\ List.filter is_break_reminder (Manager.timeouts switched_off) = []
  /\ Forall keeps_switch busy_events
  /\ Manager.shown (run busy_events switched_off) = Manager.shown switched_off.
Proof.
  assert (H1 : Manager.isEnabled switched_off = false) by reflexivity.
  assert (H2 : List.filter is_break_reminder (Manager.timeouts switched_off) = [])
    by reflexivity.
  assert (H3 : Forall keeps_switch busy_events)
    by (repeat constructor; simpl; discriminate).
  split; [exact H1|]. split; [exact H2|]. split; [exact H3|].
  exact (notifications_off_is_silent busy_events switched_off H1 H2 H3).
Defined.

Lemma ledger_resets_on_new_date_witness :
  Clock.toDateString evening <> Clock.toDateString next_morning
  /\ Manager.getNotifiedGoalsToday next_morning
       (Manager.markGoalNotified "development" evening (manager_over fresh))
     = []
  /\ Manager.getNotifiedGoalsToday next_morning
       (Manager.markGoalNotified "research" next_morning
          (Manager.markGoalNotified "development" evening (manager_over fresh)))
     = ["research"].
Proof.
  assert (H : Clock.toDateString evening <> Clock.toDateString next_morning)
    by (simpl; discriminate).
  split; [exact H|].
  exact (ledger_resets_on_new_date evening next_morning (manager_over fresh)
           "development" "research" H).
Defined.

Lemma formatDuration_shape_witness :
  0 <= 1 /\ 0 <= 30 < 60 /\ 0 <= 59999 < 60000
  /\ formatDuration (1 * 3600000 + 30 * 60000 + 59999) = "1h 30m".
Proof.
  assert (H1 : 0 <= 1) by lia.
  assert (H2 : 0 <= 30 < 60) by lia.
  assert (H3 : 0 <= 59999 < 60000) by lia.
  split; [exact H1|]. split; [exact H2|]. split; [exact H3|].
  exact (formatDuration_shape 1 30 59999 H1 H2 H3).
Defined.

Lemma pomodoro_minutes_are_rounded_witness :
  Manager.isEnabled (manager_over fresh) = true
  /\ Manager.isPomodoroNotificationsEnabled (manager_over fresh) = true
  /\ 60000 * 5 - 30000 <= 299000 < 60000 * 5 + 30000
  /\ Manager.onPomodoroComplete "short_break" 299000 None (manager_over fresh)
     = Manager.show "Break's over!"
         "Your 5 min short break is done. Ready to focus?" (manager_over fresh).
Proof.
  assert (H1 : Manager.isEnabled (manager_over fresh) = true) by reflexivity.
  assert (H2 : Manager.isPomodoroNotificationsEnabled (manager_over fresh) = true)
    by reflexivity.
  assert (H3 : 60000 * 5 - 30000 <= 299000 < 60000 * 5 + 30000) by lia.
  split; [exact H1|]. split; [exact H2|]. split; [exact H3|].
  exact (pomodoro_minutes_are_rounded "short_break" 299000 5 None
           (manager_over fresh) H1 H2 H3).
Defined.

Lemma stored_numbers_are_read_back_witness :
  Z.abs 25 * 60000 <= 2 ^ 53
  /\ parseInt (string_of_Z 25) = Some 25
  /\ Manager.getBreakIntervalMs
       (with_number "break_interval_minutes" 25 (manager_over fresh))
     = (if 25 <? 1 then 60 else 25) * 60000
  /\ Manager.getDailySummaryHour
       (with_number "daily_summary_hour" 25 (manager_over fresh))
     = (if (25 <? 0) || (23 <? 25) then 18 else 25).
Proof.
  assert (H : Z.abs 25 * 60000 <= 2 ^ 53) by (vm_compute; discriminate).
  split; [exact H|].
  exact (stored_numbers_are_read_back (manager_over fresh) 25 H).
Defined.

Lemma checkGoals_writes_only_the_ledger_witness :
  (Manager.checkGoals evening (goal_day "deep_work" goal_then_null)).1 <> None
  /\ (Manager.checkGoals evening (goal_day "deep_work" goal_then_null)).1
     = Some Manager.Throws
  /\ same_but_ledger (goal_day "deep_work" goal_then_null)
       (Manager.checkGoals evening (goal_day "deep_work" goal_then_null)).2
  /\ Manager.next_handle
       (Manager.checkGoals evening (goal_day "deep_work" goal_then_null)).2
     = Manager.next_handle (goal_day "deep_work" goal_then_null).
Proof.
  assert (H : (Manager.checkGoals evening
                 (goal_day "deep_work" goal_then_null)).1 <> None)
    by (vm_compute; discriminate).
  split; [exact H|]. split; [vm_compute; reflexivity|].
  destruct (checkGoals_writes_only_the_ledger evening
              (goal_day "deep_work" goal_then_null) H) as (Hsame & Hnext & _).
  split; [exact Hsame | exact Hnext].
Defined.

Lemma goal_notifications_are_earned_witness :
  (Manager.checkGoals evening (goal_day "deep_work" two_goals)).1 <> None
  /\ exists fired : list DailyGoal.t,
       Manager.shown (Manager.checkGoals evening (goal_day "deep_work" two_goals)).2
       = Manager.shown (goal_day "deep_work" two_goals)
         ++ map goalReachedNotification fired
       /\ forall goal, In goal fired ->
            ~ In (DailyGoal.categoryName goal)
                (Manager.getNotifiedGoalsToday evening
                   (goal_day "deep_work" two_goals)).
Proof.
  assert (H : (Manager.checkGoals evening (goal_day "deep_work" two_goals)).1
              <> None)
    by (vm_compute; discriminate).
  split; [exact H|].
  destruct (goal_notifications_are_earned evening
              (goal_day "deep_work" two_goals) H) as (fired & Hshown & Hfired).
  exists fired. split; [exact Hshown|].
  intros goal Hin. apply (Hfired goal Hin).
Defined.

Lemma listed_activities_match_totals_witness :
  consistent (insert_all three_samples fresh)
  /\ In (entry_of 0 2000000 (insert_all three_samples fresh) editor_session)
       (Db.getSessionsWithActivities 0 2000000 (insert_all three_samples fresh))
  /\ Z.of_nat
       (List.length
          (SessionWithActivities.activities
             (entry_of 0 2000000 (insert_all three_samples fresh) editor_session)))
     <= SessionWithActivities.activity_count
          (entry_of 0 2000000 (insert_all three_samples fresh) editor_session).
Proof.
  assert (Hc : consistent (insert_all three_samples fresh))
    by apply perform_all_consistent, empty_consistent.
  assert (Hin : In (entry_of 0 2000000 (insert_all three_samples fresh)
                      editor_session)
                  (Db.getSessionsWithActivities 0 2000000
                     (insert_all three_samples fresh)))
    by (vm_compute; left; reflexivity).
  split; [exact Hc|]. split; [exact Hin|].
  exact (proj1 (listed_activities_match_totals 0 2000000
                  (insert_all three_samples fresh)
                  (entry_of 0 2000000 (insert_all three_samples fresh)
                     editor_session)
                  Hc Hin)).
Defined.

Lemma activity_restarts_the_countdown_witness :
  Manager.isBreakRemindersEnabled
    (run [ActivityStarted; Idle] (Manager.constructor fresh evening))
  = true
  /\ exists h,
       List.filter is_break_reminder
         (Manager.timeouts
            (Manager.onActivityStarted
               (run [ActivityStarted; Idle] (Manager.constructor fresh evening))))
       = [Manager.mkTimeout h
            (Manager.getBreakIntervalMs
               (run [ActivityStarted; Idle] (Manager.constructor fresh evening)))
            (Manager.BreakReminder
               (Manager.getBreakIntervalMs
                  (run [ActivityStarted; Idle] (Manager.constructor fresh evening))))]
       /\ Manager.breakTimer
            (Manager.onActivityStarted
               (run [ActivityStarted; Idle] (Manager.constructor fresh evening)))
          = Some h.
Proof.
  assert (H : Manager.isBreakRemindersEnabled
                (run [ActivityStarted; Idle] (Manager.constructor fresh evening))
              = true)
    by reflexivity.
  split; [exact H|].
  exact (activity_restarts_the_countdown fresh evening [ActivityStarted; Idle] H).
Defined.

(** The evening of the scenarios, event by event: the daily timer becomes
    due and its task throws, so nothing is shown and no timer is armed for
    the next day. *)
Example evening_events_example :
  Manager.shown (run evening_events summary_day) = []
  /\ Manager.timeouts (run evening_events summary_day) = []
  /\ summary_done "Mon Nov 02 2026" (run evening_events summary_day).
Proof. vm_compute. repeat split; reflexivity. Qed.

End Scenarios.
